(** * SchemaGenie: the OCA importer [data_import/import_oca.py]

    A shallow embedding of [import_oca_package] and of the four Cypher
    statements it sends to the graph store, followed by the properties the
    specification states about them.

    Modelling choices.
    - A Python value is a [value]: what [json.load] returns, and the
      dictionaries the function builds itself (whose keys may be any hashable
      value, since a language tag is used as a key as it comes).  JSON numbers
      are integers here; literals with a fraction or an exponent (Python
      floats) are outside the model.  A [str] is a [string], its characters
      the [ascii] of it.
    - A Python dictionary is an association list in insertion order; lookup
      takes the first entry whose key compares equal, a store overwrites that
      entry in place or appends a new one.
    - A Python exception is a [Raise] in the [result] type; statements already
      sent to the store when it is raised stay sent.
    - [json.dumps] and [uuid.uuid4] are library code: the serialiser is a
      section variable, the generated identifier an argument.  Reading the
      file is left out: the function starts from the parsed document and the
      file's base name.
    - The graph store is a list of labelled nodes with a property map each
      and a list of typed relationships; [MERGE], [SET] and [MATCH] follow
      Cypher, where setting a property to null removes it and a [MERGE] on a
      null property is an error.  Which values the store accepts as property
      values, and failures of the connection, are outside the model. *)

From stdpp Require Import gmap strings list fin_maps.
From Stdlib Require Import ZArith.

Local Open Scope string_scope.
Local Open Scope Z_scope.
Local Open Scope list_scope.
Set Warnings "-register-all".

(** ** Python values *)

Inductive value : Type :=
| VNone
| VBool (b : bool)
| VInt (z : Z)
| VStr (s : string)
| VList (l : list value)
| VDict (d : list (value * value)).

Inductive exn : Type :=
| AttributeError
| TypeError
| KeyError
| IndexError.

Inductive result (A : Type) : Type :=
| Ok (a : A)
| Raise (e : exn).

Arguments Ok {A} a.
Arguments Raise {A} e.

Definition bind {A B : Type} (r : result A) (k : A -> result B) : result B :=
  match r with
  | Ok a => k a
  | Raise e => Raise e
  end.

Notation "'let*' x ':=' r 'in' k" := (bind r (fun x => k))
  (at level 10, x pattern, r at level 100, k at level 200).

(** [bool(v)] *)
Definition truthy (v : value) : bool :=
  match v with
  | VNone => false
  | VBool b => b
  | VInt z => negb (z =? 0)
  | VStr s => negb (String.eqb s "")
  | VList l => match l with [] => false | _ => true end
  | VDict d => match d with [] => false | _ => true end
  end.

(** [hash(v)] succeeds *)
Definition hashable (v : value) : bool :=
  match v with
  | VList _ | VDict _ => false
  | _ => true
  end.

Definition int_of_bool (b : bool) : Z := if b then 1 else 0.

(** [a == b] for hashable values: [True == 1] and [False == 0]. *)
Definition key_eqb (a b : value) : bool :=
  match a, b with
  | VNone, VNone => true
  | VBool x, VBool y => Z.eqb (int_of_bool x) (int_of_bool y)
  | VBool x, VInt y => Z.eqb (int_of_bool x) y
  | VInt x, VBool y => Z.eqb x (int_of_bool y)
  | VInt x, VInt y => Z.eqb x y
  | VStr x, VStr y => String.eqb x y
  | _, _ => false
  end.

Fixpoint dict_lookup (k : value) (d : list (value * value)) : option value :=
  match d with
  | [] => None
  | (k', v) :: d' => if key_eqb k' k then Some v else dict_lookup k d'
  end.

Fixpoint dict_store (k v : value) (d : list (value * value)) : list (value * value) :=
  match d with
  | [] => [(k, v)]
  | (k', v') :: d' =>
      if key_eqb k' k then (k', v) :: d' else (k', v') :: dict_store k v d'
  end.

(** [a == b] in general: lists elementwise, dictionaries as finite maps. *)
Fixpoint py_eqb (a b : value) {struct a} : bool :=
  match a, b with
  | VList l, VList l' =>
      (fix go (l l' : list value) {struct l} : bool :=
         match l, l' with
         | [], [] => true
         | x :: r, y :: r' => py_eqb x y && go r r'
         | _, _ => false
         end) l l'
  | VDict d, VDict d' =>
      Nat.eqb (length d) (length d') &&
      (fix go (d : list (value * value)) {struct d} : bool :=
         match d with
         | [] => true
         | (k, v) :: r =>
             match dict_lookup k d' with
             | Some v' => py_eqb v v'
             | None => false
             end && go r
         end) d
  | VList _, _ | VDict _, _ | _, VList _ | _, VDict _ => false
  | _, _ => key_eqb a b
  end.

(** [o.get(k, default)] *)
Definition py_get (o k default : value) : result value :=
  match o with
  | VDict d =>
      if hashable k then
        Ok (match dict_lookup k d with Some v => v | None => default end)
      else Raise TypeError
  | _ => Raise AttributeError
  end.

(** [o.items()] *)
Definition py_items (o : value) : result (list (value * value)) :=
  match o with
  | VDict d => Ok d
  | _ => Raise AttributeError
  end.

Fixpoint str_chars (s : string) : list value :=
  match s with
  | EmptyString => []
  | String c s' => VStr (String c EmptyString) :: str_chars s'
  end.

(** [iter(o)], driven to exhaustion *)
Definition py_iter (o : value) : result (list value) :=
  match o with
  | VList l => Ok l
  | VDict d => Ok (map fst d)
  | VStr s => Ok (str_chars s)
  | _ => Raise TypeError
  end.

Fixpoint is_substring (t s : string) : bool :=
  String.prefix t s ||
  match s with
  | EmptyString => false
  | String _ s' => is_substring t s'
  end.

(** [x in c] *)
Definition py_contains (x c : value) : result bool :=
  match c with
  | VDict d =>
      if hashable x then
        Ok (match dict_lookup x d with Some _ => true | None => false end)
      else Raise TypeError
  | VList l => Ok (existsb (py_eqb x) l)
  | VStr s =>
      match x with
      | VStr t => Ok (is_substring t s)
      | _ => Raise TypeError
      end
  | _ => Raise TypeError
  end.

(** A sequence index: negative indices count from the end. *)
Definition seq_index (n : nat) (i : Z) : option nat :=
  let len := Z.of_nat n in
  let j := if i <? 0 then i + len else i in
  if (0 <=? j) && (j <? len) then Some (Z.to_nat j) else None.

Definition index_of (k : value) : option Z :=
  match k with
  | VInt i => Some i
  | VBool b => Some (int_of_bool b)
  | _ => None
  end.

(** [c[k]] *)
Definition py_getitem (c k : value) : result value :=
  match c with
  | VDict d =>
      if hashable k then
        match dict_lookup k d with Some v => Ok v | None => Raise KeyError end
      else Raise TypeError
  | VList l =>
      match index_of k with
      | Some i =>
          match seq_index (length l) i with
          | Some j => match nth_error l j with Some v => Ok v | None => Raise IndexError end
          | None => Raise IndexError
          end
      | None => Raise TypeError
      end
  | VStr s =>
      match index_of k with
      | Some i =>
          match seq_index (length (str_chars s)) i with
          | Some j =>
              match nth_error (str_chars s) j with
              | Some v => Ok v
              | None => Raise IndexError
              end
          | None => Raise IndexError
          end
      | None => Raise TypeError
      end
  | _ => Raise TypeError
  end.

(** [c[k] = v], returning the container after the store *)
Definition py_setitem (c k v : value) : result value :=
  match c with
  | VDict d => if hashable k then Ok (VDict (dict_store k v d)) else Raise TypeError
  | VList l =>
      match index_of k with
      | Some i =>
          match seq_index (length l) i with
          | Some j => Ok (VList (<[j:=v]> l))
          | None => Raise IndexError
          end
      | None => Raise TypeError
      end
  | _ => Raise TypeError
  end.

(** [acc.setdefault(attr, {})[lang] = x]: the inner dictionary is the object
    held by [acc], so the store into it is a store into [acc]. *)
Definition setdefault_setitem (acc : list (value * value)) (attr lang x : value)
  : result (list (value * value)) :=
  if hashable attr then
    let inner := match dict_lookup attr acc with Some i => i | None => VDict [] end in
    let* inner' := py_setitem inner lang x in
    Ok (dict_store attr inner' acc)
  else Raise TypeError.

(** The inner loop [for attr, x in items: acc.setdefault(attr, {})[lang] = x]. *)
Fixpoint fold_items (lang : value) (items : list (value * value))
  (acc : list (value * value)) : result (list (value * value)) :=
  match items with
  | [] => Ok acc
  | (attr, x) :: rest =>
      let* acc' := setdefault_setitem acc attr lang x in
      fold_items lang rest acc'
  end.

(** One turn of the loops of lines 72-76 and 81-85; [field] is
    ["attribute_information"] or ["attribute_entries"]. *)
Definition fold_entry (field : string) (entry : value) (acc : list (value * value))
  : result (list (value * value)) :=
  let* lang := py_get entry (VStr "language") (VStr "unknown") in
  let* per_attr := py_get entry (VStr field) (VDict []) in
  let* items := py_items per_attr in
  fold_items lang items acc.

Fixpoint fold_entries (field : string) (entries : list value)
  (acc : list (value * value)) : result (list (value * value)) :=
  match entries with
  | [] => Ok acc
  | e :: rest =>
      let* acc' := fold_entry field e acc in
      fold_entries field rest acc'
  end.

(** Lines 70-76 (and 79-85): the language-keyed overlays folded into a
    dictionary from attribute to dictionary from language to value. *)
Definition fold_overlay (field : string) (section : value) : result value :=
  let* entries := py_iter section in
  let* acc := fold_entries field entries [] in
  Ok (VDict acc).

(** Lines 66-67, 88-89, 92-93: [o.get(field, {}) if o else {}]. *)
Definition keyed_overlay (field : string) (o : value) : result value :=
  if truthy o then py_get o (VStr field) (VDict []) else Ok (VDict []).

(** Lines 101-110. *)
Definition ordering_of (data capture_base_id : value) : result value :=
  let* extensions := py_get data (VStr "extensions") (VDict []) in
  let* adc_extension := py_get extensions (VStr "adc") (VDict []) in
  let* present := py_contains capture_base_id adc_extension in
  if present then
    let* ext := py_getitem adc_extension capture_base_id in
    let* ordering_overlays := py_get ext (VStr "overlays") (VDict []) in
    let* ordering := py_get ordering_overlays (VStr "ordering") (VDict []) in
    let* ao := py_get ordering (VStr "attribute_ordering") (VList []) in
    let* eo := py_get ordering (VStr "entry_code_ordering") (VDict []) in
    Ok (VDict [(VStr "attribute_ordering", ao); (VStr "entry_code_ordering", eo)])
  else Ok (VDict []).

(** Everything [import_oca_package] computes before it opens the session
    (lines 47-110). *)
Record normalized : Type := Normalized {
  schema_id : value;
  capture_base_id : value;
  attributes : value;
  units : value;
  attribute_descriptions : value;
  controlled_vocabularies : value;
  entry_codes : value;
  attribute_formats : value;
  meta_overlays : value;
  ordering_data : value
}.

(** Line 52: [data.get("d") or str(uuid.uuid4())]. *)
Definition pick_schema_id (d : value) (uuid4 : string) : value :=
  if truthy d then d else VStr uuid4.

(** Lines 63-96, from the [overlays] value on. *)
Record overlay_data : Type := OverlayData {
  o_units : value;
  o_descriptions : value;
  o_vocabularies : value;
  o_entry_codes : value;
  o_formats : value;
  o_meta : value
}.

Definition normalize_overlays (overlays : value) : result overlay_data :=
  let* unit_overlay := py_get overlays (VStr "unit") (VDict []) in
  let* units := keyed_overlay "attribute_unit" unit_overlay in
  let* information_overlays := py_get overlays (VStr "information") (VList []) in
  let* attribute_descriptions := fold_overlay "attribute_information" information_overlays in
  let* entry_overlays := py_get overlays (VStr "entry") (VList []) in
  let* controlled_vocabularies := fold_overlay "attribute_entries" entry_overlays in
  let* entry_code_overlay := py_get overlays (VStr "entry_code") (VDict []) in
  let* entry_codes := keyed_overlay "attribute_entry_codes" entry_code_overlay in
  let* format_overlay := py_get overlays (VStr "format") (VDict []) in
  let* attribute_formats := keyed_overlay "attribute_formats" format_overlay in
  let* meta_overlays := py_get overlays (VStr "meta") (VList []) in
  Ok (OverlayData units attribute_descriptions controlled_vocabularies
        entry_codes attribute_formats meta_overlays).

Definition normalize (data : value) (uuid4 : string) : result normalized :=
  let* oca_bundle := py_get data (VStr "oca_bundle") (VDict []) in
  let* bundle := py_get oca_bundle (VStr "bundle") (VDict []) in
  let* capture_base := py_get bundle (VStr "capture_base") (VDict []) in
  let* d := py_get data (VStr "d") VNone in
  let schema_id := pick_schema_id d uuid4 in
  let* capture_base_id := py_get capture_base (VStr "d") VNone in
  let* attributes := py_get capture_base (VStr "attributes") (VDict []) in
  let* overlays := py_get bundle (VStr "overlays") (VDict []) in
  let* o := normalize_overlays overlays in
  let* ordering_data := ordering_of data capture_base_id in
  Ok (Normalized schema_id capture_base_id attributes (o_units o)
        (o_descriptions o) (o_vocabularies o) (o_entry_codes o)
        (o_formats o) (o_meta o) ordering_data).

(** ** The statements sent to the store

    One constructor per Cypher statement of the source, carrying the
    parameters of the [session.run] call. *)

Inductive op : Type :=
| SchemaUpsert (schema_id schema_name capture_base_id schema_type : value)
| AttributeUpsert (attr_name attr_type attr_unit attr_description attr_format
                   attr_vocabulary attr_codes schema_id : value)
| MetaUpsert (meta_name meta_desc meta_language schema_id : value)
| OrderingUpdate (schema_id attribute_ordering entry_code_ordering : value).

(** The statements sent so far, and how the run ended. *)
Definition trace : Type := list op * option exn.

Definition then_ (t : trace) (k : trace) : trace :=
  match t with
  | (ops, None) => (ops ++ k.1, k.2)
  | (ops, Some e) => (ops, Some e)
  end.

Definition lifted {A : Type} (r : result A) (k : A -> trace) : trace :=
  match r with
  | Ok a => k a
  | Raise e => ([], Some e)
  end.

Notation "'try' x ':=' r 'in' k" := (lifted r (fun x => k))
  (at level 10, x pattern, r at level 100, k at level 200).

Definition run (q : op) : trace := ([q], None).

Definition done : trace := ([], None).

Fixpoint for_each {A : Type} (body : A -> trace) (l : list A) : trace :=
  match l with
  | [] => done
  | x :: rest => then_ (body x) (for_each body rest)
  end.

Section Emitter.

(** [json.dumps] *)
Variable json_dumps : value -> string.

(** [json.dumps(v) if v else None] *)
Definition dumps_if (v : value) : value :=
  if truthy v then VStr (json_dumps v) else VNone.

(** The body of the loop of lines 132-160. *)
Definition emit_attribute (n : normalized) (item : value * value) : trace :=
  let '(attr_name, attr_type) := item in
  try attr_unit := py_get (units n) attr_name VNone in
  try described := py_get (attribute_descriptions n) attr_name VNone in
  let attr_description := dumps_if described in
  try attr_format := py_get (attribute_formats n) attr_name VNone in
  try attr_vocabulary := py_get (controlled_vocabularies n) attr_name VNone in
  try attr_codes := py_get (entry_codes n) attr_name VNone in
  run (AttributeUpsert attr_name attr_type attr_unit attr_description attr_format
         (dumps_if attr_vocabulary) (dumps_if attr_codes) (schema_id n)).

(** The body of the loop of lines 163-180. *)
Definition emit_meta (n : normalized) (meta : value) : trace :=
  try meta_name := py_get meta (VStr "name") VNone in
  try meta_desc := py_get meta (VStr "description") VNone in
  try meta_language := py_get meta (VStr "language") (VStr "unknown") in
  if truthy meta_name
  then run (MetaUpsert meta_name meta_desc meta_language (schema_id n))
  else done.

(** Lines 183-193. *)
Definition emit_ordering (n : normalized) : trace :=
  if truthy (ordering_data n) then
    try attribute_ordering :=
      py_get (ordering_data n) (VStr "attribute_ordering") (VList []) in
    try entry_code_ordering :=
      py_get (ordering_data n) (VStr "entry_code_ordering") (VDict []) in
    run (OrderingUpdate (schema_id n) attribute_ordering
           (VStr (json_dumps entry_code_ordering)))
  else done.

(** Lines 115-193. *)
Definition emit (data : value) (schema_name : string) (n : normalized) : trace :=
  then_ (try schema_type := py_get data (VStr "type") (VStr "oca_package/1.0") in
         run (SchemaUpsert (schema_id n) (VStr schema_name) (capture_base_id n)
                schema_type))
 (then_ (try items := py_items (attributes n) in
         for_each (emit_attribute n) items)
 (then_ (try metas := py_iter (meta_overlays n) in
         for_each (emit_meta n) metas)
        (emit_ordering n))).

(** [import_oca_package], from the parsed document on: [data] is what
    [json.load] returned, [schema_name] the file's base name without its
    extension, [uuid4] what [str(uuid.uuid4())] returns if it is called. *)
Definition import_oca_package (data : value) (schema_name uuid4 : string) : trace :=
  try n := normalize data uuid4 in
  emit data schema_name n.

End Emitter.

(** ** The graph store

    Nodes are identified by their position in [nodes]; nothing the importer
    sends deletes a node or a relationship. *)

Record node : Type := Node {
  label : string;
  props : gmap string value
}.

Record graph : Type := Graph {
  nodes : list node;
  rels : list (nat * string * nat)
}.

Definition empty_graph : graph := Graph [] [].

(** Equality of stored values. *)
Fixpoint value_eqb (a b : value) {struct a} : bool :=
  match a, b with
  | VNone, VNone => true
  | VBool x, VBool y => Bool.eqb x y
  | VInt x, VInt y => Z.eqb x y
  | VStr x, VStr y => String.eqb x y
  | VList l, VList l' =>
      (fix go (l l' : list value) {struct l} : bool :=
         match l, l' with
         | [], [] => true
         | x :: r, y :: r' => value_eqb x y && go r r'
         | _, _ => false
         end) l l'
  | VDict d, VDict d' =>
      (fix go (d d' : list (value * value)) {struct d} : bool :=
         match d, d' with
         | [], [] => true
         | (k, v) :: r, (k', v') :: r' => value_eqb k k' && value_eqb v v' && go r r'
         | _, _ => false
         end) d d'
  | _, _ => false
  end.

(** The pattern [(:lbl {k1: v1, ...})] holds of a node. *)
Definition has_prop (n : node) (kv : string * value) : bool :=
  match props n !! kv.1 with
  | Some w => value_eqb w kv.2
  | None => false
  end.

Definition matches (lbl : string) (key : list (string * value)) (n : node) : bool :=
  String.eqb (label n) lbl && forallb (has_prop n) key.

(** [MATCH (x:lbl {key})]: the nodes bound to [x]. *)
Definition matches_at (lbl : string) (key : list (string * value))
  (ns : list node) (i : nat) : bool :=
  match ns !! i with
  | Some n => matches lbl key n
  | None => false
  end.

Definition match_nodes (lbl : string) (key : list (string * value)) (g : graph)
  : list nat :=
  filter (fun i => matches_at lbl key (nodes g) i) (seq 0 (length (nodes g))).

Definition is_null (v : value) : bool :=
  match v with VNone => true | _ => false end.

(** [MERGE (x:lbl {key})]: the nodes bound to [x], one of them new when the
    pattern held of none; the statement is rejected when a property of the
    pattern is null. *)
Definition merge_node (lbl : string) (key : list (string * value)) (g : graph)
  : option (graph * list nat) :=
  if existsb (fun kv => is_null kv.2) key then None
  else match match_nodes lbl key g with
       | [] => Some (Graph (nodes g ++ [Node lbl (list_to_map key)]) (rels g),
                     [length (nodes g)])
       | bound => Some (g, bound)
       end.

(** [SET x.k = v]; a null [v] removes the property. *)
Definition set_prop (p : gmap string value) (kv : string * value) : gmap string value :=
  match kv.2 with
  | VNone => delete kv.1 p
  | v => <[kv.1 := v]> p
  end.

Definition set_props (sets : list (string * value)) (p : gmap string value)
  : gmap string value :=
  foldl set_prop p sets.

Definition bound_in (bound : list nat) (i : nat) : bool := existsb (Nat.eqb i) bound.

(** [SET x.k1 = v1, ...] on the nodes bound to [x]. *)
Definition set_on (bound : list nat) (sets : list (string * value)) (g : graph) : graph :=
  Graph (imap (fun i n => if bound_in bound i
                          then Node (label n) (set_props sets (props n))
                          else n) (nodes g))
        (rels g).

Definition rel_eqb (r r' : nat * string * nat) : bool :=
  Nat.eqb r.1.1 r'.1.1 && String.eqb r.1.2 r'.1.2 && Nat.eqb r.2 r'.2.

(** [MERGE (s)-[:ty]->(t)] on one row. *)
Definition merge_rel (ty : string) (g : graph) (row : nat * nat) : graph :=
  if existsb (rel_eqb (row.1, ty, row.2)) (rels g) then g
  else Graph (nodes g) (rels g ++ [(row.1, ty, row.2)]).

(** [WITH t MATCH (s ...) MERGE (s)-[:ty]->(t)]: one row per bound [t] and
    matched [s]. *)
Definition merge_rels (ty : string) (sources targets : list nat) (g : graph) : graph :=
  foldl (merge_rel ty) g
        (t ← targets; s ← sources; [(s, t)]).

(** The four statements.  [None]: the store rejects the statement. *)
Definition apply_op (q : op) (g : graph) : option graph :=
  match q with
  | SchemaUpsert schema_id schema_name capture_base_id schema_type =>
      '(g1, s) ← merge_node "Schema" [("id", schema_id)] g;
      Some (set_on s [("name", schema_name); ("displayName", schema_name);
                      ("capture_base_id", capture_base_id);
                      ("type", schema_type)] g1)
  | AttributeUpsert attr_name attr_type attr_unit attr_description attr_format
      attr_vocabulary attr_codes schema_id =>
      '(g1, a) ← merge_node "Attribute" [("name", attr_name)] g;
      let g2 := set_on a [("type", attr_type); ("unit", attr_unit);
                          ("description", attr_description);
                          ("format", attr_format);
                          ("vocabulary", attr_vocabulary);
                          ("codes", attr_codes)] g1 in
      Some (merge_rels "HAS_ATTRIBUTE"
              (match_nodes "Schema" [("id", schema_id)] g2) a g2)
  | MetaUpsert meta_name meta_desc meta_language schema_id =>
      '(g1, m) ← merge_node "Meta" [("name", meta_name); ("schema_id", schema_id);
                                    ("language", meta_language)] g;
      let g2 := set_on m [("description", meta_desc)] g1 in
      Some (merge_rels "HAS_META"
              (match_nodes "Schema" [("id", schema_id)] g2) m g2)
  | OrderingUpdate schema_id attribute_ordering entry_code_ordering =>
      Some (set_on (match_nodes "Schema" [("id", schema_id)] g)
              [("attribute_ordering", attribute_ordering);
               ("entry_code_ordering", entry_code_ordering)] g)
  end.

(** The statements of one run, in order; a rejected statement raises in the
    importer, so that the ones after it are never sent. *)
Fixpoint apply_ops (ops : list op) (g : graph) : graph :=
  match ops with
  | [] => g
  | q :: rest =>
      match apply_op q g with
      | Some g' => apply_ops rest g'
      | None => g
      end
  end.

(** ** Vocabulary of the statements below *)

(** [v.get(k1, {}).get(k2, {})...], the way the source reaches a section. *)
Fixpoint get_path (ks : list string) (v : value) : result value :=
  match ks with
  | [] => Ok v
  | k :: rest =>
      let* v' := py_get v (VStr k) (VDict []) in
      get_path rest v'
  end.

(** What a hashable value is as a dictionary key: [True] and [1] are the
    same key. *)
Definition key_class (v : value) : option (unit + Z + string) :=
  match v with
  | VNone => Some (inl (inl tt))
  | VBool b => Some (inl (inr (int_of_bool b)))
  | VInt z => Some (inl (inr z))
  | VStr s => Some (inr s)
  | _ => None
  end.

(** [acc[attr][lang]], when both are there. *)
Definition get2 (acc : list (value * value)) (attr lang : value) : option value :=
  match dict_lookup attr acc with
  | Some (VDict inner) => dict_lookup lang inner
  | _ => None
  end.

(** The keys of a dictionary are hashable and pairwise different, as they are
    in any dictionary Python builds. *)
Fixpoint distinct_keys (d : list (value * value)) : bool :=
  match d with
  | [] => true
  | (k, _) :: rest =>
      hashable k
      && match dict_lookup k rest with Some _ => false | None => true end
      && distinct_keys rest
  end.

Definition is_mapping (v : value) : bool :=
  match v with VDict _ => true | _ => false end.

(** Every value of the dictionary is itself a dictionary. *)
Definition lang_table (acc : list (value * value)) : Prop :=
  Forall (fun kv => is_mapping kv.2 = true) acc.


Definition op_schema_id (q : op) : value :=
  match q with
  | SchemaUpsert schema_id _ _ _ => schema_id
  | AttributeUpsert _ _ _ _ _ _ _ schema_id => schema_id
  | MetaUpsert _ _ _ schema_id => schema_id
  | OrderingUpdate schema_id _ _ => schema_id
  end.

Definition is_ordering_update (q : op) : bool :=
  match q with OrderingUpdate _ _ _ => true | _ => false end.

Definition is_attribute_upsert (q : op) : bool :=
  match q with AttributeUpsert _ _ _ _ _ _ _ _ => true | _ => false end.

Definition is_meta_upsert (q : op) : bool :=
  match q with MetaUpsert _ _ _ _ => true | _ => false end.

(** The property [k] of node [i], if the node exists and has it. *)
Definition prop_at (g : graph) (i : nat) (k : string) : option value :=
  n ← nodes g !! i; props n !! k.

(** What [SET x.k = v] leaves behind. *)
Definition stored (v : value) : option value :=
  match v with VNone => None | _ => Some v end.

(** A relationship of type [ty] from node [s] to node [t]. *)
Definition has_rel (g : graph) (s : nat) (ty : string) (t : nat) : Prop :=
  (s, ty, t) ∈ rels g.

(** The capture base of a document, the way the source reaches it. *)
Definition capture_base_of (data : value) : result value :=
  get_path ["oca_bundle"; "bundle"; "capture_base"] data.

Definition overlays_of (data : value) : result value :=
  let* bundle := get_path ["oca_bundle"; "bundle"] data in
  py_get bundle (VStr "overlays") (VDict []).

(** The normalised record with another value for the meta section. *)
Definition with_meta (n : normalized) (v : value) : normalized :=
  Normalized (schema_id n) (capture_base_id n) (attributes n) (units n)
    (attribute_descriptions n) (controlled_vocabularies n) (entry_codes n)
    (attribute_formats n) v (ordering_data n).

(** An empty string, list or mapping. *)
Definition is_empty_container (v : value) : bool :=
  match v with
  | VStr s => String.eqb s ""
  | VList [] | VDict [] => true
  | _ => false
  end.

(** ** The statements, read uniformly

    Each statement has a target pattern (the [MERGE], or for the ordering
    update the [MATCH]), a list of properties it sets on the nodes bound to
    the target, and possibly a relationship it merges from the Schema nodes
    of its schema id to those nodes. *)

Inductive kind : Type := KSchema | KAttribute | KMeta.

Definition label_of (k : kind) : string :=
  match k with
  | KSchema => "Schema"
  | KAttribute => "Attribute"
  | KMeta => "Meta"
  end.

Definition key_names (k : kind) : list string :=
  match k with
  | KSchema => ["id"]
  | KAttribute => ["name"]
  | KMeta => ["name"; "schema_id"; "language"]
  end.

Definition pattern : Type := string * list (string * value).

Definition schema_pattern (schema_id : value) : pattern :=
  ("Schema", [("id", schema_id)]).

Definition attribute_pattern (attr_name : value) : pattern :=
  ("Attribute", [("name", attr_name)]).

Definition meta_pattern (meta_name schema_id meta_language : value) : pattern :=
  ("Meta", [("name", meta_name); ("schema_id", schema_id);
            ("language", meta_language)]).

Definition op_target (q : op) : pattern :=
  match q with
  | SchemaUpsert schema_id _ _ _ => schema_pattern schema_id
  | AttributeUpsert attr_name _ _ _ _ _ _ _ => attribute_pattern attr_name
  | MetaUpsert meta_name _ meta_language schema_id =>
      meta_pattern meta_name schema_id meta_language
  | OrderingUpdate schema_id _ _ => schema_pattern schema_id
  end.

Definition op_sets (q : op) : list (string * value) :=
  match q with
  | SchemaUpsert _ schema_name capture_base_id schema_type =>
      [("name", schema_name); ("displayName", schema_name);
       ("capture_base_id", capture_base_id); ("type", schema_type)]
  | AttributeUpsert _ attr_type attr_unit attr_description attr_format
      attr_vocabulary attr_codes _ =>
      [("type", attr_type); ("unit", attr_unit); ("description", attr_description);
       ("format", attr_format); ("vocabulary", attr_vocabulary);
       ("codes", attr_codes)]
  | MetaUpsert _ meta_desc _ _ => [("description", meta_desc)]
  | OrderingUpdate _ attribute_ordering entry_code_ordering =>
      [("attribute_ordering", attribute_ordering);
       ("entry_code_ordering", entry_code_ordering)]
  end.

(** The statement starts with a [MERGE] of its target. *)
Definition op_creates (q : op) : bool :=
  match q with OrderingUpdate _ _ _ => false | _ => true end.

Definition op_rel (q : op) : option string :=
  match q with
  | AttributeUpsert _ _ _ _ _ _ _ _ => Some "HAS_ATTRIBUTE"
  | MetaUpsert _ _ _ _ => Some "HAS_META"
  | _ => None
  end.

(** The store takes the statement: no property of a [MERGE] pattern is null. *)
Definition accepted (q : op) : bool :=
  negb (op_creates q && existsb (fun kv => is_null kv.2) (op_target q).2).

Definition matches_p (p : pattern) (n : node) : bool := matches p.1 p.2 n.

Definition fresh (p : pattern) : node := Node p.1 (list_to_map p.2).

Definition upd (p : pattern) (sets : list (string * value)) (n : node) : node :=
  if matches_p p n then Node (label n) (set_props sets (props n)) else n.

Definition positions (p : pattern) (ns : list node) : list nat :=
  filter (fun i => matches_at p.1 p.2 ns i) (seq 0 (length ns)).

Definition ensure (q : op) (ns : list node) : list node :=
  if op_creates q then
    match positions (op_target q) ns with
    | [] => ns ++ [fresh (op_target q)]
    | _ => ns
    end
  else ns.

(** The nodes after a statement the store takes. *)
Definition step_nodes (q : op) (ns : list node) : list node :=
  map (upd (op_target q) (op_sets q)) (ensure q ns).

(** The graph after a statement the store takes. *)
Definition exec (q : op) (g : graph) : graph :=
  let ns := step_nodes q (nodes g) in
  match op_rel q with
  | Some ty =>
      merge_rels ty (positions (schema_pattern (op_schema_id q)) ns)
        (positions (op_target q) ns) (Graph ns (rels g))
  | None => Graph ns (rels g)
  end.

(** The statements of a run that reach the store. *)
Fixpoint sent (ops : list op) : list op :=
  match ops with
  | [] => []
  | q :: rest => if accepted q then q :: sent rest else []
  end.

(** A pattern of one of the three kinds of node the importer writes: the
    label fixes the names of the key properties. *)
Definition wf_pattern (p : pattern) : Prop :=
  exists k, p.1 = label_of k /\ p.2.*1 = key_names k.

(** The properties [sets] names are no key property of the nodes [p] binds. *)
Definition avoids (p : pattern) (sets : list (string * value)) : Prop :=
  forall k, label_of k = p.1 -> Forall (fun x => x ∉ sets.*1) (key_names k).

(** What an attribute upsert reads from a keyed section: [section.get(a)]. *)
Definition overlay_value (section a : value) : value :=
  match section with
  | VDict d => match dict_lookup a d with Some v => v | None => VNone end
  | _ => VNone
  end.

(** All keys of the dictionary are strings, as in a JSON object. *)
Definition string_keys (d : list (value * value)) : bool :=
  forallb (fun kv => match kv.1 with VStr _ => true | _ => false end) d.

(** The statement of the loop of lines 132-160 for one attribute. *)
Definition attribute_upsert (json_dumps : value -> string)
  (n : normalized) (a ty : value) : op :=
  AttributeUpsert a ty
    (overlay_value (units n) a)
    (dumps_if json_dumps (overlay_value (attribute_descriptions n) a))
    (overlay_value (attribute_formats n) a)
    (dumps_if json_dumps (overlay_value (controlled_vocabularies n) a))
    (dumps_if json_dumps (overlay_value (entry_codes n) a))
    (schema_id n).

(** ** Example documents and graphs *)

(** A document with the top-level id [id], one attribute "dob", no overlay
    but the meta entries [metas], and no extension. *)
Definition example_document (id : string) (metas : list value) : value :=
  VDict [(VStr "d", VStr id);
         (VStr "oca_bundle",
          VDict [(VStr "bundle",
            VDict [(VStr "capture_base",
                      VDict [(VStr "d", VStr "EB1");
                             (VStr "attributes",
                              VDict [(VStr "dob", VStr "DateTime")])]);
                   (VStr "overlays", VDict [(VStr "meta", VList metas)])])])].

Definition example_meta : value :=
  VDict [(VStr "name", VStr "name"); (VStr "description", VStr "Patients");
         (VStr "language", VStr "en")].

(** A graph holding one Attribute node "dob" with a unit. *)
Definition stale_graph : graph :=
  Graph [Node "Attribute" (<["unit" := VStr "d"]> (<["name" := VStr "dob"]> ∅))] [].

(** ** Runs of the importer *)

Definition is_schema_upsert (q : op) : bool :=
  match q with SchemaUpsert _ _ _ _ => true | _ => false end.

(** A statement that refers to the Schema node [sid] without merging it. *)
Definition follows (sid : value) (q : op) : Prop :=
  op_schema_id q = sid /\ is_schema_upsert q = false.

(** The statements of one import: the Schema upsert, then statements that
    refer to its node. *)
Definition headed (sid : value) (ops : list op) : Prop :=
  match ops with
  | [] => True
  | q :: rest =>
      (exists nm cb ty, q = SchemaUpsert sid nm cb ty) /\ Forall (follows sid) rest
  end.

(** Every node [ps] binds has a relationship [ty] to every node [pt] binds. *)
Definition rel_closed (g : graph) (ty : string) (ps pt : pattern) : Prop :=
  forall s t, s ∈ positions ps (nodes g) -> t ∈ positions pt (nodes g) ->
              has_rel g s ty t.

(** The import of [data] normalised it to [n] and ran to its end, and the
    store took every statement of [ops]. *)
Definition imports (json_dumps : value -> string) (data : value)
  (schema_name uuid4 : string) (n : normalized) (ops : list op) : Prop :=
  normalize data uuid4 = Ok n /\
  import_oca_package json_dumps data schema_name uuid4 = (ops, None) /\
  Forall (fun q => accepted q = true) ops.

(** The capture base declares the attribute [a] with type [ty]. *)
Definition declares (n : normalized) (a ty : value) : Prop :=
  exists items, attributes n = VDict items /\ distinct_keys items = true /\
                (a, ty) ∈ items.

(** The meta section has an entry with the truthy name [name] and the
    language [lang]. *)
Definition declares_meta (n : normalized) (name lang : value) : Prop :=
  exists metas meta,
    py_iter (meta_overlays n) = Ok metas /\ meta ∈ metas /\
    py_get meta (VStr "name") VNone = Ok name /\ truthy name = true /\
    py_get meta (VStr "language") (VStr "unknown") = Ok lang.

(** ** A second run of the same statements *)

(** The value the list of assignments [sets] leaves for [k]: that of the
    last assignment to [k], if there is one. *)
Fixpoint assigned (k : string) (sets : list (string * value)) : option value :=
  match sets with
  | [] => None
  | kv :: rest =>
      match assigned k rest with
      | Some v => Some v
      | None => if String.eqb kv.1 k then Some kv.2 else None
      end
  end.

(** The [SET]s of the statements [ops], in order, on one node. *)
Definition upd_all (ops : list op) (n : node) : node :=
  foldl (fun n q => upd (op_target q) (op_sets q) n) n ops.

(** The assignments the statements [ops] make on the node [n], in order. *)
Fixpoint sets_for (ops : list op) (n : node) : list (string * value) :=
  match ops with
  | [] => []
  | q :: rest =>
      (if matches_p (op_target q) n then op_sets q else []) ++ sets_for rest n
  end.

(** No statement with a [MERGE] comes after a [MATCH] of the same target. *)
Definition creators_first (ops : list op) : Prop :=
  forall ops1 q ops2, ops = ops1 ++ q :: ops2 -> op_creates q = true ->
    forall q', q' ∈ ops1 -> op_target q' = op_target q -> op_creates q' = true.

(** ** The statements of a completed import *)

(** [o.get(k, dflt)] on a dictionary [o]. *)
Definition get_or (o : value) (k : string) (dflt : value) : value :=
  match o with
  | VDict d => match dict_lookup (VStr k) d with Some v => v | None => dflt end
  | _ => dflt
  end.

(** The statement of lines 117-129. *)
Definition schema_upsert (data : value) (schema_name : string) (n : normalized) : op :=
  SchemaUpsert (schema_id n) (VStr schema_name) (capture_base_id n)
    (get_or data "type" (VStr "oca_package/1.0")).

(** The statements of the loop of lines 163-180 for one meta entry. *)
Definition meta_upserts (n : normalized) (meta : value) : list op :=
  if truthy (get_or meta "name" VNone)
  then [MetaUpsert (get_or meta "name" VNone) (get_or meta "description" VNone)
          (get_or meta "language" (VStr "unknown")) (schema_id n)]
  else [].

(** The statements of lines 183-193. *)
Definition ordering_updates (json_dumps : value -> string) (n : normalized) : list op :=
  if truthy (ordering_data n)
  then [OrderingUpdate (schema_id n)
          (get_or (ordering_data n) "attribute_ordering" (VList []))
          (VStr (json_dumps (get_or (ordering_data n) "entry_code_ordering" (VDict []))))]
  else [].

Definition completed_statements (json_dumps : value -> string) (data : value)
  (schema_name : string) (n : normalized) (items : list (value * value))
  (metas : list value) : list op :=
  schema_upsert data schema_name n ::
  map (fun item => attribute_upsert json_dumps n item.1 item.2) items ++
  concat (map (meta_upserts n) metas) ++
  ordering_updates json_dumps n.

(** Each pattern of the three kinds binds at most one node. *)
Definition unique_keys (g : graph) : Prop :=
  forall p, wf_pattern p -> (length (positions p (nodes g)) <= 1)%nat.

(** ** Batches of imports *)

(** Every statement other than a Schema upsert comes after a Schema upsert
    of its schema id. *)
Definition grounded (ops : list op) : Prop :=
  forall ops1 q ops2, ops = ops1 ++ q :: ops2 -> is_schema_upsert q = false ->
    exists q', q' ∈ ops1 /\ is_schema_upsert q' = true /\
               op_schema_id q' = op_schema_id q.

(** ** File names (lines 41, 221 and 231) *)

(** [s.startswith(t)]. *)
Fixpoint py_startswith (s t : string) {struct t} : bool :=
  match t with
  | EmptyString => true
  | String b t' =>
      match s with
      | EmptyString => false
      | String a s' => Ascii.eqb a b && py_startswith s' t'
      end
  end.

(** [s[n:]]. *)
Fixpoint drop_chars (n : nat) (s : string) : string :=
  match n, s with
  | S n', String _ s' => drop_chars n' s'
  | _, _ => s
  end.

(** [s.endswith(t)]. *)
Definition py_endswith (s t : string) : bool :=
  (String.length t <=? String.length s)%nat &&
  String.eqb (drop_chars (String.length s - String.length t) s) t.

(** [t in s], for strings. *)
Fixpoint occurs (t s : string) : bool :=
  py_startswith s t ||
  match s with
  | EmptyString => false
  | String _ s' => occurs t s'
  end.

(** [s.replace(old, new)] for a non-empty [old]: the occurrences of [old]
    are found from the left and do not overlap; [skip] characters of the one
    found last are still to be passed over. *)
Fixpoint replace_from (old new : string) (skip : nat) (s : string) : string :=
  match s with
  | EmptyString => EmptyString
  | String c rest =>
      match skip with
      | S k => replace_from old new k rest
      | O =>
          if py_startswith s old
          then String.append new (replace_from old new (String.length old - 1) rest)
          else String c (replace_from old new 0 rest)
      end
  end.

Definition py_replace (s old new : string) : string := replace_from old new 0 s.

(** [os.path.join(a, b)] of posixpath. *)
Definition posix_join (a b : string) : string :=
  if py_startswith b "/" then b
  else if String.eqb a "" || py_endswith a "/" then String.append a b
  else String.append a (String.append "/" b).

(** [os.path.basename(p)] of posixpath: what follows the last slash. *)
Fixpoint posix_basename (p : string) : string :=
  match p with
  | EmptyString => EmptyString
  | String c rest =>
      if occurs "/" rest then posix_basename rest
      else if py_startswith p "/" then rest else p
  end.

(** Line 41. *)
Definition schema_name_of (json_file : string) : string :=
  py_replace (posix_basename json_file) ".json" "".

(** ** The batch: [main] (lines 198-238)

    The file system is what [main] and [import_oca_package] ask of it:
    [os.path.exists], [os.path.isdir], [os.listdir] ([None] when it raises)
    and, for a path, the document [json.load] reads from the file ([None]
    when [open] or [json.load] raises).  The identifier [uuid.uuid4()] would
    give during the import of a file is a function of the name of the file;
    the folder is the value of [args.folder]. *)

Record files : Type := Files {
  path_exists : string -> bool;
  path_isdir : string -> bool;
  listdir : string -> option (list string);
  load_json : string -> option value
}.

(** What makes the import of a file raise. *)
Inductive failure : Type :=
| Unreadable
| Raised (e : exn)
| Rejected (q : op).

(** The lines [main] and [import_oca_package] print. *)
Inductive message : Type :=
| FolderMissing (schema_folder : string)
| NotADirectory (schema_folder : string)
| Scanning (schema_folder : string)
| NoJsonFiles (schema_folder : string)
| Found (n : nat)
| Processing (schema_name : string)
| ErrorImporting (file_name : string) (e : failure)
| AllImported.

Record outcome : Type := Outcome {
  printed : list message;
  store : graph;
  uncaught : bool
}.

(** The exception that ends a run of the statements of an import: that of
    the first statement the store rejects, else the one the importer raised. *)
Definition failure_of (t : trace) : option failure :=
  match List.find (fun q => negb (accepted q)) t.1 with
  | Some q => Some (Rejected q)
  | None =>
      match t.2 with
      | Some e => Some (Raised e)
      | None => None
      end
  end.

Section Batch.

Variable json_dumps : value -> string.

(** [import_oca_package(json_file)] from its first line (lines 37-193). *)
Definition import_file (fs : files) (json_file uuid4 : string) (g : graph)
  : list message * option failure * graph :=
  match load_json fs json_file with
  | None => ([], Some Unreadable, g)
  | Some data =>
      let schema_name := schema_name_of json_file in
      let t := import_oca_package json_dumps data schema_name uuid4 in
      ([Processing schema_name], failure_of t, apply_ops t.1 g)
  end.

(** The loop of lines 230-235. *)
Fixpoint import_files (fs : files) (uuid4 : string -> string)
  (schema_folder : string) (json_files : list string) (g : graph)
  : list message * graph :=
  match json_files with
  | [] => ([], g)
  | file_name :: rest =>
      let r := import_file fs (posix_join schema_folder file_name)
                 (uuid4 file_name) g in
      let r' := import_files fs uuid4 schema_folder rest r.2 in
      (r.1.1 ++
       match r.1.2 with
       | Some e => [ErrorImporting file_name e]
       | None => []
       end ++ r'.1, r'.2)
  end.

(** Line 221. *)
Definition json_files_of (names : list string) : list string :=
  List.filter (fun f => py_endswith f ".json") names.

Definition main (fs : files) (uuid4 : string -> string) (schema_folder : string)
  (g : graph) : outcome :=
  if negb (path_exists fs schema_folder)
  then Outcome [FolderMissing schema_folder] g false
  else if negb (path_isdir fs schema_folder)
  then Outcome [NotADirectory schema_folder] g false
  else
    match listdir fs schema_folder with
    | None => Outcome [Scanning schema_folder] g true
    | Some names =>
        match json_files_of names with
        | [] => Outcome [Scanning schema_folder; NoJsonFiles schema_folder] g false
        | json_files =>
            let r := import_files fs uuid4 schema_folder json_files g in
            Outcome ([Scanning schema_folder; Found (length json_files)] ++ r.1 ++
                     [AllImported]) r.2 false
        end
    end.

(** The statements of the import of one file that reach the store. *)
Definition file_statements (fs : files) (uuid4 : string -> string)
  (schema_folder file_name : string) : list op :=
  match load_json fs (posix_join schema_folder file_name) with
  | None => []
  | Some data =>
      sent (import_oca_package json_dumps data
              (schema_name_of (posix_join schema_folder file_name))
              (uuid4 file_name)).1
  end.

(** The statements of a run of [main] that reach the store. *)
Definition main_statements (fs : files) (uuid4 : string -> string)
  (schema_folder : string) : list op :=
  if path_exists fs schema_folder && path_isdir fs schema_folder then
    match listdir fs schema_folder with
    | Some names =>
        concat (map (file_statements fs uuid4 schema_folder) (json_files_of names))
    | None => []
    end
  else [].

End Batch.

(** ** An example folder *)

(** A document whose capture base is a string. *)
Definition malformed_document : value :=
  VDict [(VStr "d", VStr "E2");
         (VStr "oca_bundle",
          VDict [(VStr "bundle", VDict [(VStr "capture_base", VStr "oops")])])].

(** The folder "schemas" with three documents, the second malformed, a file
    that is no JSON and a file that cannot be read. *)
Definition example_files : files :=
  Files (fun p => String.eqb p "schemas") (fun p => String.eqb p "schemas")
    (fun p => if String.eqb p "schemas"
              then Some ["a.json"; "b.json"; "notes.txt"; "c.json"; "d.json"]
              else None)
    (fun p =>
       if String.eqb p "schemas/a.json" then Some (example_document "E1" [example_meta])
       else if String.eqb p "schemas/b.json" then Some malformed_document
       else if String.eqb p "schemas/c.json" then Some (example_document "E3" [])
       else None).

(** The example document with the extension "adc" keyed by its capture base,
    and no ordering overlay under the key. *)
Definition keyed_document : value :=
  VDict [(VStr "d", VStr "E1");
         (VStr "oca_bundle",
          VDict [(VStr "bundle",
            VDict [(VStr "capture_base",
                      VDict [(VStr "d", VStr "EB1");
                             (VStr "attributes",
                              VDict [(VStr "dob", VStr "DateTime")])])])]);
         (VStr "extensions", VDict [(VStr "adc", VDict [(VStr "EB1", VDict [])])])].

(** A graph holding the Schema node "E1" with an attribute ordering. *)
Definition ordered_graph : graph :=
  Graph [Node "Schema" (<["attribute_ordering" := VList [VStr "dob"]]>
                          (<["id" := VStr "E1"]> ∅))] [].

(** A meta entry with a name and the language null. *)
Definition null_language_meta : value :=
  VDict [(VStr "name", VStr "title"); (VStr "language", VNone)].

(** * Properties *)

(** ** Values and dictionaries *)

Lemma value_ind' (P : value -> Prop) :
  P VNone -> (forall b, P (VBool b)) -> (forall z, P (VInt z)) ->
  (forall s, P (VStr s)) ->
  (forall l, Forall P l -> P (VList l)) ->
  (forall d, Forall (fun kv => P kv.1 /\ P kv.2) d -> P (VDict d)) ->
  forall v, P v.
Proof.
  intros HN HB HI HS HL HD. fix IH 1.
  intros [ | b | z | s | l | d]; [exact HN | apply HB | apply HI | apply HS | | ].
  - apply HL. induction l as [|x l IHl]; constructor; [apply IH | exact IHl].
  - apply HD. induction d as [|[k v] d IHd]; constructor;
      [split; apply IH | exact IHd].
Qed.

Lemma value_eqb_eq (a b : value) : value_eqb a b = true <-> a = b.
Proof.
  revert b. induction a as [ | x | x | x | l IH | d IH] using value_ind';
    intros [ | y | y | y | l' | d']; simpl; try (split; [discriminate | congruence]);
    try tauto.
  - rewrite Bool.eqb_true_iff. split; congruence.
  - rewrite Z.eqb_eq. split; congruence.
  - rewrite String.eqb_eq. split; congruence.
  - revert l'. induction IH as [|x l Hx _ IHl]; intros [|y l'];
      try (split; [discriminate | congruence]); [tauto|].
    rewrite andb_true_iff, Hx, IHl. split; [intros [-> [= ->]] | intros [= -> ->]]; done.
  - revert d'. induction IH as [|[k v] d [Hk Hv] _ IHd]; intros [|[k' v'] d'];
      try (split; [discriminate | congruence]); [tauto|].
    simpl in *. rewrite !andb_true_iff, Hk, Hv, IHd.
    split; [intros [[-> ->] [= ->]] | intros [= -> -> ->]]; done.
Qed.

Lemma value_eqb_refl (a : value) : value_eqb a a = true.
Proof. by apply value_eqb_eq. Qed.

Lemma value_eqb_neq (a b : value) : a <> b -> value_eqb a b = false.
Proof.
  intros H. destruct (value_eqb a b) eqn:E; [|done].
  by apply value_eqb_eq in E.
Qed.

#[global] Instance value_eq_dec : EqDecision value.
Proof.
  intros a b. destruct (value_eqb a b) eqn:E.
  - left. by apply value_eqb_eq.
  - right. intros H. apply value_eqb_eq in H. congruence.
Defined.

Lemma key_eqb_class (a b : value) :
  key_eqb a b = true <-> key_class a = key_class b /\ hashable a = true.
Proof.
  destruct a, b; simpl; rewrite ?Z.eqb_eq, ?String.eqb_eq;
    split; try discriminate; try tauto; try (intros [? ?]; congruence);
    try (intros ->; done); try (intros [[= ->] _]; done).
Qed.

Lemma key_eqb_refl (a : value) : hashable a = true -> key_eqb a a = true.
Proof. intros H. by apply key_eqb_class. Qed.

Lemma key_eqb_hashable_r (a b : value) : key_eqb a b = true -> hashable b = true.
Proof. by destruct a, b. Qed.

Lemma key_eqb_sym (a b : value) : key_eqb a b = key_eqb b a.
Proof.
  destruct a, b; simpl; try done; try apply Z.eqb_sym.
  apply String.eqb_sym.
Qed.

Lemma key_eqb_trans (a b c : value) :
  key_eqb a b = true -> key_eqb b c = true -> key_eqb a c = true.
Proof.
  rewrite !key_eqb_class. intros [-> Ha] [-> _]. done.
Qed.

(** Keys equal to a given one give the same answers. *)
Lemma key_eqb_congr (a b c : value) :
  key_eqb a b = true -> key_eqb c a = key_eqb c b.
Proof.
  intros H. destruct (key_eqb c a) eqn:E1.
  - symmetry. by eapply key_eqb_trans.
  - destruct (key_eqb c b) eqn:E2; [|done].
    rewrite key_eqb_sym in H. by rewrite (key_eqb_trans _ _ _ E2 H) in E1.
Qed.

Lemma dict_lookup_store_eq (k v : value) (d : list (value * value)) :
  hashable k = true -> dict_lookup k (dict_store k v d) = Some v.
Proof.
  intros Hk. induction d as [|[k' v'] d IH]; simpl.
  - by rewrite key_eqb_refl.
  - destruct (key_eqb k' k) eqn:E; simpl; rewrite E; done.
Qed.

Lemma dict_lookup_store_ne (k k' v : value) (d : list (value * value)) :
  key_eqb k k' = false -> dict_lookup k' (dict_store k v d) = dict_lookup k' d.
Proof.
  intros Hne. induction d as [|[k0 v0] d IH]; simpl.
  - by rewrite Hne.
  - destruct (key_eqb k0 k) eqn:E; simpl; [|by rewrite IH].
    destruct (key_eqb k0 k') eqn:E'; [|done].
    rewrite key_eqb_sym in E. by rewrite (key_eqb_trans _ _ _ E E') in Hne.
Qed.

Lemma dict_lookup_congr (k k' : value) (d : list (value * value)) :
  key_eqb k k' = true -> dict_lookup k d = dict_lookup k' d.
Proof.
  intros H. induction d as [|[k0 v0] d IH]; simpl; [done|].
  by rewrite (key_eqb_congr _ _ _ H), IH.
Qed.

(** ** Folding the language-keyed overlays *)

Lemma dict_lookup_Forall (P : value -> Prop) (k v : value) (d : list (value * value)) :
  Forall (fun kv => P kv.2) d -> dict_lookup k d = Some v -> P v.
Proof.
  induction 1 as [|[k' v'] d H _ IH]; simpl; [done|].
  destruct (key_eqb k' k); [by intros [= <-] | done].
Qed.

Lemma dict_store_Forall (P : value -> Prop) (k v : value) (d : list (value * value)) :
  Forall (fun kv => P kv.2) d -> P v -> Forall (fun kv => P kv.2) (dict_store k v d).
Proof.
  intros Hd Hv. induction Hd as [|[k' v'] d H Hd IH]; simpl.
  - by constructor.
  - destruct (key_eqb k' k); constructor; done.
Qed.

Lemma dict_lookup_None (k : value) (d : list (value * value)) :
  dict_lookup k d = None <-> Forall (fun kv => key_eqb kv.1 k = false) d.
Proof.
  induction d as [|[k' v'] d IH]; simpl.
  - split; [constructor | done].
  - destruct (key_eqb k' k) eqn:E.
    + split; [done | intros H; inversion H; simpl in *; congruence].
    + rewrite IH. split; [by constructor | by inversion 1].
Qed.

Lemma get2_congr (acc : list (value * value)) (a a' l : value) :
  key_eqb a a' = true -> get2 acc a l = get2 acc a' l.
Proof. intros H. unfold get2. by rewrite (dict_lookup_congr _ _ _ H). Qed.

Lemma setdefault_setitem_table acc attr lang x acc' :
  setdefault_setitem acc attr lang x = Ok acc' -> lang_table acc -> lang_table acc'.
Proof.
  unfold setdefault_setitem. destruct (hashable attr); [|done].
  intros H Hacc.
  destruct (py_setitem _ lang x) as [inner'|] eqn:E; simpl in H; [|done].
  injection H as <-. apply (dict_store_Forall (fun v => is_mapping v = true)); [done|].
  destruct (dict_lookup attr acc) as [i|] eqn:Ei.
  - pose proof (dict_lookup_Forall (fun v => is_mapping v = true) _ _ _ Hacc Ei) as Hi.
    destruct i; try done. simpl in E. destruct (hashable lang); by simplify_eq.
  - simpl in E. destruct (hashable lang); by simplify_eq.
Qed.

(** One store [acc.setdefault(attr, {})[lang] = x]. *)
Lemma setdefault_setitem_spec acc attr lang x :
  hashable attr = true -> hashable lang = true -> lang_table acc ->
  exists acc',
    setdefault_setitem acc attr lang x = Ok acc' /\
    get2 acc' attr lang = Some x /\
    (forall a l, key_eqb attr a = false \/ key_eqb lang l = false ->
                 get2 acc' a l = get2 acc a l).
Proof.
  intros Ha Hl Hacc. unfold setdefault_setitem. rewrite Ha.
  assert (exists inner,
    match dict_lookup attr acc with Some i => i | None => VDict [] end = VDict inner /\
    forall a l, key_eqb attr a = true -> get2 acc a l = dict_lookup l inner)
    as (inner & -> & Hinner).
  { destruct (dict_lookup attr acc) as [i|] eqn:Ei.
    - pose proof (dict_lookup_Forall (fun v => is_mapping v = true) _ _ _ Hacc Ei) as Hi.
      destruct i; try done. eexists; split; [done|].
      intros a l E. unfold get2. by rewrite <- (dict_lookup_congr _ _ _ E), Ei.
    - exists []. split; [done|].
      intros a l E. unfold get2. by rewrite <- (dict_lookup_congr _ _ _ E), Ei. }
  simpl. rewrite Hl. simpl. eexists; split; [done|]. split.
  - unfold get2. rewrite dict_lookup_store_eq by done. by apply dict_lookup_store_eq.
  - intros a l Hne. destruct (key_eqb attr a) eqn:E.
    + destruct Hne as [|Hne]; [done|].
      rewrite (Hinner _ _ E). unfold get2.
      rewrite <- (dict_lookup_congr _ _ _ E), dict_lookup_store_eq by done.
      by apply dict_lookup_store_ne.
    + unfold get2. by rewrite dict_lookup_store_ne.
Qed.

Lemma fold_items_table lang items acc acc' :
  fold_items lang items acc = Ok acc' -> lang_table acc -> lang_table acc'.
Proof.
  revert acc. induction items as [|[a x] items IH]; simpl; intros acc H Hacc.
  - by injection H as <-.
  - destruct (setdefault_setitem acc a lang x) as [acc1|] eqn:E; simpl in H; [|done].
    eapply IH; [done|]. by eapply setdefault_setitem_table.
Qed.

(** The inner loop over the items of one overlay entry. *)
Lemma fold_items_spec lang items acc :
  distinct_keys items = true -> hashable lang = true -> lang_table acc ->
  exists acc',
    fold_items lang items acc = Ok acc' /\
    (forall a x, dict_lookup a items = Some x -> get2 acc' a lang = Some x) /\
    (forall a l, dict_lookup a items = None \/ key_eqb lang l = false ->
                 get2 acc' a l = get2 acc a l).
Proof.
  intros Hd Hl. revert acc Hd.
  induction items as [|[k x0] items IH]; simpl; intros acc Hd Hacc.
  - exists acc. split; [done|]. split; [done|]. done.
  - apply andb_prop in Hd as [Hd Hrest]. apply andb_prop in Hd as [Hk Hfresh].
    destruct (dict_lookup k items) eqn:Ek; [done|]. clear Hfresh.
    destruct (setdefault_setitem_spec acc k lang x0 Hk Hl Hacc)
      as (acc1 & E1 & Hhit1 & Hframe1).
    rewrite E1. simpl.
    destruct (IH acc1 Hrest) as (acc' & E' & Hhit & Hframe).
    { by eapply setdefault_setitem_table. }
    exists acc'. split; [done|]. split.
    + intros a x. destruct (key_eqb k a) eqn:E.
      * intros [= <-]. rewrite Hframe.
        -- by rewrite <- (get2_congr _ _ _ _ E).
        -- left. by rewrite <- (dict_lookup_congr _ _ _ E).
      * apply Hhit.
    + intros a l Hne. destruct (key_eqb k a) eqn:E.
      * destruct Hne as [|Hne]; [done|].
        rewrite Hframe by (by right). apply Hframe1. by right.
      * rewrite Hframe.
        -- apply Hframe1. by left.
        -- destruct Hne; [by left | by right].
Qed.

Lemma fold_entry_table field e acc acc' :
  fold_entry field e acc = Ok acc' -> lang_table acc -> lang_table acc'.
Proof.
  unfold fold_entry. intros H.
  destruct (py_get e _ _) as [lang|]; simpl in H; [|done].
  destruct (py_get e _ _) as [per|]; simpl in H; [|done].
  destruct (py_items per) as [items|]; simpl in H; [|done].
  by eapply fold_items_table.
Qed.

Lemma fold_entries_table field entries acc acc' :
  fold_entries field entries acc = Ok acc' -> lang_table acc -> lang_table acc'.
Proof.
  revert acc. induction entries as [|e entries IH]; simpl; intros acc H Hacc.
  - by injection H as <-.
  - destruct (fold_entry field e acc) as [acc1|] eqn:E; simpl in H; [|done].
    eapply IH; [done|]. by eapply fold_entry_table.
Qed.

(** The outer loop is a left fold: a further entry is folded into what the
    entries before it gave. *)
Lemma fold_entries_app field entries entries' acc :
  fold_entries field (entries ++ entries') acc =
  let* acc' := fold_entries field entries acc in fold_entries field entries' acc'.
Proof.
  revert acc. induction entries as [|e entries IH]; simpl; intros acc; [done|].
  destruct (fold_entry field e acc); simpl; [apply IH | done].
Qed.

(** C3. The language-keyed overlays are folded entry by entry into a mapping
    keyed by attribute and then by language, and a later entry overwrites what
    an earlier one stored for the same attribute and language: after one more
    entry [e] with language [lang], every attribute of [e] has [e]'s value
    under [lang], and every other (attribute, language) pair is as the entries
    before [e] left it.  On the information overlays for "en" and "fr" over
    "dob", the result is {"dob": {"en": "Date of birth", "fr": "Date de
    naissance"}}. *)
Theorem overlay_folding_last_write_wins
  (field : string) (entries : list value) (acc : list (value * value))
  (e lang : value) (per : list (value * value)) :
  fold_overlay field (VList entries) = Ok (VDict acc) ->
  py_get e (VStr "language") (VStr "unknown") = Ok lang ->
  hashable lang = true ->
  py_get e (VStr field) (VDict []) = Ok (VDict per) ->
  distinct_keys per = true ->
  (exists acc',
     fold_overlay field (VList (entries ++ [e])) = Ok (VDict acc') /\
     (forall attr x, dict_lookup attr per = Some x -> get2 acc' attr lang = Some x) /\
     (forall attr l, dict_lookup attr per = None \/ key_eqb lang l = false ->
                     get2 acc' attr l = get2 acc attr l)) /\
  fold_overlay "attribute_information"
    (VList [VDict [(VStr "language", VStr "en");
                   (VStr "attribute_information",
                    VDict [(VStr "dob", VStr "Date of birth")])];
            VDict [(VStr "language", VStr "fr");
                   (VStr "attribute_information",
                    VDict [(VStr "dob", VStr "Date de naissance")])]])
  = Ok (VDict [(VStr "dob", VDict [(VStr "en", VStr "Date of birth");
                                   (VStr "fr", VStr "Date de naissance")])]).
Proof.
  intros Hfold Hlang Hh Hper Hd. split; [|reflexivity].
  unfold fold_overlay in *. simpl in *.
  destruct (fold_entries field entries []) as [acc0|] eqn:E0; simpl in Hfold; [|done].
  injection Hfold as ->.
  assert (lang_table acc) as Hacc.
  { eapply fold_entries_table; [done | constructor]. }
  destruct (fold_items_spec lang per acc Hd Hh Hacc) as (acc' & E' & Hhit & Hframe).
  exists acc'. split; [|done].
  rewrite fold_entries_app, E0. simpl.
  unfold fold_entry. rewrite Hlang, Hper. simpl. by rewrite E'.
Qed.

Lemma overlay_folding_last_write_wins_witness :
  exists acc',
    fold_overlay "attribute_information"
      (VList ([VDict [(VStr "language", VStr "en");
                      (VStr "attribute_information",
                       VDict [(VStr "dob", VStr "Date of birth")])]] ++
              [VDict [(VStr "language", VStr "en");
                      (VStr "attribute_information",
                       VDict [(VStr "dob", VStr "Birth date")])]]))
    = Ok (VDict acc') /\
    get2 acc' (VStr "dob") (VStr "en") = Some (VStr "Birth date").
Proof.
  destruct (overlay_folding_last_write_wins "attribute_information"
    [VDict [(VStr "language", VStr "en");
            (VStr "attribute_information", VDict [(VStr "dob", VStr "Date of birth")])]]
    [(VStr "dob", VDict [(VStr "en", VStr "Date of birth")])]
    (VDict [(VStr "language", VStr "en");
            (VStr "attribute_information", VDict [(VStr "dob", VStr "Birth date")])])
    (VStr "en") [(VStr "dob", VStr "Birth date")]
    eq_refl eq_refl eq_refl eq_refl eq_refl) as [(acc' & E & Hhit & _) _].
  exists acc'. split; [exact E|]. apply Hhit. reflexivity.
Defined.

(** ** Traces *)

Lemma then_ops (t k : trace) (q : op) :
  q ∈ (then_ t k).1 -> q ∈ t.1 \/ q ∈ k.1.
Proof.
  destruct t as [ops [e|]]; simpl; [by left|].
  rewrite elem_of_app. tauto.
Qed.

Lemma lifted_ops {A : Type} (r : result A) (k : A -> trace) (q : op) :
  q ∈ (lifted r k).1 -> exists a, r = Ok a /\ q ∈ (k a).1.
Proof.
  destruct r as [a|e]; simpl; [by exists a|]. by intros ?%elem_of_nil.
Qed.

Lemma for_each_ops {A : Type} (body : A -> trace) (l : list A) (q : op) :
  q ∈ (for_each body l).1 -> exists x, x ∈ l /\ q ∈ (body x).1.
Proof.
  induction l as [|x l IH]; simpl.
  - by intros ?%elem_of_nil.
  - intros [H|H]%then_ops.
    + exists x. split; [left | done].
    + destruct (IH H) as (y & Hy & Hq). exists y. split; [by right | done].
Qed.

Lemma run_sent (q q' : op) : q ∈ (run q').1 -> q = q'.
Proof. unfold run. simpl. by intros ->%list_elem_of_singleton. Qed.

Lemma done_ops (q : op) : q ∈ done.1 -> False.
Proof. by intros ?%elem_of_nil. Qed.

Section Emitted.

Variable json_dumps : value -> string.

Abbreviation emit_attribute := (emit_attribute json_dumps).
Abbreviation emit_ordering := (emit_ordering json_dumps).
Abbreviation emit := (emit json_dumps).
Abbreviation import_oca_package := (import_oca_package json_dumps).

Lemma emit_attribute_ops n item q :
  q ∈ (emit_attribute n item).1 ->
  exists u d f v c,
    q = AttributeUpsert item.1 item.2 u d f v c (schema_id n).
Proof.
  destruct item as [a ty]. unfold emit_attribute.
  intros (u & _ & H)%lifted_ops. apply lifted_ops in H as (d & _ & H).
  apply lifted_ops in H as (f & _ & H). apply lifted_ops in H as (v & _ & H).
  apply lifted_ops in H as (c & _ & H). apply run_sent in H. eauto 10.
Qed.

Lemma emit_meta_ops n meta q :
  q ∈ (emit_meta n meta).1 ->
  exists name desc lang,
    q = MetaUpsert name desc lang (schema_id n) /\ truthy name = true /\
    py_get meta (VStr "name") VNone = Ok name /\
    py_get meta (VStr "description") VNone = Ok desc /\
    py_get meta (VStr "language") (VStr "unknown") = Ok lang.
Proof.
  unfold emit_meta.
  intros (name & E1 & H)%lifted_ops. apply lifted_ops in H as (desc & E2 & H).
  apply lifted_ops in H as (lang & E3 & H).
  destruct (truthy name) eqn:E; [|by apply done_ops in H].
  apply run_sent in H. eauto 10.
Qed.

Lemma emit_ordering_ops n q :
  q ∈ (emit_ordering n).1 ->
  truthy (ordering_data n) = true /\
  exists ao eo, q = OrderingUpdate (schema_id n) ao eo.
Proof.
  unfold emit_ordering. destruct (truthy (ordering_data n)); [|by intros ?%done_ops].
  intros (ao & _ & H)%lifted_ops. apply lifted_ops in H as (eo & _ & H).
  apply run_sent in H. eauto.
Qed.

(** What [emit] can send, statement by statement. *)
Lemma emit_ops data name n q :
  q ∈ (emit data name n).1 ->
  (exists ty, q = SchemaUpsert (schema_id n) (VStr name) (capture_base_id n) ty) \/
  (exists items item, py_items (attributes n) = Ok items /\ item ∈ items /\
                      q ∈ (emit_attribute n item).1) \/
  (exists metas meta, py_iter (meta_overlays n) = Ok metas /\ meta ∈ metas /\
                      q ∈ (emit_meta n meta).1) \/
  q ∈ (emit_ordering n).1.
Proof.
  unfold emit. intros [H|H]%then_ops.
  { left. apply lifted_ops in H as (ty & _ & H). apply run_sent in H. eauto. }
  right. apply then_ops in H as [H|H].
  { left. apply lifted_ops in H as (items & E & H).
    apply for_each_ops in H as (item & Hin & H). eauto 10. }
  right. apply then_ops in H as [H|H]; [|by right].
  left. apply lifted_ops in H as (metas & E & H).
  apply for_each_ops in H as (meta & Hin & H). eauto 10.
Qed.

Lemma emit_schema_id data name n q :
  q ∈ (emit data name n).1 -> op_schema_id q = schema_id n.
Proof.
  intros [(ty & ->)|[(items & item & _ & _ & H)|[(metas & meta & _ & _ & H)|H]]]%emit_ops.
  - done.
  - apply emit_attribute_ops in H as (u & d & f & v & c & ->). done.
  - apply emit_meta_ops in H as (nm & desc & lang & -> & _). done.
  - apply emit_ordering_ops in H as (_ & ao & eo & ->). done.
Qed.

Lemma normalize_schema_id data uuid4 n d :
  normalize data uuid4 = Ok n ->
  py_get data (VStr "d") VNone = Ok d ->
  schema_id n = pick_schema_id d uuid4.
Proof.
  unfold normalize. intros H Hd.
  destruct (py_get data (VStr "oca_bundle") _) as [ob|]; simpl in H; [|done].
  destruct (py_get ob _ _) as [b|]; simpl in H; [|done].
  destruct (py_get b (VStr "capture_base") _) as [cb|]; simpl in H; [|done].
  rewrite Hd in H. simpl in H.
  destruct (py_get cb (VStr "d") _) as [cbid|]; simpl in H; [|done].
  destruct (py_get cb (VStr "attributes") _) as [attrs|]; simpl in H; [|done].
  destruct (py_get b (VStr "overlays") _) as [ov|]; simpl in H; [|done].
  destruct (normalize_overlays ov) as [o|]; simpl in H; [|done].
  destruct (ordering_of data cbid) as [od|]; simpl in H; [|done].
  by injection H as <-.
Qed.

(** C8, as the code has it.  Every statement of an import carries the same
    schema id: the document's top-level id when that id is truthy, and the
    generated identifier when the top-level id is absent or falsy (null, the
    empty string, 0, false, an empty list or mapping). *)
Theorem schema_id_is_truthy_id_or_fresh
  (data : value) (schema_name uuid4 : string) (d : value) (q : op) :
  py_get data (VStr "d") VNone = Ok d ->
  q ∈ (import_oca_package data schema_name uuid4).1 ->
  op_schema_id q = if truthy d then d else VStr uuid4.
Proof.
  intros Hd. unfold import_oca_package.
  intros (n & Hn & H)%lifted_ops.
  rewrite (emit_schema_id _ _ _ _ H). by eapply normalize_schema_id.
Qed.

End Emitted.

Lemma schema_id_is_truthy_id_or_fresh_witness :
  op_schema_id (SchemaUpsert (VStr "E1") (VStr "demo") VNone (VStr "oca_package/1.0"))
  = VStr "E1".
Proof.
  apply (schema_id_is_truthy_id_or_fresh (fun _ => "")
           (VDict [(VStr "d", VStr "E1")]) "demo" "0000" (VStr "E1")).
  - reflexivity.
  - vm_compute. left.
Defined.

(** C8 as stated fails: a document that provides the top-level id [""] is
    imported under the generated identifier. *)
Lemma empty_id_is_replaced :
  dict_lookup (VStr "d") [(VStr "d", VStr "")] = Some (VStr "") /\
  exists n, normalize (VDict [(VStr "d", VStr "")]) "0000" = Ok n /\
            schema_id n = VStr "0000" /\ schema_id n <> VStr "".
Proof.
  split; [reflexivity|]. eexists. split; [reflexivity|]. split; [reflexivity|].
  simpl. discriminate.
Qed.

(** ** Sections of the document *)

Lemma py_get_store_eq (k : string) (v dflt : value) (items : list (value * value)) :
  py_get (VDict (dict_store (VStr k) v items)) (VStr k) dflt = Ok v.
Proof. simpl. by rewrite dict_lookup_store_eq. Qed.

Lemma py_get_store_ne (k k' : string) (v dflt : value) (items : list (value * value)) :
  k <> k' ->
  py_get (VDict (dict_store (VStr k) v items)) (VStr k') dflt =
  py_get (VDict items) (VStr k') dflt.
Proof.
  intros Hne. simpl. rewrite dict_lookup_store_ne; [done|].
  simpl. by apply String.eqb_neq.
Qed.

Lemma py_get_mapping (o k dflt v : value) : py_get o k dflt = Ok v -> is_mapping o = true.
Proof. by destruct o. Qed.

Lemma py_get_total (d : list (value * value)) (k : string) (dflt : value) :
  exists v, py_get (VDict d) (VStr k) dflt = Ok v.
Proof. simpl. eauto. Qed.

Lemma ordering_of_shape (data cbid od : value) :
  ordering_of data cbid = Ok od ->
  od = VDict [] \/
  exists ao eo, od = VDict [(VStr "attribute_ordering", ao);
                            (VStr "entry_code_ordering", eo)].
Proof.
  unfold ordering_of. intros H.
  destruct (py_get data _ _) as [ext|]; simpl in H; [|done].
  destruct (py_get ext _ _) as [adc|]; simpl in H; [|done].
  destruct (py_contains cbid adc) as [[|]|]; simpl in H; [| |done].
  - destruct (py_getitem adc cbid) as [x|]; simpl in H; [|done].
    destruct (py_get x _ _) as [oo|]; simpl in H; [|done].
    destruct (py_get oo _ _) as [o|]; simpl in H; [|done].
    destruct (py_get o (VStr "attribute_ordering") _) as [ao|]; simpl in H; [|done].
    destruct (py_get o (VStr "entry_code_ordering") _) as [eo|]; simpl in H; [|done].
    injection H as <-. right. eauto.
  - injection H as <-. by left.
Qed.

(** C10. An information or entry overlay entry, or a meta entry, without a
    "language" field is processed under the language "unknown": the lookup
    gives "unknown", the fold stores the entry's values under that key, the
    Meta upsert carries it, and in both cases the outcome is that of the same
    entry with "language": "unknown" written out. *)
Theorem missing_language_is_unknown
  (field : string) (items acc : list (value * value)) (n : normalized) :
  In field ["attribute_information"; "attribute_entries"] ->
  dict_lookup (VStr "language") items = None ->
  py_get (VDict items) (VStr "language") (VStr "unknown") = Ok (VStr "unknown") /\
  fold_entry field (VDict items) acc =
    (let* per := py_get (VDict items) (VStr field) (VDict []) in
     let* its := py_items per in
     fold_items (VStr "unknown") its acc) /\
  fold_entry field (VDict items) acc =
    fold_entry field (VDict (dict_store (VStr "language") (VStr "unknown") items)) acc /\
  emit_meta n (VDict items) =
    (try meta_name := py_get (VDict items) (VStr "name") VNone in
     try meta_desc := py_get (VDict items) (VStr "description") VNone in
     if truthy meta_name
     then run (MetaUpsert meta_name meta_desc (VStr "unknown") (schema_id n))
     else done) /\
  emit_meta n (VDict items) =
    emit_meta n (VDict (dict_store (VStr "language") (VStr "unknown") items)).
Proof.
  intros Hfield Hno.
  assert (py_get (VDict items) (VStr "language") (VStr "unknown") = Ok (VStr "unknown"))
    as Hlang by (simpl; by rewrite Hno).
  split; [done|]. split; [unfold fold_entry; by rewrite Hlang|]. split.
  - unfold fold_entry. rewrite Hlang, py_get_store_eq.
    rewrite py_get_store_ne; [done|].
    destruct Hfield as [<-|[<-|[]]]; discriminate.
  - unfold emit_meta. rewrite Hlang, py_get_store_eq.
    rewrite !py_get_store_ne by discriminate. done.
Qed.

Lemma missing_language_is_unknown_witness :
  fold_entry "attribute_information"
    (VDict [(VStr "attribute_information", VDict [(VStr "dob", VStr "Date of birth")])])
    []
  = Ok [(VStr "dob", VDict [(VStr "unknown", VStr "Date of birth")])].
Proof.
  pose proof (missing_language_is_unknown "attribute_information"
    [(VStr "attribute_information", VDict [(VStr "dob", VStr "Date of birth")])] []
    (Normalized VNone VNone VNone VNone VNone VNone VNone VNone VNone VNone)
    (or_introl eq_refl) eq_refl) as (_ & H & _).
  rewrite H. reflexivity.
Defined.

Section Sections.

Variable json_dumps : value -> string.


(** C5. A document whose overlays section is empty and whose capture base
    declares the one attribute [a] is normalised without an exception, with
    no unit, description, vocabulary, entry code or format for any attribute;
    the importer sends the Schema upsert, one Attribute upsert for [a] with
    unit, description, format, vocabulary and codes all null, and after it
    nothing but the ordering update, if the document has ordering data. *)
Theorem missing_sections_are_tolerated
  (data : value) (schema_name uuid4 a : string) (cb ty cbid od : value) :
  capture_base_of data = Ok cb ->
  py_get cb (VStr "attributes") (VDict []) = Ok (VDict [(VStr a, ty)]) ->
  overlays_of data = Ok (VDict []) ->
  py_get cb (VStr "d") VNone = Ok cbid ->
  ordering_of data cbid = Ok od ->
  exists n schema_type tail,
    normalize data uuid4 = Ok n /\
    units n = VDict [] /\ attribute_descriptions n = VDict [] /\
    attribute_formats n = VDict [] /\ controlled_vocabularies n = VDict [] /\
    entry_codes n = VDict [] /\
    import_oca_package json_dumps data schema_name uuid4 =
      (SchemaUpsert (schema_id n) (VStr schema_name) cbid schema_type ::
       AttributeUpsert (VStr a) ty VNone VNone VNone VNone VNone (schema_id n) ::
       tail, None) /\
    Forall (fun q => is_ordering_update q = true) tail /\
    length (filter (fun q => is_attribute_upsert q = true)
              (import_oca_package json_dumps data schema_name uuid4).1) = 1%nat.
Proof.
  unfold capture_base_of, overlays_of, get_path. intros Hcb Hattrs Hov Hd Hod.
  destruct (py_get data (VStr "oca_bundle") _) as [ob|] eqn:Eob;
    simpl in Hcb, Hov; [|done].
  destruct (py_get ob _ _) as [b|] eqn:Eb; simpl in Hcb, Hov; [|done].
  destruct (py_get b (VStr "capture_base") _) as [cb'|] eqn:Ecb; simpl in Hcb; [|done].
  injection Hcb as ->.
  destruct data as [ | | | | |top]; try done.
  destruct (py_get_total top "d" VNone) as [d Ed].
  destruct (py_get_total top "type" (VStr "oca_package/1.0")) as [sty Ety].
  set (n := Normalized (pick_schema_id d uuid4) cbid (VDict [(VStr a, ty)]) (VDict [])
              (VDict []) (VDict []) (VDict []) (VDict []) (VList []) od).
  assert (exists tail,
    emit_ordering json_dumps n = (tail, None) /\
    Forall (fun q => is_ordering_update q = true) tail /\
    filter (fun q => is_attribute_upsert q = true) tail = [])
    as (tail & Etail & Htail & Hnone).
  { destruct (ordering_of_shape _ _ _ Hod) as [->|(ao & eo & ->)].
    - exists []. by split.
    - eexists. split; [reflexivity|]. split; [by repeat constructor | done]. }
  exists n, sty, tail.
  assert (normalize (VDict top) uuid4 = Ok n) as En.
  { unfold normalize. rewrite Eob. cbn [bind]. rewrite Eb. cbn [bind].
    rewrite Ecb. cbn [bind]. rewrite Ed. cbn [bind]. rewrite Hd. cbn [bind].
    rewrite Hattrs. cbn [bind]. rewrite Hov. cbn [bind].
    change (normalize_overlays (VDict [])) with
      (Ok (OverlayData (VDict []) (VDict []) (VDict []) (VDict []) (VDict []) (VList []))).
    cbn [bind]. rewrite Hod. done. }
  assert (import_oca_package json_dumps (VDict top) schema_name uuid4 =
    (SchemaUpsert (schema_id n) (VStr schema_name) cbid sty ::
     AttributeUpsert (VStr a) ty VNone VNone VNone VNone VNone (schema_id n) ::
     tail, None)) as Eimp.
  { unfold import_oca_package. rewrite En. cbn [lifted].
    unfold emit. rewrite Ety. cbn [lifted]. cbn [attributes meta_overlays n].
    cbn [py_items py_iter lifted for_each]. rewrite Etail. done. }
  split; [exact En|]. do 5 (split; [done|]). split; [exact Eimp|].
  split; [done|]. rewrite Eimp. cbn [fst].
  rewrite filter_cons_False by done. rewrite filter_cons_True by done.
  by rewrite Hnone.
Qed.

End Sections.

Lemma missing_sections_are_tolerated_witness :
  length (filter (fun q => is_attribute_upsert q = true)
            (import_oca_package (fun _ => "")
               (VDict [(VStr "oca_bundle",
                  VDict [(VStr "bundle",
                    VDict [(VStr "capture_base",
                              VDict [(VStr "attributes",
                                        VDict [(VStr "name", VStr "Text")])]);
                           (VStr "overlays", VDict [])])])])
               "demo" "0000").1) = 1%nat.
Proof.
  destruct (missing_sections_are_tolerated (fun _ => "")
    (VDict [(VStr "oca_bundle",
       VDict [(VStr "bundle",
         VDict [(VStr "capture_base",
                   VDict [(VStr "attributes", VDict [(VStr "name", VStr "Text")])]);
                (VStr "overlays", VDict [])])])])
    "demo" "0000" "name"
    (VDict [(VStr "attributes", VDict [(VStr "name", VStr "Text")])])
    (VStr "Text") VNone (VDict [])
    eq_refl eq_refl eq_refl eq_refl eq_refl)
    as (n & sty & tail & _ & _ & _ & _ & _ & _ & _ & _ & H).
  exact H.
Defined.

(** ** Sections of unexpected shape *)

Lemma is_empty_container_iter (v : value) :
  is_empty_container v = true -> py_iter v = Ok [].
Proof.
  destruct v as [ | | |s|[|]|[|]]; try done. simpl.
  intros ->%String.eqb_eq. done.
Qed.

Lemma empty_container_folds_to_nothing (field : string) (v : value) :
  is_empty_container v = true -> fold_overlay field v = Ok (VDict []).
Proof. intros H. unfold fold_overlay. by rewrite (is_empty_container_iter _ H). Qed.

Lemma keyed_overlay_falsy (field : string) (v : value) :
  truthy v = false -> keyed_overlay field v = Ok (VDict []).
Proof. intros H. unfold keyed_overlay. by rewrite H. Qed.

Lemma keyed_overlay_truthy_raises (field : string) (v : value) :
  truthy v = true -> is_mapping v = false ->
  keyed_overlay field v = Raise AttributeError.
Proof. intros H Hm. unfold keyed_overlay. rewrite H. by destruct v. Qed.

Ltac raise_or_go H :=
  repeat first
    [ rewrite H; cbn [bind]; by eauto
    | match goal with
      | |- exists e, bind ?r _ = Raise e =>
          let E := fresh "E" in destruct r eqn:E; cbn [bind]; [|by eauto]
      end ].

Section Unexpected.

Variable json_dumps : value -> string.

(** C4, as the code has it.  Of the sections of unexpected shape, these are
    read as empty: a unit, entry_code or format section that is falsy (null,
    false, 0, the empty string, an empty list), and an information, entry or
    meta section that is an empty string or an empty mapping.  A unit,
    entry_code or format section that is truthy and not a mapping makes
    normalisation raise. *)
Theorem unexpected_sections
  (data : value) (schema_name : string) (n : normalized)
  (items : list (value * value)) :
  (forall k v,
     In k ["unit"; "entry_code"; "format"] -> is_mapping v = false ->
     if truthy v
     then exists e, normalize_overlays (VDict (dict_store (VStr k) v items)) = Raise e
     else normalize_overlays (VDict (dict_store (VStr k) v items)) =
          normalize_overlays (VDict (dict_store (VStr k) (VDict []) items))) /\
  (forall k v,
     In k ["information"; "entry"] -> is_empty_container v = true ->
     normalize_overlays (VDict (dict_store (VStr k) v items)) =
     normalize_overlays (VDict (dict_store (VStr k) (VList []) items))) /\
  (forall v,
     is_empty_container v = true ->
     emit json_dumps data schema_name (with_meta n v) =
     emit json_dumps data schema_name (with_meta n (VList []))).
Proof.
  split; [|split].
  - intros k v Hk Hm. destruct (truthy v) eqn:Hv.
    + pose proof (fun f => keyed_overlay_truthy_raises f v Hv Hm) as Hraise.
      unfold normalize_overlays.
      destruct Hk as [<-|[<-|[<-|[]]]];
        rewrite ?py_get_store_eq, ?py_get_store_ne by discriminate;
        cbn [bind]; raise_or_go Hraise.
    + pose proof (fun f => keyed_overlay_falsy f v Hv) as Hfalsy.
      unfold normalize_overlays.
      destruct Hk as [<-|[<-|[<-|[]]]];
        rewrite ?py_get_store_eq, ?py_get_store_ne by discriminate;
        cbn [bind]; rewrite ?Hfalsy; done.
  - intros k v Hk Hv.
    pose proof (fun f => empty_container_folds_to_nothing f v Hv) as Hfold.
    unfold normalize_overlays.
    destruct Hk as [<-|[<-|[]]];
      rewrite ?py_get_store_eq, ?py_get_store_ne by discriminate;
      cbn [bind]; rewrite ?Hfold; done.
  - intros v Hv. unfold emit. cbn [with_meta meta_overlays attributes schema_id
      capture_base_id]. rewrite (is_empty_container_iter _ Hv). done.
Qed.

End Unexpected.

Lemma unexpected_sections_witness :
  normalize_overlays (VDict (dict_store (VStr "unit") VNone [])) =
  normalize_overlays (VDict (dict_store (VStr "unit") (VDict []) [])) /\
  normalize_overlays (VDict (dict_store (VStr "information") (VStr "") [])) =
  normalize_overlays (VDict (dict_store (VStr "information") (VList []) [])).
Proof.
  destruct (unexpected_sections (fun _ => "") (VDict []) "demo"
    (Normalized VNone VNone VNone VNone VNone VNone VNone VNone VNone VNone) [])
    as (Hkeyed & Hfolded & _).
  split.
  - apply (Hkeyed "unit" VNone); [simpl; tauto | reflexivity].
  - apply (Hfolded "information" (VStr "")); [simpl; tauto | reflexivity].
Defined.

(** C4 as stated fails: with the unit section a string, or the information
    section null, normalisation raises, while it succeeds on the same
    document with the section empty. *)
Lemma truthy_unit_section_raises :
  let doc := fun overlays =>
    VDict [(VStr "d", VStr "E1");
           (VStr "oca_bundle",
            VDict [(VStr "bundle",
              VDict [(VStr "capture_base",
                        VDict [(VStr "attributes", VDict [(VStr "dob", VStr "DateTime")])]);
                     (VStr "overlays", VDict overlays)])])] in
  normalize (doc [(VStr "unit", VStr "kg")]) "0000" = Raise AttributeError /\
  normalize (doc [(VStr "information", VNone)]) "0000" = Raise TypeError /\
  (exists n, normalize (doc [(VStr "unit", VDict [])]) "0000" = Ok n) /\
  (exists n, normalize (doc [(VStr "information", VList [])]) "0000" = Ok n).
Proof.
  simpl. split; [reflexivity|]. split; [reflexivity|].
  split; eexists; reflexivity.
Qed.

(** ** The store: patterns and positions *)

Lemma bound_in_spec (l : list nat) (i : nat) : bound_in l i = true <-> i ∈ l.
Proof.
  unfold bound_in. rewrite existsb_exists. split.
  - intros (j & Hj & ->%Nat.eqb_eq). by apply list_elem_of_In.
  - intros H. exists i. split; [by apply list_elem_of_In | apply Nat.eqb_refl].
Qed.

Lemma filter_ext_in {A : Type} (P1 P2 : A -> Prop)
  `{!forall x, Decision (P1 x), !forall x, Decision (P2 x)} (l : list A) :
  (forall x, x ∈ l -> P1 x <-> P2 x) -> filter P1 l = filter P2 l.
Proof.
  induction l as [|x l IH]; intros Hl; [done|].
  rewrite !filter_cons. rewrite IH by (intros y Hy; apply Hl; by right).
  pose proof (Hl x (list_elem_of_here _ _)) as Hx.
  destruct (decide (P1 x)), (decide (P2 x)); tauto.
Qed.

Lemma elem_of_positions (p : pattern) (ns : list node) (i : nat) :
  i ∈ positions p ns <-> exists n, ns !! i = Some n /\ matches_p p n = true.
Proof.
  unfold positions, matches_at, matches_p. rewrite list_elem_of_filter, elem_of_seq.
  split.
  - intros [H _]. destruct (ns !! i) as [n|]; [|done].
    exists n. split; [done|]. by apply Is_true_true.
  - intros (n & Hn & Hm). rewrite Hn. split; [by apply Is_true_true|].
    apply lookup_lt_Some in Hn. lia.
Qed.

Lemma positions_nil (p : pattern) (ns : list node) :
  positions p ns = [] <-> forall i n, ns !! i = Some n -> matches_p p n = false.
Proof.
  split.
  - intros H i n Hn. destruct (matches_p p n) eqn:E; [|done].
    assert (i ∈ positions p ns) as Hi by (apply elem_of_positions; eauto).
    rewrite H in Hi. by apply elem_of_nil in Hi.
  - intros H. destruct (positions p ns) as [|i l] eqn:E; [done|].
    assert (i ∈ positions p ns) as (n & Hn & Hm)%elem_of_positions
      by (rewrite E; left).
    by rewrite (H _ _ Hn) in Hm.
Qed.

Lemma positions_app (p : pattern) (ns : list node) (n : node) :
  positions p (ns ++ [n]) =
  positions p ns ++ (if matches_p p n then [length ns] else []).
Proof.
  unfold positions. rewrite length_app. simpl.
  rewrite Nat.add_1_r, seq_S, filter_app. simpl. f_equal.
  - apply filter_ext_in. intros i [_ Hi]%elem_of_seq.
    unfold matches_at. by rewrite lookup_app_l by lia.
  - unfold matches_at, matches_p.
    rewrite filter_cons, filter_nil.
    rewrite list_lookup_middle by done.
    destruct (matches p.1 p.2 n); by case_decide.
Qed.

Lemma positions_map (p : pattern) (f : node -> node) (ns : list node) :
  (forall n, matches_p p (f n) = matches_p p n) ->
  positions p (map f ns) = positions p ns.
Proof.
  intros Hf. unfold positions. rewrite length_map.
  apply list_filter_iff. intros i. unfold matches_at.
  rewrite list_lookup_fmap. destruct (ns !! i) as [n|]; simpl; [|done].
  fold (matches_p p (f n)). fold (matches_p p n). by rewrite Hf.
Qed.

Lemma positions_lt (p : pattern) (ns : list node) (i : nat) :
  i ∈ positions p ns -> (i < length ns)%nat.
Proof. intros (n & Hn & _)%elem_of_positions. by apply lookup_lt_Some in Hn. Qed.

Lemma set_on_positions (p : pattern) (sets : list (string * value))
  (ns : list node) (r : list (nat * string * nat)) :
  set_on (positions p ns) sets (Graph ns r) = Graph (map (upd p sets) ns) r.
Proof.
  unfold set_on. simpl. f_equal. apply list_eq. intros i.
  rewrite list_lookup_imap, list_lookup_fmap.
  destruct (ns !! i) as [n|] eqn:Hn; simpl; [|done]. f_equal. unfold upd.
  destruct (matches_p p n) eqn:Hm.
  - assert (bound_in (positions p ns) i = true) as ->; [|done].
    apply bound_in_spec, elem_of_positions. eauto.
  - destruct (bound_in (positions p ns) i) eqn:Hb; [|done].
    apply bound_in_spec, elem_of_positions in Hb as (n' & Hn' & Hm').
    congruence.
Qed.

Lemma has_prop_spec (n : node) (kv : string * value) :
  has_prop n kv = true <-> props n !! kv.1 = Some kv.2.
Proof.
  unfold has_prop. destruct (props n !! kv.1) as [w|]; [|done].
  rewrite value_eqb_eq. split; congruence.
Qed.

Lemma matches_p_spec (p : pattern) (n : node) :
  matches_p p n = true <->
  label n = p.1 /\ Forall (fun kv => props n !! kv.1 = Some kv.2) p.2.
Proof.
  unfold matches_p, matches.
  rewrite andb_true_iff, String.eqb_eq, forallb_forall, Forall_forall.
  split; intros [Hl H]; (split; [done|]); intros kv Hkv.
  - apply has_prop_spec, H. by apply list_elem_of_In.
  - apply has_prop_spec, H. by apply list_elem_of_In.
Qed.

Lemma label_of_inj (k k' : kind) : label_of k = label_of k' -> k = k'.
Proof. by destruct k, k'. Qed.

Lemma key_names_NoDup (k : kind) : NoDup (key_names k).
Proof.
  destruct k; simpl; repeat (apply NoDup_cons; split);
    try apply NoDup_nil_2; try (by apply not_elem_of_nil);
    intros H; repeat (apply elem_of_cons in H as [H|H]; [done|]);
    by apply elem_of_nil in H.
Qed.

Lemma fresh_matches (p : pattern) : wf_pattern p -> matches_p p (fresh p) = true.
Proof.
  intros (k & Hl & Hk). apply matches_p_spec. split; [done|].
  apply Forall_forall. intros [x v] Hin. simpl.
  apply elem_of_list_to_map_1; [|done]. rewrite Hk. apply key_names_NoDup.
Qed.

Lemma same_bindings (m : gmap string value) (l l' : list (string * value)) :
  l.*1 = l'.*1 ->
  Forall (fun kv => m !! kv.1 = Some kv.2) l ->
  Forall (fun kv => m !! kv.1 = Some kv.2) l' ->
  l = l'.
Proof.
  revert l'. induction l as [|[x v] l IH]; intros [|[x' v'] l'] Hn Hl Hl';
    try done.
  simpl in Hn. injection Hn as <- Hn.
  inversion Hl as [|? ? Hv Hl0]; inversion Hl' as [|? ? Hv' Hl0']; subst.
  simpl in *. rewrite Hv in Hv'. injection Hv' as <-.
  f_equal. by apply IH.
Qed.

(** A node bound by two patterns: the patterns are one. *)
Lemma matches_inj (p p' : pattern) (n : node) :
  wf_pattern p -> wf_pattern p' ->
  matches_p p n = true -> matches_p p' n = true -> p = p'.
Proof.
  intros (k & Hl & Hk) (k' & Hl' & Hk') [Hn H]%matches_p_spec [Hn' H']%matches_p_spec.
  assert (k = k') as <- by (apply label_of_inj; congruence).
  destruct p as [lbl key], p' as [lbl' key']. simpl in *. f_equal; [congruence|].
  eapply same_bindings; [congruence | done | done].
Qed.

Lemma fresh_matches_inj (p p' : pattern) :
  wf_pattern p -> wf_pattern p' -> matches_p p' (fresh p) = true -> p' = p.
Proof.
  intros Hp Hp' H. eapply matches_inj; [done | done | exact H |].
  by apply fresh_matches.
Qed.

Lemma set_prop_lookup_ne (m : gmap string value) (kv : string * value) (k : string) :
  kv.1 <> k -> set_prop m kv !! k = m !! k.
Proof.
  intros Hne. unfold set_prop.
  destruct kv.2; by rewrite ?lookup_delete_ne, ?lookup_insert_ne.
Qed.

Lemma set_prop_lookup_eq (m : gmap string value) (kv : string * value) :
  set_prop m kv !! kv.1 = stored kv.2.
Proof.
  unfold set_prop, stored.
  destruct kv.2; by rewrite ?lookup_delete_eq, ?lookup_insert_eq.
Qed.

Lemma set_props_lookup_notin (sets : list (string * value))
  (m : gmap string value) (k : string) :
  k ∉ sets.*1 -> set_props sets m !! k = m !! k.
Proof.
  unfold set_props. revert m. induction sets as [|kv sets IH]; intros m Hk; [done|].
  simpl in *. apply not_elem_of_cons in Hk as [Hne Hk].
  rewrite IH by done. by apply set_prop_lookup_ne.
Qed.

Lemma upd_label (p : pattern) (sets : list (string * value)) (n : node) :
  label (upd p sets n) = label n.
Proof. unfold upd. by destruct (matches_p p n). Qed.

(** Setting properties that are no key property changes no binding. *)
Lemma upd_matches (p' p : pattern) (sets : list (string * value)) (n : node) :
  wf_pattern p' -> avoids p sets ->
  matches_p p' (upd p sets n) = matches_p p' n.
Proof.
  intros (k & Hl & Hk) Hav. unfold upd.
  destruct (matches_p p n) eqn:Hm; [|done].
  apply matches_p_spec in Hm as [Hn _].
  destruct (decide (label n = p'.1)) as [Hlab|Hlab].
  - assert (Forall (fun x => x ∉ sets.*1) (key_names k)) as Hnames
      by (apply Hav; congruence).
    rewrite <- Hk, Forall_fmap in Hnames.
    apply eq_true_iff_eq. rewrite !matches_p_spec. simpl.
    split; intros [? H]; (split; [done|]);
      apply Forall_forall; intros kv Hkv;
      pose proof (proj1 (Forall_forall _ _) Hnames kv Hkv) as Hnot; simpl in Hnot;
      pose proof (proj1 (Forall_forall _ _) H kv Hkv) as Hv; simpl in Hv.
    + by rewrite set_props_lookup_notin in Hv.
    + by rewrite set_props_lookup_notin.
  - unfold matches_p, matches. simpl.
    by rewrite !(proj2 (String.eqb_neq _ _) Hlab).
Qed.

Lemma schema_pattern_wf (sid : value) : wf_pattern (schema_pattern sid).
Proof. by exists KSchema. Qed.

Lemma attribute_pattern_wf (a : value) : wf_pattern (attribute_pattern a).
Proof. by exists KAttribute. Qed.

Lemma meta_pattern_wf (name sid lang : value) : wf_pattern (meta_pattern name sid lang).
Proof. by exists KMeta. Qed.

Lemma op_target_wf (q : op) : wf_pattern (op_target q).
Proof.
  destruct q; simpl;
    [apply schema_pattern_wf | apply attribute_pattern_wf
    | apply meta_pattern_wf | apply schema_pattern_wf].
Qed.

Lemma op_avoids (q : op) : avoids (op_target q) (op_sets q).
Proof.
  intros k Hk.
  destruct q, k; simpl in Hk; try discriminate; simpl;
    repeat (apply Forall_cons; split); try apply Forall_nil_2;
    intros H; repeat (apply elem_of_cons in H as [H|H]; [done|]);
    by apply elem_of_nil in H.
Qed.

Create HintDb store.

#[global] Hint Resolve op_target_wf schema_pattern_wf attribute_pattern_wf
  meta_pattern_wf op_avoids : store.

(** ** The store: one statement *)

Lemma merge_node_spec (p : pattern) (g : graph) :
  wf_pattern p ->
  merge_node p.1 p.2 g =
  if existsb (fun kv => is_null kv.2) p.2 then None
  else let ns := match positions p (nodes g) with
                 | [] => nodes g ++ [fresh p]
                 | _ => nodes g
                 end in
       Some (Graph ns (rels g), positions p ns).
Proof.
  intros Hp. unfold merge_node, match_nodes. fold (positions p (nodes g)).
  destruct (existsb _ p.2); [done|].
  destruct (positions p (nodes g)) as [|i l] eqn:E.
  - rewrite positions_app, E, fresh_matches by done. done.
  - rewrite E. by destruct g.
Qed.

Lemma apply_op_exec (q : op) (g : graph) :
  apply_op q g = if accepted q then Some (exec q g) else None.
Proof.
  destruct q as [sid nm cb ty|a ty u d f v c sid|nm d l sid|sid ao eo];
    unfold apply_op, accepted, exec, step_nodes, ensure; cbn [op_creates andb negb op_rel].
  - rewrite (merge_node_spec (schema_pattern sid)) by auto with store.
    cbn [op_target]. destruct (existsb _ _); [done|]. cbn [negb mbind option_bind].
    set (ns := match positions _ (nodes g) with [] => _ | _ => _ end).
    by rewrite set_on_positions.
  - rewrite (merge_node_spec (attribute_pattern a)) by auto with store.
    cbn [op_target]. destruct (existsb _ _); [done|]. cbn [negb mbind option_bind].
    set (ns := match positions _ (nodes g) with [] => _ | _ => _ end).
    rewrite set_on_positions. unfold match_nodes. cbn [nodes op_schema_id].
    rewrite (positions_map (attribute_pattern a)); [done|].
    intros n. apply (upd_matches _ _ _ _ (attribute_pattern_wf a)
                       (op_avoids (AttributeUpsert a ty u d f v c sid))).
  - rewrite (merge_node_spec (meta_pattern nm sid l)) by auto with store.
    cbn [op_target]. destruct (existsb _ _); [done|]. cbn [negb mbind option_bind].
    set (ns := match positions _ (nodes g) with [] => _ | _ => _ end).
    rewrite set_on_positions. unfold match_nodes. cbn [nodes op_schema_id].
    rewrite (positions_map (meta_pattern nm sid l)); [done|].
    intros n. apply (upd_matches _ _ _ _ (meta_pattern_wf nm sid l)
                       (op_avoids (MetaUpsert nm d l sid))).
  - destruct g as [ns r].
    exact (f_equal Some (set_on_positions (schema_pattern sid) _ ns r)).
Qed.

Lemma apply_ops_sent (ops : list op) (g : graph) :
  apply_ops ops g = foldl (fun g q => exec q g) g (sent ops).
Proof.
  revert g. induction ops as [|q ops IH]; intros g; simpl; [done|].
  rewrite apply_op_exec. destruct (accepted q); simpl; [apply IH | done].
Qed.

Lemma sent_accepted (ops : list op) : Forall (fun q => accepted q = true) (sent ops).
Proof.
  induction ops as [|q ops IH]; simpl; [constructor|].
  destruct (accepted q) eqn:E; by constructor.
Qed.

Lemma sent_all (ops : list op) :
  Forall (fun q => accepted q = true) ops -> sent ops = ops.
Proof.
  induction 1 as [|q ops Hq _ IH]; simpl; [done|]. by rewrite Hq, IH.
Qed.

Lemma sent_sent (ops : list op) : sent (sent ops) = sent ops.
Proof. apply sent_all, sent_accepted. Qed.

Lemma sent_subseteq (ops : list op) (q : op) : q ∈ sent ops -> q ∈ ops.
Proof.
  induction ops as [|q' ops IH]; simpl; [done|].
  destruct (accepted q'); [|by intros ?%elem_of_nil].
  intros [->|H]%elem_of_cons; [left | right; by apply IH].
Qed.

(** *** Relationships *)

Lemma rel_eqb_eq (r r' : nat * string * nat) : rel_eqb r r' = true <-> r = r'.
Proof.
  destruct r as [[s ty] t], r' as [[s' ty'] t']. unfold rel_eqb. simpl.
  rewrite !andb_true_iff, !Nat.eqb_eq, String.eqb_eq. split.
  - by intros [[-> ->] ->].
  - by intros [= -> -> ->].
Qed.

Lemma existsb_rel (r : nat * string * nat) (l : list (nat * string * nat)) :
  existsb (rel_eqb r) l = true <-> r ∈ l.
Proof.
  rewrite existsb_exists. split.
  - intros (r' & Hin & ->%rel_eqb_eq). by apply list_elem_of_In.
  - intros H. exists r. split; [by apply list_elem_of_In | by apply rel_eqb_eq].
Qed.

Lemma merge_rel_nodes ty g row : nodes (merge_rel ty g row) = nodes g.
Proof. unfold merge_rel. by destruct (existsb _ _). Qed.

Lemma merge_rel_rels ty g row r :
  r ∈ rels (merge_rel ty g row) <-> r ∈ rels g \/ r = (row.1, ty, row.2).
Proof.
  unfold merge_rel. destruct (existsb _ _) eqn:E; simpl.
  - apply existsb_rel in E. split; [by left | by intros [?| ->]].
  - rewrite elem_of_app, list_elem_of_singleton. done.
Qed.

Lemma merge_rel_id ty g row :
  (row.1, ty, row.2) ∈ rels g -> merge_rel ty g row = g.
Proof.
  intros H. unfold merge_rel. by rewrite (proj2 (existsb_rel _ _) H).
Qed.

Lemma foldl_merge_rel_nodes ty rows g :
  nodes (foldl (merge_rel ty) g rows) = nodes g.
Proof.
  revert g. induction rows as [|row rows IH]; intros g; simpl; [done|].
  by rewrite IH, merge_rel_nodes.
Qed.

Lemma foldl_merge_rel_rels ty rows g r :
  r ∈ rels (foldl (merge_rel ty) g rows) <->
  r ∈ rels g \/ exists row, row ∈ rows /\ r = (row.1, ty, row.2).
Proof.
  revert g. induction rows as [|row rows IH]; intros g; simpl.
  - split; [by left | intros [?|(row & ?%elem_of_nil & _)]; done].
  - rewrite IH, merge_rel_rels. split.
    + intros [[?| ->]|(row' & Hin & ->)]; [by left | right | right].
      * exists row. split; [left | done].
      * exists row'. split; [by right | done].
    + intros [?|(row' & [->|Hin]%elem_of_cons & ->)];
        [by left; left | by left; right | right; eauto].
Qed.

Lemma foldl_merge_rel_id ty rows g :
  (forall row, row ∈ rows -> (row.1, ty, row.2) ∈ rels g) ->
  foldl (merge_rel ty) g rows = g.
Proof.
  induction rows as [|row rows IH]; intros H; simpl; [done|].
  rewrite merge_rel_id by (apply H; left). apply IH. intros row' Hin.
  apply H. by right.
Qed.

Lemma elem_of_rows (ss ts : list nat) (row : nat * nat) :
  row ∈ (t ← ts; s ← ss; [(s, t)]) <-> row.1 ∈ ss /\ row.2 ∈ ts.
Proof.
  rewrite list_elem_of_bind. split.
  - intros (t & (s & ->%list_elem_of_singleton & Hs)%list_elem_of_bind & Ht). done.
  - intros [Hs Ht]. exists row.2. split; [|done].
    apply list_elem_of_bind. exists row.1. split; [|done].
    destruct row. by apply list_elem_of_singleton.
Qed.

Lemma merge_rels_nodes ty ss ts g : nodes (merge_rels ty ss ts g) = nodes g.
Proof. apply foldl_merge_rel_nodes. Qed.

Lemma merge_rels_rels ty ss ts g r :
  r ∈ rels (merge_rels ty ss ts g) <->
  r ∈ rels g \/ exists s t, s ∈ ss /\ t ∈ ts /\ r = (s, ty, t).
Proof.
  unfold merge_rels. rewrite foldl_merge_rel_rels. split.
  - intros [?|([s t] & [Hs Ht]%elem_of_rows & ->)]; [by left | right; eauto].
  - intros [?|(s & t & Hs & Ht & ->)]; [by left | right].
    exists (s, t). split; [by apply elem_of_rows | done].
Qed.

Lemma merge_rels_id ty ss ts g :
  (forall s t, s ∈ ss -> t ∈ ts -> (s, ty, t) ∈ rels g) ->
  merge_rels ty ss ts g = g.
Proof.
  intros H. apply foldl_merge_rel_id. intros row [Hs Ht]%elem_of_rows. by apply H.
Qed.

Lemma exec_nodes (q : op) (g : graph) : nodes (exec q g) = step_nodes q (nodes g).
Proof. unfold exec. destruct (op_rel q); [by rewrite merge_rels_nodes | done]. Qed.

Lemma exec_rels_mono (q : op) (g : graph) (r : nat * string * nat) :
  r ∈ rels g -> r ∈ rels (exec q g).
Proof.
  intros H. unfold exec. destruct (op_rel q); [|done].
  apply merge_rels_rels. by left.
Qed.

(** *** Positions along a statement *)

Lemma positions_upd (p p' : pattern) (sets : list (string * value)) (ns : list node) :
  wf_pattern p -> avoids p' sets ->
  positions p (map (upd p' sets) ns) = positions p ns.
Proof. intros Hp Hav. apply positions_map. intros n. by apply upd_matches. Qed.

Lemma positions_step (p : pattern) (q : op) (ns : list node) :
  wf_pattern p ->
  positions p (step_nodes q ns) =
  if op_creates q && bool_decide (p = op_target q)
     && bool_decide (positions p ns = [])
  then [length ns] else positions p ns.
Proof.
  intros Hp. unfold step_nodes. rewrite positions_upd by auto with store.
  unfold ensure. destruct (op_creates q); cbn [andb]; [|done].
  case_bool_decide as Heq; cbn [andb].
  - subst p. case_bool_decide as Hnil.
    + by rewrite Hnil, positions_app, Hnil, fresh_matches.
    + destruct (positions (op_target q) ns) eqn:E; [done | exact E].
  - destruct (positions (op_target q) ns); [|done].
    rewrite positions_app.
    destruct (matches_p p (fresh (op_target q))) eqn:E; [|by rewrite app_nil_r].
    apply fresh_matches_inj in E; auto with store. done.
Qed.

Lemma positions_step_stable (p : pattern) (q : op) (ns : list node) :
  wf_pattern p -> positions p ns <> [] ->
  positions p (step_nodes q ns) = positions p ns.
Proof.
  intros Hp Hne. rewrite positions_step by done.
  rewrite (bool_decide_eq_false_2 _ Hne). by rewrite andb_false_r.
Qed.

Lemma positions_step_other (p : pattern) (q : op) (ns : list node) :
  wf_pattern p -> p <> op_target q ->
  positions p (step_nodes q ns) = positions p ns.
Proof.
  intros Hp Hne. rewrite positions_step by done.
  rewrite (bool_decide_eq_false_2 _ Hne). by rewrite andb_false_r.
Qed.

Lemma positions_step_target (q : op) (ns : list node) :
  op_creates q = true -> positions (op_target q) (step_nodes q ns) <> [].
Proof.
  intros Hc. rewrite positions_step, Hc by auto with store.
  rewrite bool_decide_eq_true_2 by done. simpl.
  case_bool_decide; [done | done].
Qed.

(** The number of nodes a pattern binds grows by a statement only from none
    to one. *)
Lemma positions_step_length (p : pattern) (q : op) (ns : list node) :
  wf_pattern p ->
  length (positions p (step_nodes q ns)) = length (positions p ns) \/
  (positions p ns = [] /\ length (positions p (step_nodes q ns)) = 1%nat).
Proof.
  intros Hp. rewrite positions_step by done.
  destruct (op_creates q && bool_decide (p = op_target q)); simpl; [|by left].
  case_bool_decide; [by right | by left].
Qed.

Lemma step_nodes_length (q : op) (ns : list node) :
  (length ns <= length (step_nodes q ns))%nat.
Proof.
  unfold step_nodes, ensure. rewrite length_map.
  destruct (op_creates q); [|done].
  destruct (positions _ ns); [|done]. rewrite length_app. lia.
Qed.

(** The node at a position after a statement: the node that was there,
    updated, or the node the [MERGE] created, updated. *)
Lemma step_nodes_lookup (q : op) (ns : list node) (i : nat) (n' : node) :
  step_nodes q ns !! i = Some n' ->
  (exists n, ns !! i = Some n /\ n' = upd (op_target q) (op_sets q) n) \/
  (i = length ns /\ op_creates q = true /\ positions (op_target q) ns = [] /\
   n' = upd (op_target q) (op_sets q) (fresh (op_target q))).
Proof.
  unfold step_nodes, ensure. rewrite list_lookup_fmap.
  destruct (op_creates q); [|].
  - destruct (positions (op_target q) ns) eqn:E.
    + destruct (decide (i < length ns)%nat) as [Hlt|Hge].
      * rewrite lookup_app_l by done. destruct (ns !! i) as [m|]; [|done].
        intros [= <-]. left. eauto.
      * rewrite lookup_app_r by lia.
        destruct (i - length ns)%nat as [|j] eqn:Ej; [|by destruct j].
        simpl. intros [= <-]. right. split; [lia | done].
    + destruct (ns !! i) as [m|]; [|done]. intros [= <-]. left. eauto.
  - destruct (ns !! i) as [m|]; [|done]. intros [= <-]. left. eauto.
Qed.

Lemma step_nodes_lookup_old (q : op) (ns : list node) (i : nat) (n : node) :
  ns !! i = Some n ->
  step_nodes q ns !! i = Some (upd (op_target q) (op_sets q) n).
Proof.
  intros Hn. unfold step_nodes. rewrite list_lookup_fmap.
  assert (ensure q ns !! i = Some n) as ->; [|done].
  unfold ensure. destruct (op_creates q); [|done].
  destruct (positions _ ns); [|done]. by apply lookup_app_l_Some.
Qed.

(** ** What normalisation returns *)

Lemma normalize_inv (data : value) (uuid4 : string) (n : normalized) :
  normalize data uuid4 = Ok n ->
  exists bundle cb d overlays o,
    get_path ["oca_bundle"; "bundle"] data = Ok bundle /\
    py_get bundle (VStr "capture_base") (VDict []) = Ok cb /\
    py_get data (VStr "d") VNone = Ok d /\
    py_get cb (VStr "d") VNone = Ok (capture_base_id n) /\
    py_get cb (VStr "attributes") (VDict []) = Ok (attributes n) /\
    py_get bundle (VStr "overlays") (VDict []) = Ok overlays /\
    normalize_overlays overlays = Ok o /\
    ordering_of data (capture_base_id n) = Ok (ordering_data n) /\
    n = Normalized (pick_schema_id d uuid4) (capture_base_id n) (attributes n)
          (o_units o) (o_descriptions o) (o_vocabularies o) (o_entry_codes o)
          (o_formats o) (o_meta o) (ordering_data n).
Proof.
  unfold normalize, get_path. intros H.
  destruct (py_get data (VStr "oca_bundle") _) as [ob|] eqn:E1; cbn [bind] in *; [|done].
  destruct (py_get ob _ _) as [b|] eqn:E2; cbn [bind] in *; [|done].
  destruct (py_get b (VStr "capture_base") _) as [cb|] eqn:E3; cbn [bind] in *; [|done].
  destruct (py_get data (VStr "d") _) as [d|] eqn:E4; cbn [bind] in *; [|done].
  destruct (py_get cb (VStr "d") _) as [cbid|] eqn:E5; cbn [bind] in *; [|done].
  destruct (py_get cb (VStr "attributes") _) as [attrs|] eqn:E6; cbn [bind] in *; [|done].
  destruct (py_get b (VStr "overlays") _) as [ov|] eqn:E7; cbn [bind] in *; [|done].
  destruct (normalize_overlays ov) as [o|] eqn:E8; cbn [bind] in *; [|done].
  destruct (ordering_of data cbid) as [od|] eqn:E9; cbn [bind] in *; [|done].
  injection H as <-. cbn [capture_base_id attributes ordering_data].
  exists b, cb, d, ov, o. by repeat split.
Qed.

Lemma capture_base_of_inv (data cb : value) :
  capture_base_of data = Ok cb ->
  exists bundle, get_path ["oca_bundle"; "bundle"] data = Ok bundle /\
                 py_get bundle (VStr "capture_base") (VDict []) = Ok cb.
Proof.
  unfold capture_base_of, get_path. intros H.
  destruct (py_get data (VStr "oca_bundle") _) as [ob|]; cbn [bind] in *; [|done].
  destruct (py_get ob _ _) as [b|]; cbn [bind] in *; [|done].
  exists b. split; [done|].
  destruct (py_get b (VStr "capture_base") _) as [cb'|]; cbn [bind] in *; [|done].
  by injection H as ->.
Qed.

(** ** Properties no statement touches *)

Lemma upd_props_notin (p : pattern) (sets : list (string * value)) (n : node)
  (k : string) :
  (k ∉ sets.*1) -> props (upd p sets n) !! k = props n !! k.
Proof.
  intros Hk. unfold upd. destruct (matches_p p n); [|done].
  by apply set_props_lookup_notin.
Qed.

Lemma exec_prop_frame (q : op) (g : graph) (i : nat) (k : string) :
  (k ∉ (op_sets q).*1) -> (k ∉ (op_target q).2.*1) ->
  prop_at (exec q g) i k = prop_at g i k.
Proof.
  intros Hs Hk. unfold prop_at. rewrite exec_nodes.
  destruct (step_nodes q (nodes g) !! i) as [n'|] eqn:E; simpl.
  - apply step_nodes_lookup in E as [(n & Hn & ->)|(-> & _ & _ & ->)].
    + rewrite Hn. simpl. by apply upd_props_notin.
    + rewrite lookup_ge_None_2 by done. simpl.
      rewrite upd_props_notin by done. simpl.
      by apply not_elem_of_list_to_map_1.
  - apply lookup_ge_None_1 in E. pose proof (step_nodes_length q (nodes g)).
    by rewrite lookup_ge_None_2 by lia.
Qed.

Lemma ordering_props_untouched (q : op) (k : string) :
  is_ordering_update q = false ->
  k ∈ ["attribute_ordering"; "entry_code_ordering"] ->
  (k ∉ (op_sets q).*1) /\ (k ∉ (op_target q).2.*1).
Proof.
  intros Hq Hk.
  assert (k = "attribute_ordering" \/ k = "entry_code_ordering") as [-> | ->].
  { apply elem_of_cons in Hk as [?|Hk]; [by left|].
    apply elem_of_cons in Hk as [?|Hk]; [by right|]. by apply elem_of_nil in Hk. }
  all: destruct q; try done; simpl; split; intros H;
    repeat (apply elem_of_cons in H as [H|H]; [done|]); by apply elem_of_nil in H.
Qed.

Lemma apply_ops_ordering_frame (ops : list op) (g : graph) (i : nat) (k : string) :
  Forall (fun q => is_ordering_update q = false) ops ->
  k ∈ ["attribute_ordering"; "entry_code_ordering"] ->
  prop_at (apply_ops ops g) i k = prop_at g i k.
Proof.
  intros Hops Hk. revert g. induction Hops as [|q ops Hq _ IH]; intros g; simpl; [done|].
  rewrite apply_op_exec. destruct (accepted q); [|done].
  rewrite IH. destruct (ordering_props_untouched q k Hq Hk). by apply exec_prop_frame.
Qed.

(** A capture-base id that is absent is read as [None], which is no key of a
    JSON object. *)
Lemma absent_id_is_no_key (adc : list (value * value)) :
  string_keys adc = true -> py_contains VNone (VDict adc) = Ok false.
Proof.
  intros H. simpl. f_equal.
  induction adc as [|[k v] adc IH]; simpl in *; [done|].
  apply andb_prop in H as [Hk H]. destruct k; try done. simpl. by apply IH.
Qed.

Section Ordering.

Variable json_dumps : value -> string.

(** C6. If the adc extension does not contain the capture-base id as a key
    (the id read as [None] when the capture base has none), the ordering data
    is empty, no statement of the import is the ordering update, and in the
    store the properties attribute_ordering and entry_code_ordering of every
    node are what they were before the import. *)
Theorem ordering_omitted_without_key
  (data : value) (schema_name uuid4 : string) (cb cbid adc : value) :
  capture_base_of data = Ok cb ->
  py_get cb (VStr "d") VNone = Ok cbid ->
  get_path ["extensions"; "adc"] data = Ok adc ->
  py_contains cbid adc = Ok false ->
  ordering_of data cbid = Ok (VDict []) /\
  Forall (fun q => is_ordering_update q = false)
    (import_oca_package json_dumps data schema_name uuid4).1 /\
  forall g i k,
    k ∈ ["attribute_ordering"; "entry_code_ordering"] ->
    prop_at (apply_ops (import_oca_package json_dumps data schema_name uuid4).1 g) i k
    = prop_at g i k.
Proof.
  intros Hcb Hd Hadc Hin.
  assert (ordering_of data cbid = Ok (VDict [])) as Hod.
  { unfold ordering_of. unfold get_path in Hadc.
    destruct (py_get data (VStr "extensions") _) as [ext|]; cbn [bind] in *; [|done].
    destruct (py_get ext _ _) as [adc'|]; cbn [bind] in *; [|done].
    injection Hadc as ->. by rewrite Hin. }
  assert (Forall (fun q => is_ordering_update q = false)
            (import_oca_package json_dumps data schema_name uuid4).1) as Hnone.
  { apply Forall_forall. intros q. unfold import_oca_package.
    intros (n & Hn & Hq)%lifted_ops.
    apply normalize_inv in Hn
      as (b & cb' & d & ov & o & Hb & Hcb' & _ & Hd' & _ & _ & _ & Hod' & _).
    apply capture_base_of_inv in Hcb as (b' & Hb' & Hcb).
    assert (b' = b) as -> by congruence.
    assert (cb' = cb) as -> by congruence.
    assert (capture_base_id n = cbid) as Hc by congruence.
    rewrite Hc in Hod'.
    assert (ordering_data n = VDict []) as Hempty by congruence.
    apply emit_ops in Hq
      as [(ty & ->)|[(items & item & _ & _ & H)|[(metas & meta & _ & _ & H)|H]]].
    - done.
    - by apply emit_attribute_ops in H as (? & ? & ? & ? & ? & ->).
    - by apply emit_meta_ops in H as (? & ? & ? & -> & _).
    - apply emit_ordering_ops in H as [Ht _]. by rewrite Hempty in Ht. }
  split; [done|]. split; [done|].
  intros g i k Hk. by apply apply_ops_ordering_frame.
Qed.

End Ordering.

Lemma ordering_omitted_without_key_witness :
  ordering_of
    (VDict [(VStr "d", VStr "E1");
            (VStr "oca_bundle",
             VDict [(VStr "bundle",
               VDict [(VStr "capture_base",
                         VDict [(VStr "attributes", VDict [(VStr "dob", VStr "DateTime")])])])]);
            (VStr "extensions",
             VDict [(VStr "adc",
               VDict [(VStr "EB1", VDict [(VStr "overlays", VDict [])])])])])
    VNone = Ok (VDict []).
Proof.
  apply (ordering_omitted_without_key (fun _ => "")
    (VDict [(VStr "d", VStr "E1");
            (VStr "oca_bundle",
             VDict [(VStr "bundle",
               VDict [(VStr "capture_base",
                         VDict [(VStr "attributes", VDict [(VStr "dob", VStr "DateTime")])])])]);
            (VStr "extensions",
             VDict [(VStr "adc",
               VDict [(VStr "EB1", VDict [(VStr "overlays", VDict [])])])])])
    "demo" "0000"
    (VDict [(VStr "attributes", VDict [(VStr "dob", VStr "DateTime")])])
    VNone
    (VDict [(VStr "EB1", VDict [(VStr "overlays", VDict [])])])
    eq_refl eq_refl eq_refl eq_refl).
Defined.

(** ** The last statement on a pattern decides the properties *)

Lemma set_props_lookup_in (sets : list (string * value)) (m : gmap string value)
  (k : string) (v : value) :
  NoDup sets.*1 -> (k, v) ∈ sets -> set_props sets m !! k = stored v.
Proof.
  unfold set_props. revert m. induction sets as [|[k' v'] sets IH]; intros m Hnd Hin.
  - by apply elem_of_nil in Hin.
  - simpl in *. apply NoDup_cons in Hnd as [Hk' Hnd].
    apply elem_of_cons in Hin as [[= -> ->]|Hin].
    + fold (set_props sets (set_prop m (k', v'))).
      rewrite set_props_lookup_notin by done.
      apply (set_prop_lookup_eq m (k', v')).
    + by apply IH.
Qed.

Lemma op_sets_NoDup (q : op) : NoDup (op_sets q).*1.
Proof.
  destruct q; simpl; repeat (apply NoDup_cons; split);
    try apply NoDup_nil_2; try (by apply not_elem_of_nil);
    intros H; repeat (apply elem_of_cons in H as [H|H]; [done|]);
    by apply elem_of_nil in H.
Qed.

(** After a statement, the nodes its target binds carry what it set. *)
Lemma exec_sets (q : op) (g : graph) (i : nat) (n' : node) (k : string) (v : value) :
  nodes (exec q g) !! i = Some n' ->
  matches_p (op_target q) n' = true ->
  (k, v) ∈ op_sets q ->
  props n' !! k = stored v.
Proof.
  rewrite exec_nodes. intros Hn' Hm Hin.
  assert (exists n, n' = upd (op_target q) (op_sets q) n) as (n & ->).
  { apply step_nodes_lookup in Hn' as [(n & _ & ->)|(_ & _ & _ & ->)]; eauto. }
  rewrite upd_matches in Hm by auto with store.
  unfold upd. rewrite Hm. simpl.
  apply set_props_lookup_in; [apply op_sets_NoDup | done].
Qed.

(** A statement on another pattern leaves the nodes of a pattern as they
    are, and binds no further node to it. *)
Lemma exec_frame (q : op) (g : graph) (p : pattern) (i : nat) (n' : node) :
  wf_pattern p -> op_target q <> p ->
  nodes (exec q g) !! i = Some n' -> matches_p p n' = true ->
  nodes g !! i = Some n'.
Proof.
  rewrite exec_nodes. intros Hp Hne Hn' Hm.
  apply step_nodes_lookup in Hn' as [(n & Hn & ->)|(_ & _ & _ & ->)];
    rewrite upd_matches in Hm by auto with store.
  - unfold upd. destruct (matches_p (op_target q) n) eqn:E; [|done].
    destruct Hne. eapply matches_inj; eauto with store.
  - apply fresh_matches_inj in Hm; auto with store. by destruct Hne.
Qed.

Lemma foldl_exec_frame (ops : list op) (g : graph) (p : pattern) (i : nat) (n' : node) :
  wf_pattern p -> Forall (fun q => op_target q <> p) ops ->
  nodes (foldl (fun g q => exec q g) g ops) !! i = Some n' ->
  matches_p p n' = true ->
  nodes g !! i = Some n'.
Proof.
  intros Hp Hops. revert g. induction Hops as [|q ops Hq _ IH]; intros g; simpl; [done|].
  intros Hn' Hm. eapply exec_frame; eauto.
Qed.

Lemma last_writer (ops : list op) (g : graph) (p : pattern) :
  wf_pattern p ->
  (exists q, q ∈ ops /\ op_target q = p) ->
  exists q0, q0 ∈ ops /\ op_target q0 = p /\
    forall i n' k v,
      nodes (foldl (fun g q => exec q g) g ops) !! i = Some n' ->
      matches_p p n' = true ->
      (k, v) ∈ op_sets q0 ->
      props n' !! k = stored v.
Proof.
  intros Hp. revert g. induction ops as [|q ops IH]; intros g (q1 & Hq1 & Ht).
  { by apply elem_of_nil in Hq1. }
  destruct (decide (Exists (fun q => op_target q = p) ops)) as [Hex|Hno].
  - apply Exists_exists in Hex. destruct (IH (exec q g) Hex) as (q0 & Hin & Ht0 & H).
    exists q0. split; [by right|]. split; [done|]. exact H.
  - apply not_Exists_Forall in Hno; [|intros ?; apply _].
    assert (op_target q = p) as Hq.
    { apply elem_of_cons in Hq1 as [<-|Hq1]; [done|].
      destruct (proj1 (Forall_forall _ _) Hno q1 Hq1). exact Ht. }
    exists q. split; [left|]. split; [done|].
    simpl. intros i n' k v Hn' Hm Hin.
    pose proof (foldl_exec_frame _ _ _ _ _ Hp Hno Hn' Hm) as Hn.
    rewrite <- Hq in Hm. by eapply exec_sets.
Qed.

(** ** What the importer sends for an attribute *)

Lemma then_done (t k : trace) (ops : list op) :
  then_ t k = (ops, None) ->
  exists ops1 ops2, t = (ops1, None) /\ k = (ops2, None) /\ ops = ops1 ++ ops2.
Proof.
  destruct t as [ops1 [e|]], k as [ops2 st]; simpl; [done|].
  intros [= <- ->]. eauto.
Qed.

Lemma lifted_done {A : Type} (r : result A) (k : A -> trace) (ops : list op) :
  lifted r k = (ops, None) -> exists a, r = Ok a /\ k a = (ops, None).
Proof. destruct r as [a|e]; simpl; [eauto | done]. Qed.

Lemma for_each_done {A : Type} (body : A -> trace) (l : list A) (ops : list op) (x : A) :
  for_each body l = (ops, None) -> x ∈ l ->
  exists ops1, body x = (ops1, None) /\ ops1 ⊆ ops.
Proof.
  revert ops. induction l as [|y l IH]; intros ops H Hx.
  { by apply elem_of_nil in Hx. }
  simpl in H. apply then_done in H as (ops1 & ops2 & Hy & Hl & ->).
  apply elem_of_cons in Hx as [->|Hx].
  - exists ops1. split; [done|]. intros q Hq. apply elem_of_app. by left.
  - destruct (IH _ Hl Hx) as (ops' & Hb & Hsub). exists ops'. split; [done|].
    intros q Hq. apply elem_of_app. right. by apply Hsub.
Qed.

Lemma distinct_keys_lookup (d : list (value * value)) (k v : value) :
  distinct_keys d = true -> (k, v) ∈ d -> dict_lookup k d = Some v.
Proof.
  induction d as [|[k' v'] d IH]; intros Hd Hin.
  { by apply elem_of_nil in Hin. }
  simpl in Hd. apply andb_prop in Hd as [Hd Hrest]. apply andb_prop in Hd as [Hh Hfresh].
  simpl. apply elem_of_cons in Hin as [[= -> ->]|Hin].
  - by rewrite key_eqb_refl.
  - destruct (key_eqb k' k) eqn:E; [|by apply IH].
    rewrite (dict_lookup_congr _ _ _ E), (IH Hrest Hin) in Hfresh. done.
Qed.

Lemma dict_lookup_elem_of (d : list (value * value)) (k v : value) :
  dict_lookup k d = Some v -> exists k', (k', v) ∈ d /\ key_eqb k' k = true.
Proof.
  induction d as [|[k' v'] d IH]; simpl; [done|].
  destruct (key_eqb k' k) eqn:E.
  - intros [= ->]. exists k'. split; [left | done].
  - intros (k0 & Hin & Hk)%IH. exists k0. split; [by right | done].
Qed.

Section Attributes.

Variable json_dumps : value -> string.

Abbreviation attribute_upsert := (attribute_upsert json_dumps).

Lemma py_get_overlay_value (section a v : value) :
  py_get section a VNone = Ok v -> v = overlay_value section a.
Proof.
  destruct section; try done. simpl. destruct (hashable a); [|done].
  by intros [= <-].
Qed.

Lemma emit_attribute_sent (n : normalized) (a ty : value) (q : op) :
  q ∈ (emit_attribute json_dumps n (a, ty)).1 -> q = attribute_upsert n a ty.
Proof.
  unfold emit_attribute.
  intros (u & Hu & H)%lifted_ops. apply lifted_ops in H as (d & Hd & H).
  apply lifted_ops in H as (f & Hf & H). apply lifted_ops in H as (v & Hv & H).
  apply lifted_ops in H as (c & Hc & H). apply run_sent in H. subst q.
  unfold attribute_upsert.
  by rewrite (py_get_overlay_value _ _ _ Hu), (py_get_overlay_value _ _ _ Hd),
    (py_get_overlay_value _ _ _ Hf), (py_get_overlay_value _ _ _ Hv),
    (py_get_overlay_value _ _ _ Hc).
Qed.

Lemma emit_attribute_done (n : normalized) (a ty : value) (ops : list op) :
  emit_attribute json_dumps n (a, ty) = (ops, None) -> ops = [attribute_upsert n a ty].
Proof.
  intros H.
  assert (forall q, q ∈ ops -> q = attribute_upsert n a ty) as Hall.
  { intros q Hq. apply (emit_attribute_sent n a ty). by rewrite H. }
  unfold emit_attribute in H.
  apply lifted_done in H as (u & _ & H). apply lifted_done in H as (d & _ & H).
  apply lifted_done in H as (f & _ & H). apply lifted_done in H as (v & _ & H).
  apply lifted_done in H as (c & _ & H). injection H as <-.
  f_equal. apply Hall. left.
Qed.

(** An import that ran to its end sent the upsert of every declared
    attribute, and no other statement on the pattern of an attribute. *)
Lemma import_attribute_upserts
  (data : value) (schema_name uuid4 : string) (n : normalized) (ops : list op)
  (items : list (value * value)) :
  normalize data uuid4 = Ok n ->
  import_oca_package json_dumps data schema_name uuid4 = (ops, None) ->
  attributes n = VDict items ->
  (forall a ty, (a, ty) ∈ items -> attribute_upsert n a ty ∈ ops) /\
  (forall q a, q ∈ ops -> op_target q = attribute_pattern a ->
               exists ty, (a, ty) ∈ items /\ q = attribute_upsert n a ty).
Proof.
  intros Hn Himp Hitems. split.
  - intros a ty Hin. unfold import_oca_package in Himp. rewrite Hn in Himp.
    cbn [lifted] in Himp. unfold emit in Himp.
    apply then_done in Himp as (ops1 & ops2 & _ & H & ->).
    apply then_done in H as (ops3 & ops4 & H & _ & ->).
    rewrite Hitems in H. cbn [py_items lifted] in H.
    destruct (for_each_done _ _ _ _ H Hin) as (opsa & Ha & Hsub).
    apply emit_attribute_done in Ha as ->.
    apply elem_of_app. right. apply elem_of_app. left. apply Hsub. left.
  - intros q a Hq Ht.
    assert (q ∈ (emit json_dumps data schema_name n).1) as Hq'.
    { unfold import_oca_package in Himp. rewrite Hn in Himp. cbn [lifted] in Himp.
      by rewrite Himp. }
    apply emit_ops in Hq'
      as [(ty & ->)|[(items' & [a' ty'] & Hi & Hin & H)|[(metas & meta & _ & _ & H)|H]]].
    + done.
    + rewrite Hitems in Hi. injection Hi as <-.
      apply emit_attribute_sent in H as ->. injection Ht as ->. eauto.
    + by apply emit_meta_ops in H as (? & ? & ? & -> & _).
    + by apply emit_ordering_ops in H as (_ & ? & ? & ->).
Qed.

(** After an import that ran to its end and whose statements the store took,
    the Attribute nodes named after a declared attribute carry what its
    upsert set. *)
Lemma import_attribute_props
  (data : value) (schema_name uuid4 : string) (n : normalized) (ops : list op)
  (items : list (value * value)) (a ty : value) (g : graph)
  (i : nat) (n' : node) (k : string) (v : value) :
  normalize data uuid4 = Ok n ->
  import_oca_package json_dumps data schema_name uuid4 = (ops, None) ->
  Forall (fun q => accepted q = true) ops ->
  attributes n = VDict items ->
  distinct_keys items = true ->
  (a, ty) ∈ items ->
  nodes (apply_ops ops g) !! i = Some n' ->
  matches_p (attribute_pattern a) n' = true ->
  (k, v) ∈ op_sets (attribute_upsert n a ty) ->
  props n' !! k = stored v.
Proof.
  intros Hn Himp Hacc Hitems Hd Hin.
  destruct (import_attribute_upserts _ _ _ _ _ _ Hn Himp Hitems) as [Hsent Honly].
  rewrite apply_ops_sent, (sent_all _ Hacc).
  destruct (last_writer ops g (attribute_pattern a)) as (q0 & Hq0 & Ht0 & H).
  { apply attribute_pattern_wf. }
  { exists (attribute_upsert n a ty). split; [by apply Hsent | done]. }
  destruct (Honly q0 a Hq0 Ht0) as (ty' & Hin' & ->).
  assert (ty' = ty) as ->; [|by apply H].
  pose proof (distinct_keys_lookup _ _ _ Hd Hin).
  pose proof (distinct_keys_lookup _ _ _ Hd Hin'). congruence.
Qed.

End Attributes.

Section Six_properties.

Variable json_dumps : value -> string.

(** C9. The Attribute upsert of a declared attribute [a] sets type, unit,
    description, format, vocabulary and codes on every node it binds; after
    the import every Attribute node named [a] has, for each of the six, the
    value the upsert carried, and no such property where that value is null.
    For unit, description, format, vocabulary and codes the value is null
    when the section holds nothing for [a], whatever the node held before
    the import. *)
Theorem attribute_upsert_sets_all_six
  (data : value) (schema_name uuid4 : string) (n : normalized) (ops : list op)
  (items : list (value * value)) (a ty : value) (g : graph) :
  normalize data uuid4 = Ok n ->
  import_oca_package json_dumps data schema_name uuid4 = (ops, None) ->
  Forall (fun q => accepted q = true) ops ->
  attributes n = VDict items ->
  distinct_keys items = true ->
  (a, ty) ∈ items ->
  attribute_upsert json_dumps n a ty ∈ ops /\
  forall i n',
    nodes (apply_ops ops g) !! i = Some n' ->
    matches_p (attribute_pattern a) n' = true ->
    (forall k v, (k, v) ∈ op_sets (attribute_upsert json_dumps n a ty) ->
                 props n' !! k = stored v) /\
    (forall k section,
       (k, section) ∈ [("unit", units n); ("description", attribute_descriptions n);
                       ("format", attribute_formats n);
                       ("vocabulary", controlled_vocabularies n);
                       ("codes", entry_codes n)] ->
       overlay_value section a = VNone -> props n' !! k = None).
Proof.
  intros Hn Himp Hacc Hitems Hd Hin.
  destruct (import_attribute_upserts json_dumps _ _ _ _ _ _ Hn Himp Hitems)
    as [Hsent Honly].
  split; [by apply Hsent|].
  pose proof (fun i n' k v =>
    import_attribute_props json_dumps _ _ _ _ _ _ _ _ g i n' k v
      Hn Himp Hacc Hitems Hd Hin) as Hsix.
  intros i n' Hn' Hm. split; [intros k v Hkv; by eapply Hsix|].
  intros k section Hk Hnone.
  assert (forall v, (k, v) ∈ op_sets (attribute_upsert json_dumps n a ty) ->
                    stored v = None -> props n' !! k = None) as Hset.
  { intros v Hv Hs. rewrite <- Hs. by eapply Hsix. }
  unfold attribute_upsert in Hset. simpl in Hset.
  repeat (apply elem_of_cons in Hk as [[= -> ->]|Hk]);
    [ .. | by apply elem_of_nil in Hk]; rewrite Hnone in Hset.
  - apply (Hset VNone); [|done]. right; left.
  - apply (Hset VNone); [|done]. right; right; left.
  - apply (Hset VNone); [|done]. right; right; right; left.
  - apply (Hset VNone); [|done]. do 4 right; left.
  - apply (Hset VNone); [|done]. do 5 right; left.
Qed.

End Six_properties.

Lemma attribute_upsert_sets_all_six_witness :
  prop_at (apply_ops (import_oca_package (fun _ => "")
                        (example_document "E1" []) "demo" "0000").1 stale_graph)
    0 "unit" = None.
Proof.
  unfold prop_at.
  destruct (nodes (apply_ops (import_oca_package (fun _ => "")
              (example_document "E1" []) "demo" "0000").1 stale_graph) !! 0%nat)
    as [n'|] eqn:E; [|reflexivity].
  simpl.
  destruct (attribute_upsert_sets_all_six (fun _ => "")
    (example_document "E1" []) "demo" "0000"
    (Normalized (VStr "E1") (VStr "EB1") (VDict [(VStr "dob", VStr "DateTime")])
       (VDict []) (VDict []) (VDict []) (VDict []) (VDict []) (VList []) (VDict []))
    (import_oca_package (fun _ => "") (example_document "E1" []) "demo" "0000").1
    [(VStr "dob", VStr "DateTime")] (VStr "dob") (VStr "DateTime") stale_graph)
    as [_ H].
  - reflexivity.
  - reflexivity.
  - vm_compute. repeat constructor.
  - reflexivity.
  - reflexivity.
  - left.
  - destruct (H 0%nat n' E) as [_ Hnull].
    + vm_compute in E. injection E as <-. reflexivity.
    + apply (Hnull "unit" (VDict [])); [left | reflexivity].
Defined.

(** ** The store: a run of statements *)

Abbreviation run_all := (foldl (fun g q => exec q g)).

Lemma run_all_positions_stable (ops : list op) (g : graph) (p : pattern) :
  wf_pattern p -> positions p (nodes g) <> [] ->
  positions p (nodes (run_all g ops)) = positions p (nodes g).
Proof.
  intros Hp. revert g. induction ops as [|q ops IH]; intros g Hne; simpl; [done|].
  rewrite IH; rewrite exec_nodes, positions_step_stable; done.
Qed.

Lemma run_all_positions_le1 (ops : list op) (g : graph) (p : pattern) :
  wf_pattern p ->
  (length (positions p (nodes g)) <= 1)%nat ->
  (length (positions p (nodes (run_all g ops))) <= 1)%nat.
Proof.
  intros Hp. revert g. induction ops as [|q ops IH]; intros g Hle; simpl; [done|].
  apply IH. rewrite exec_nodes.
  destruct (positions_step_length p q (nodes g) Hp) as [->|[_ ->]]; lia.
Qed.

Lemma run_all_positions_created (ops : list op) (g : graph) (q : op) :
  q ∈ ops -> op_creates q = true ->
  positions (op_target q) (nodes (run_all g ops)) <> [].
Proof.
  intros Hin Hc. revert g. induction ops as [|q' ops IH]; intros g.
  { by apply elem_of_nil in Hin. }
  simpl. apply elem_of_cons in Hin as [<-|Hin]; [|by apply IH].
  assert (positions (op_target q) (nodes (exec q g)) <> []) as Hne.
  { rewrite exec_nodes. by apply positions_step_target. }
  by rewrite run_all_positions_stable by auto with store.
Qed.

Lemma run_all_rels_mono (ops : list op) (g : graph) (r : nat * string * nat) :
  r ∈ rels g -> r ∈ rels (run_all g ops).
Proof.
  revert g. induction ops as [|q ops IH]; intros g H; simpl; [done|].
  by apply IH, exec_rels_mono.
Qed.

Lemma exec_rel_closed (q : op) (g : graph) (ty : string) :
  op_rel q = Some ty ->
  rel_closed (exec q g) ty (schema_pattern (op_schema_id q)) (op_target q).
Proof.
  intros Hrel s t Hs Ht. rewrite exec_nodes in Hs, Ht.
  unfold has_rel, exec. rewrite Hrel. apply merge_rels_rels. right. eauto.
Qed.

Lemma rel_closed_exec (q : op) (g : graph) (ty : string) (ps pt : pattern) :
  wf_pattern ps -> wf_pattern pt ->
  positions ps (nodes g) <> [] -> positions pt (nodes g) <> [] ->
  rel_closed g ty ps pt -> rel_closed (exec q g) ty ps pt.
Proof.
  intros Hps Hpt Hs Ht H s t. rewrite exec_nodes.
  rewrite !positions_step_stable by done. intros Hin Hin'.
  by apply exec_rels_mono, H.
Qed.

Lemma rel_closed_run_all (ops : list op) (g : graph) (ty : string) (ps pt : pattern) :
  wf_pattern ps -> wf_pattern pt ->
  positions ps (nodes g) <> [] -> positions pt (nodes g) <> [] ->
  rel_closed g ty ps pt -> rel_closed (run_all g ops) ty ps pt.
Proof.
  intros Hps Hpt. revert g. induction ops as [|q ops IH]; intros g Hs Ht H; simpl; [done|].
  apply IH.
  - by rewrite exec_nodes, positions_step_stable.
  - by rewrite exec_nodes, positions_step_stable.
  - by apply rel_closed_exec.
Qed.

Lemma op_rel_creates (q : op) (ty : string) : op_rel q = Some ty -> op_creates q = true.
Proof. by destruct q. Qed.

(** Once the Schema node is there, a statement with a relationship leaves
    the store closed under it, to the end of the run. *)
Lemma run_all_rel_closed (ops : list op) (g : graph) (q : op) (ty : string) :
  q ∈ ops -> op_rel q = Some ty ->
  positions (schema_pattern (op_schema_id q)) (nodes g) <> [] ->
  rel_closed (run_all g ops) ty (schema_pattern (op_schema_id q)) (op_target q).
Proof.
  intros Hin Hrel. revert g. induction ops as [|q' ops IH]; intros g Hs.
  { by apply elem_of_nil in Hin. }
  simpl. apply elem_of_cons in Hin as [<-|Hin].
  - apply rel_closed_run_all; auto with store.
    + by rewrite exec_nodes, positions_step_stable by auto with store.
    + rewrite exec_nodes. apply positions_step_target. by eapply op_rel_creates.
    + by apply exec_rel_closed.
  - apply IH; [done|].
    by rewrite exec_nodes, positions_step_stable by auto with store.
Qed.

(** *** The statements of one import *)

Lemma headed_sent (sid : value) (ops : list op) : headed sid ops -> headed sid (sent ops).
Proof.
  destruct ops as [|q rest]; [done|]. intros [Hq Hrest]. simpl.
  destruct (accepted q); [|done]. split; [done|].
  apply Forall_forall. intros q' Hq'%sent_subseteq.
  by apply (proj1 (Forall_forall _ _) Hrest).
Qed.

Lemma headed_elem (sid : value) (ops : list op) (q : op) :
  headed sid ops -> q ∈ ops -> op_schema_id q = sid.
Proof.
  destruct ops as [|q0 rest]; [by intros _ ?%elem_of_nil|].
  intros [(nm & cb & ty & ->) Hrest] [->|Hin]%elem_of_cons; [done|].
  by destruct (proj1 (Forall_forall _ _) Hrest q Hin).
Qed.

(** After the statements of one import the store holds the target of every
    [MERGE] among them and is closed under their relationships. *)
Lemma headed_saturates (sid : value) (ops : list op) (g : graph) (q : op) :
  headed sid ops -> q ∈ ops ->
  (op_creates q = true -> positions (op_target q) (nodes (run_all g ops)) <> []) /\
  (forall ty, op_rel q = Some ty ->
     positions (schema_pattern sid) (nodes (run_all g ops)) <> [] /\
     rel_closed (run_all g ops) ty (schema_pattern sid) (op_target q)).
Proof.
  intros Hh Hin. split; [by apply run_all_positions_created|].
  intros ty Hrel.
  destruct ops as [|q0 rest]; [by apply elem_of_nil in Hin|].
  destruct Hh as [(nm & cb & sty & ->) Hrest]. simpl.
  assert (positions (schema_pattern sid)
            (nodes (exec (SchemaUpsert sid nm cb sty) g)) <> []) as Hs.
  { rewrite exec_nodes. by apply (positions_step_target (SchemaUpsert sid nm cb sty)). }
  split; [by rewrite run_all_positions_stable by auto with store|].
  apply elem_of_cons in Hin as [->|Hin]; [done|].
  destruct (proj1 (Forall_forall _ _) Hrest q Hin) as [<- _].
  by apply run_all_rel_closed.
Qed.

Section Headed.

Variable json_dumps : value -> string.

Lemma emit_headed (data : value) (schema_name : string) (n : normalized) :
  headed (schema_id n) (emit json_dumps data schema_name n).1.
Proof.
  unfold emit.
  destruct (py_get data (VStr "type") (VStr "oca_package/1.0")) as [ty|e]; [|done].
  cbn [lifted run then_ fst]. simpl. split; [eauto|].
  apply Forall_forall. intros q Hq.
  apply then_ops in Hq as [H|H].
  { apply lifted_ops in H as (items & _ & H).
    apply for_each_ops in H as ([a aty] & _ & H).
    by apply emit_attribute_ops in H as (? & ? & ? & ? & ? & ->). }
  apply then_ops in H as [H|H].
  { apply lifted_ops in H as (metas & _ & H).
    apply for_each_ops in H as (meta & _ & H).
    by apply emit_meta_ops in H as (? & ? & ? & -> & _). }
  by apply emit_ordering_ops in H as (_ & ? & ? & ->).
Qed.

Lemma import_headed (data : value) (schema_name uuid4 : string) :
  exists sid, headed sid (import_oca_package json_dumps data schema_name uuid4).1.
Proof.
  unfold import_oca_package. destruct (normalize data uuid4) as [n|e].
  - exists (schema_id n). apply emit_headed.
  - by exists VNone.
Qed.

Lemma imports_headed data schema_name uuid4 n ops :
  imports json_dumps data schema_name uuid4 n ops -> headed (schema_id n) ops.
Proof.
  intros (Hn & Himp & _). unfold import_oca_package in Himp. rewrite Hn in Himp.
  cbn [lifted] in Himp. pose proof (emit_headed data schema_name n) as H.
  by rewrite Himp in H.
Qed.

Lemma imports_apply data schema_name uuid4 n ops g :
  imports json_dumps data schema_name uuid4 n ops ->
  apply_ops ops g = run_all g ops.
Proof. intros (_ & _ & Hacc). by rewrite apply_ops_sent, sent_all. Qed.

Lemma imports_attribute data schema_name uuid4 n ops a ty :
  imports json_dumps data schema_name uuid4 n ops -> declares n a ty ->
  attribute_upsert json_dumps n a ty ∈ ops.
Proof.
  intros (Hn & Himp & _) (items & Hitems & _ & Hin).
  by apply (import_attribute_upserts json_dumps _ _ _ _ _ _ Hn Himp Hitems).
Qed.

Lemma emit_meta_done (n : normalized) (meta name lang : value) (ops : list op) :
  emit_meta n meta = (ops, None) ->
  py_get meta (VStr "name") VNone = Ok name -> truthy name = true ->
  py_get meta (VStr "language") (VStr "unknown") = Ok lang ->
  exists desc, ops = [MetaUpsert name desc lang (schema_id n)].
Proof.
  unfold emit_meta. intros H Hname Ht Hlang. rewrite Hname in H. cbn [lifted] in H.
  destruct (py_get meta (VStr "description") VNone) as [desc|]; [|done].
  cbn [lifted] in H. rewrite Hlang in H. cbn [lifted] in H. rewrite Ht in H.
  injection H as <-. eauto.
Qed.

Lemma imports_meta data schema_name uuid4 n ops name lang :
  imports json_dumps data schema_name uuid4 n ops -> declares_meta n name lang ->
  exists desc, MetaUpsert name desc lang (schema_id n) ∈ ops.
Proof.
  intros (Hn & Himp & _) (metas & meta & Hiter & Hin & Hname & Ht & Hlang).
  unfold import_oca_package in Himp. rewrite Hn in Himp.
  cbn [lifted] in Himp. unfold emit in Himp.
  apply then_done in Himp as (ops1 & ops2 & _ & H & ->).
  apply then_done in H as (ops3 & ops4 & _ & H & ->).
  apply then_done in H as (ops5 & ops6 & H & _ & ->).
  rewrite Hiter in H. cbn [lifted] in H.
  destruct (for_each_done _ _ _ _ H Hin) as (opsm & Hm & Hsub).
  destruct (emit_meta_done _ _ _ _ _ Hm Hname Ht Hlang) as (desc & ->).
  exists desc. apply elem_of_app. right. apply elem_of_app. right.
  apply elem_of_app. left. apply Hsub. left.
Qed.

End Headed.

(** ** Shared attributes, scoped metadata *)

Lemma positions_singleton (p : pattern) (ns : list node) :
  positions p ns <> [] -> (length (positions p ns) <= 1)%nat ->
  exists t, positions p ns = [t].
Proof.
  destruct (positions p ns) as [|t [|t' l]]; simpl; [done|eauto|lia].
Qed.

Section Sharing.

Variable json_dumps : value -> string.

(** C2. Two documents that both declare the attribute [a] are imported, one
    after the other, into a store with at most one Attribute node named [a].
    Then the store has exactly one Attribute node named [a]; the node carries
    the six properties as the second import's upsert set them; and for each
    of the two schema ids there is a Schema node, every one of which has a
    HAS_ATTRIBUTE relationship to the node. *)
Theorem attribute_node_is_shared
  (d1 d2 : value) (name1 name2 uuid1 uuid2 : string) (n1 n2 : normalized)
  (ops1 ops2 : list op) (a ty1 ty2 : value) (g : graph) :
  imports json_dumps d1 name1 uuid1 n1 ops1 -> declares n1 a ty1 ->
  imports json_dumps d2 name2 uuid2 n2 ops2 -> declares n2 a ty2 ->
  (length (positions (attribute_pattern a) (nodes g)) <= 1)%nat ->
  exists t n',
    positions (attribute_pattern a) (nodes (apply_ops ops2 (apply_ops ops1 g))) = [t] /\
    nodes (apply_ops ops2 (apply_ops ops1 g)) !! t = Some n' /\
    (forall k v, (k, v) ∈ op_sets (attribute_upsert json_dumps n2 a ty2) ->
                 props n' !! k = stored v) /\
    (forall sid, sid = schema_id n1 \/ sid = schema_id n2 ->
       positions (schema_pattern sid)
         (nodes (apply_ops ops2 (apply_ops ops1 g))) <> [] /\
       forall s, s ∈ positions (schema_pattern sid)
                     (nodes (apply_ops ops2 (apply_ops ops1 g))) ->
                 has_rel (apply_ops ops2 (apply_ops ops1 g)) s "HAS_ATTRIBUTE" t).
Proof.
  intros Hi1 Hdec1 Hi2 Hdec2 Hle.
  pose proof (imports_attribute _ _ _ _ _ _ _ _ Hi1 Hdec1) as Hq1.
  pose proof (imports_attribute _ _ _ _ _ _ _ _ Hi2 Hdec2) as Hq2.
  pose proof (imports_headed _ _ _ _ _ _ Hi1) as Hh1.
  pose proof (imports_headed _ _ _ _ _ _ Hi2) as Hh2.
  set (g1 := apply_ops ops1 g). set (g2 := apply_ops ops2 g1).
  assert (g1 = run_all g ops1) as Eg1 by (by eapply imports_apply).
  assert (g2 = run_all g1 ops2) as Eg2 by (by eapply imports_apply).
  destruct (headed_saturates _ _ g _ Hh1 Hq1) as [Hc1 Hr1].
  destruct (headed_saturates _ _ g1 _ Hh2 Hq2) as [Hc2 Hr2].
  specialize (Hc1 eq_refl). specialize (Hc2 eq_refl).
  destruct (Hr1 "HAS_ATTRIBUTE" eq_refl) as [Hs1 Hcl1].
  destruct (Hr2 "HAS_ATTRIBUTE" eq_refl) as [Hs2 Hcl2].
  rewrite <- Eg1 in Hc1, Hs1, Hcl1. rewrite <- Eg2 in Hc2, Hs2, Hcl2.
  cbn [attribute_upsert op_target] in Hc1, Hc2, Hcl1, Hcl2.
  destruct (positions_singleton (attribute_pattern a) (nodes g2)) as [t Ht]; [done| |].
  { rewrite Eg2. apply run_all_positions_le1; [apply attribute_pattern_wf|].
    rewrite Eg1. by apply run_all_positions_le1; [apply attribute_pattern_wf|]. }
  assert (t ∈ positions (attribute_pattern a) (nodes g2)) as Hin by (rewrite Ht; left).
  pose proof Hin as (n' & Hn' & Hm)%elem_of_positions.
  exists t, n'. split; [done|]. split; [done|]. split.
  - intros k v Hkv. destruct Hi2 as (Hn2 & Himp2 & Hacc2).
    destruct Hdec2 as (items & Hitems & Hd & Hitem).
    by eapply (import_attribute_props json_dumps d2 name2 uuid2 n2 ops2 items a ty2 g1).
  - intros sid [-> | ->].
    + assert (positions (schema_pattern (schema_id n1)) (nodes g2) =
              positions (schema_pattern (schema_id n1)) (nodes g1)) as Es.
      { rewrite Eg2. by apply run_all_positions_stable; [apply schema_pattern_wf|]. }
      split; [by rewrite Es|]. intros s Hs.
      assert (rel_closed g2 "HAS_ATTRIBUTE" (schema_pattern (schema_id n1))
                (attribute_pattern a)) as Hcl.
      { rewrite Eg2. apply rel_closed_run_all; auto with store. }
      by apply Hcl.
    + split; [done|]. intros s Hs. by apply Hcl2.
Qed.

(** C7. A Meta upsert is sent only for an entry with a truthy name, and its
    pattern is the triple of name, schema id and language.  Two documents
    with different schema ids that both have a meta entry [name] in language
    [lang] are imported, one after the other, into a store with at most one
    Meta node for either triple.  Then each triple binds exactly one Meta
    node, and the two nodes are different. *)
Theorem meta_nodes_per_schema
  (d1 d2 : value) (name1 name2 uuid1 uuid2 : string) (n1 n2 : normalized)
  (ops1 ops2 : list op) (name lang : value) (g : graph) :
  imports json_dumps d1 name1 uuid1 n1 ops1 -> declares_meta n1 name lang ->
  imports json_dumps d2 name2 uuid2 n2 ops2 -> declares_meta n2 name lang ->
  schema_id n1 <> schema_id n2 ->
  (length (positions (meta_pattern name (schema_id n1) lang) (nodes g)) <= 1)%nat ->
  (length (positions (meta_pattern name (schema_id n2) lang) (nodes g)) <= 1)%nat ->
  (forall q, q ∈ ops1 ++ ops2 -> is_meta_upsert q = true ->
     exists nm desc l sid,
       q = MetaUpsert nm desc l sid /\ truthy nm = true /\
       op_target q = meta_pattern nm sid l /\
       (sid = schema_id n1 \/ sid = schema_id n2)) /\
  exists t1 t2,
    positions (meta_pattern name (schema_id n1) lang)
      (nodes (apply_ops ops2 (apply_ops ops1 g))) = [t1] /\
    positions (meta_pattern name (schema_id n2) lang)
      (nodes (apply_ops ops2 (apply_ops ops1 g))) = [t2] /\
    t1 <> t2.
Proof.
  intros Hi1 Hdec1 Hi2 Hdec2 Hne Hle1 Hle2. split.
  - assert (forall data nm uu n ops q,
      imports json_dumps data nm uu n ops -> q ∈ ops -> is_meta_upsert q = true ->
      exists nm desc l, q = MetaUpsert nm desc l (schema_id n) /\ truthy nm = true)
      as Hmeta.
    { intros data nm uu n ops q (Hn & Himp & _) Hq Hm.
      assert (q ∈ (emit json_dumps data nm n).1) as Hq'.
      { unfold import_oca_package in Himp. rewrite Hn in Himp. cbn [lifted] in Himp.
        by rewrite Himp. }
      apply emit_ops in Hq'
        as [(ty & ->)|[(items & item & _ & _ & H)|[(metas & meta & _ & _ & H)|H]]].
      - done.
      - by apply emit_attribute_ops in H as (? & ? & ? & ? & ? & ->).
      - apply emit_meta_ops in H as (nm' & desc & l & -> & Ht & _). eauto.
      - by apply emit_ordering_ops in H as (_ & ? & ? & ->). }
    intros q [Hq|Hq]%elem_of_app Hm.
    + destruct (Hmeta _ _ _ _ _ _ Hi1 Hq Hm) as (nm & desc & l & -> & Ht). eauto 10.
    + destruct (Hmeta _ _ _ _ _ _ Hi2 Hq Hm) as (nm & desc & l & -> & Ht). eauto 10.
  - destruct (imports_meta _ _ _ _ _ _ _ _ Hi1 Hdec1) as (desc1 & Hq1).
    destruct (imports_meta _ _ _ _ _ _ _ _ Hi2 Hdec2) as (desc2 & Hq2).
    set (g1 := apply_ops ops1 g). set (g2 := apply_ops ops2 g1).
    assert (g1 = run_all g ops1) as Eg1 by (by eapply imports_apply).
    assert (g2 = run_all g1 ops2) as Eg2 by (by eapply imports_apply).
    set (p1 := meta_pattern name (schema_id n1) lang) in *.
    set (p2 := meta_pattern name (schema_id n2) lang) in *.
    assert (wf_pattern p1) as Hp1 by apply meta_pattern_wf.
    assert (wf_pattern p2) as Hp2 by apply meta_pattern_wf.
    assert (positions p1 (nodes g1) <> []) as Hc1.
    { rewrite Eg1. by apply (run_all_positions_created ops1 g _ Hq1). }
    assert (positions p2 (nodes g2) <> []) as Hc2.
    { rewrite Eg2. by apply (run_all_positions_created ops2 g1 _ Hq2). }
    assert (positions p1 (nodes g2) <> []) as Hc1'.
    { rewrite Eg2. by rewrite run_all_positions_stable. }
    destruct (positions_singleton p1 (nodes g2)) as [t1 Ht1]; [done| |].
    { rewrite Eg2. apply run_all_positions_le1; [done|].
      rewrite Eg1. by apply run_all_positions_le1. }
    destruct (positions_singleton p2 (nodes g2)) as [t2 Ht2]; [done| |].
    { rewrite Eg2. apply run_all_positions_le1; [done|].
      rewrite Eg1. by apply run_all_positions_le1. }
    exists t1, t2. split; [done|]. split; [done|]. intros <-.
    assert (t1 ∈ positions p1 (nodes g2)) as (m & Hm & Hm1)%elem_of_positions
      by (rewrite Ht1; left).
    assert (t1 ∈ positions p2 (nodes g2)) as (m' & Hm' & Hm2)%elem_of_positions
      by (rewrite Ht2; left).
    assert (m' = m) as -> by congruence.
    pose proof (matches_inj _ _ _ Hp1 Hp2 Hm1 Hm2) as Heq.
    injection Heq as Heq. by destruct Hne.
Qed.

End Sharing.

Lemma example_imports_E1 :
  imports (fun _ => "") (example_document "E1" [example_meta]) "demo" "0000"
    (Normalized (VStr "E1") (VStr "EB1")
       (VDict [(VStr "dob", VStr "DateTime")])
       (VDict []) (VDict []) (VDict []) (VDict []) (VDict [])
       (VList [example_meta]) (VDict []))
    (import_oca_package (fun _ => "") (example_document "E1" [example_meta])
       "demo" "0000").1.
Proof.
  split; [reflexivity|]. split; [reflexivity|].
  vm_compute. repeat constructor.
Defined.

Lemma example_imports_E2 :
  imports (fun _ => "") (example_document "E2" [example_meta]) "demo" "0000"
    (Normalized (VStr "E2") (VStr "EB1")
       (VDict [(VStr "dob", VStr "DateTime")])
       (VDict []) (VDict []) (VDict []) (VDict []) (VDict [])
       (VList [example_meta]) (VDict []))
    (import_oca_package (fun _ => "") (example_document "E2" [example_meta])
       "demo" "0000").1.
Proof.
  split; [reflexivity|]. split; [reflexivity|].
  vm_compute. repeat constructor.
Defined.

Lemma attribute_node_is_shared_witness :
  exists t,
    positions (attribute_pattern (VStr "dob"))
      (nodes (apply_ops
                (import_oca_package (fun _ => "")
                   (example_document "E2" [example_meta]) "demo" "0000").1
                (apply_ops
                   (import_oca_package (fun _ => "")
                      (example_document "E1" [example_meta]) "demo" "0000").1
                   empty_graph))) = [t].
Proof.
  destruct (attribute_node_is_shared (fun _ => "")
    (example_document "E1" [example_meta]) (example_document "E2" [example_meta])
    "demo" "demo" "0000" "0000" _ _ _ _
    (VStr "dob") (VStr "DateTime") (VStr "DateTime") empty_graph
    example_imports_E1
    (ex_intro _ [(VStr "dob", VStr "DateTime")]
       (conj eq_refl (conj eq_refl (list_elem_of_here _ _))))
    example_imports_E2
    (ex_intro _ [(VStr "dob", VStr "DateTime")]
       (conj eq_refl (conj eq_refl (list_elem_of_here _ _)))))
    as (t & n' & Ht & _).
  - simpl. lia.
  - exists t. exact Ht.
Defined.

Lemma meta_nodes_per_schema_witness :
  exists t1 t2,
    positions (meta_pattern (VStr "name") (VStr "E1") (VStr "en"))
      (nodes (apply_ops
                (import_oca_package (fun _ => "")
                   (example_document "E2" [example_meta]) "demo" "0000").1
                (apply_ops
                   (import_oca_package (fun _ => "")
                      (example_document "E1" [example_meta]) "demo" "0000").1
                   empty_graph))) = [t1] /\
    positions (meta_pattern (VStr "name") (VStr "E2") (VStr "en"))
      (nodes (apply_ops
                (import_oca_package (fun _ => "")
                   (example_document "E2" [example_meta]) "demo" "0000").1
                (apply_ops
                   (import_oca_package (fun _ => "")
                      (example_document "E1" [example_meta]) "demo" "0000").1
                   empty_graph))) = [t2] /\
    t1 <> t2.
Proof.
  destruct (meta_nodes_per_schema (fun _ => "")
    (example_document "E1" [example_meta]) (example_document "E2" [example_meta])
    "demo" "demo" "0000" "0000" _ _ _ _ (VStr "name") (VStr "en") empty_graph
    example_imports_E1
    (ex_intro _ [example_meta] (ex_intro _ example_meta
       (conj eq_refl (conj (list_elem_of_here _ _)
          (conj eq_refl (conj eq_refl eq_refl))))))
    example_imports_E2
    (ex_intro _ [example_meta] (ex_intro _ example_meta
       (conj eq_refl (conj (list_elem_of_here _ _)
          (conj eq_refl (conj eq_refl eq_refl)))))))
    as [_ H].
  - simpl. discriminate.
  - simpl. lia.
  - simpl. lia.
  - exact H.
Defined.

(** ** Idempotence *)

Lemma set_props_app (l1 l2 : list (string * value)) (m : gmap string value) :
  set_props (l1 ++ l2) m = set_props l2 (set_props l1 m).
Proof. unfold set_props. apply foldl_app. Qed.

Lemma set_prop_lookup (m : gmap string value) (kv : string * value) (k : string) :
  set_prop m kv !! k = if String.eqb kv.1 k then stored kv.2 else m !! k.
Proof.
  destruct (String.eqb kv.1 k) eqn:E.
  - apply String.eqb_eq in E as <-. apply set_prop_lookup_eq.
  - apply String.eqb_neq in E. by apply set_prop_lookup_ne.
Qed.

Lemma set_props_lookup (sets : list (string * value)) (m : gmap string value)
  (k : string) :
  set_props sets m !! k =
  match assigned k sets with Some v => stored v | None => m !! k end.
Proof.
  revert m. induction sets as [|kv sets IH]; intros m; [done|].
  change (set_props (kv :: sets) m) with (set_props sets (set_prop m kv)).
  rewrite IH. simpl. destruct (assigned k sets); [done|].
  rewrite set_prop_lookup. by destruct (String.eqb kv.1 k).
Qed.

(** Assignments absorb: after [B], assignments [A] that change nothing
    followed by [B] again change nothing. *)
Lemma set_props_fix (A B : list (string * value)) (p : gmap string value) :
  set_props A p = p ->
  set_props B (set_props A (set_props B p)) = set_props B p.
Proof.
  intros H. apply map_eq. intros k. rewrite !set_props_lookup.
  destruct (assigned k B); [done|].
  by rewrite <- (set_props_lookup A p k), H.
Qed.

Lemma node_eta (n : node) : Node (label n) (props n) = n.
Proof. by destruct n. Qed.

Lemma upd_all_app (l1 l2 : list op) (n : node) :
  upd_all (l1 ++ l2) n = upd_all l2 (upd_all l1 n).
Proof. unfold upd_all. apply foldl_app. Qed.

Lemma upd_all_matches (p : pattern) (ops : list op) (n : node) :
  wf_pattern p -> matches_p p (upd_all ops n) = matches_p p n.
Proof.
  intros Hp. revert n. induction ops as [|q ops IH]; intros n; [done|].
  change (upd_all (q :: ops) n) with (upd_all ops (upd (op_target q) (op_sets q) n)).
  rewrite IH. apply upd_matches; auto with store.
Qed.

Lemma sets_for_congr (ops : list op) (n n' : node) :
  (forall q, matches_p (op_target q) n' = matches_p (op_target q) n) ->
  sets_for ops n' = sets_for ops n.
Proof.
  intros H. induction ops as [|q ops IH]; [done|]. simpl. by rewrite H, IH.
Qed.

Lemma sets_for_upd (ops : list op) (p : pattern) (sets : list (string * value))
  (n : node) :
  avoids p sets -> sets_for ops (upd p sets n) = sets_for ops n.
Proof.
  intros Hav. apply sets_for_congr. intros q. apply upd_matches; auto with store.
Qed.

Lemma upd_all_props (ops : list op) (n : node) :
  upd_all ops n = Node (label n) (set_props (sets_for ops n) (props n)).
Proof.
  revert n. induction ops as [|q ops IH]; intros n.
  { simpl. by rewrite node_eta. }
  change (upd_all (q :: ops) n) with (upd_all ops (upd (op_target q) (op_sets q) n)).
  rewrite IH, sets_for_upd, upd_label by auto with store.
  simpl. rewrite set_props_app. unfold upd.
  by destruct (matches_p (op_target q) n).
Qed.

Lemma sets_for_nil (ops : list op) (n : node) :
  (forall q, q ∈ ops -> matches_p (op_target q) n = false) -> sets_for ops n = [].
Proof.
  induction ops as [|q ops IH]; intros H; [done|]. simpl.
  rewrite (H q) by left. simpl. apply IH. intros q' Hq'. apply H. by right.
Qed.

(** *** A run on a store that the same run has been through *)

Lemma exec_saturated (q : op) (g : graph) :
  (op_creates q = true -> positions (op_target q) (nodes g) <> []) ->
  (forall ty, op_rel q = Some ty ->
     rel_closed g ty (schema_pattern (op_schema_id q)) (op_target q)) ->
  exec q g = Graph (map (upd (op_target q) (op_sets q)) (nodes g)) (rels g).
Proof.
  intros Hc Hr. unfold exec.
  assert (step_nodes q (nodes g) = map (upd (op_target q) (op_sets q)) (nodes g)) as ->.
  { unfold step_nodes, ensure. destruct (op_creates q); [|done].
    by destruct (positions (op_target q) (nodes g)) eqn:E; [destruct Hc|]. }
  destruct (op_rel q) as [ty|] eqn:Hrel; [|done].
  apply merge_rels_id. intros s t Hs Ht. simpl.
  rewrite positions_upd in Hs, Ht by auto with store.
  by apply (Hr ty).
Qed.

Lemma run_all_saturated (ops : list op) (g : graph) :
  (forall q, q ∈ ops ->
     (op_creates q = true -> positions (op_target q) (nodes g) <> []) /\
     (forall ty, op_rel q = Some ty ->
        rel_closed g ty (schema_pattern (op_schema_id q)) (op_target q))) ->
  run_all g ops = Graph (map (upd_all ops) (nodes g)) (rels g).
Proof.
  revert g. induction ops as [|q ops IH]; intros g H.
  { simpl. rewrite map_id. by destruct g. }
  simpl. destruct (H q) as [Hc Hr]; [left|].
  rewrite exec_saturated by done. rewrite IH.
  - simpl. by rewrite map_map.
  - intros q' Hq'. destruct (H q') as [Hc' Hr']; [by right|]. split.
    + intros Hcr. simpl. rewrite positions_upd by auto with store. by apply Hc'.
    + intros ty Hrel s t. simpl. rewrite !positions_upd by auto with store.
      by apply Hr'.
Qed.

(** *** Every node is left as the run would leave it again *)

Lemma creators_first_prefix (ops : list op) (q : op) :
  creators_first (ops ++ [q]) -> creators_first ops.
Proof.
  intros H ops1 q0 ops2 -> Hc q' Hq' Ht.
  eapply (H ops1 q0 (ops2 ++ [q])); [|done..].
  by rewrite <- app_assoc.
Qed.

Lemma upd_idem (q : op) (n : node) :
  upd (op_target q) (op_sets q) (upd (op_target q) (op_sets q) n) =
  upd (op_target q) (op_sets q) n.
Proof.
  unfold upd at 1. rewrite upd_matches by auto with store.
  unfold upd. destruct (matches_p (op_target q) n) eqn:E; [|done].
  simpl. f_equal. exact (set_props_fix [] (op_sets q) (props n) eq_refl).
Qed.

(** A node the statements [ops] leave as it is, is after the [SET] of [q]
    left as it is by [ops] followed by [q]. *)
Lemma upd_all_upd_fixed (q : op) (ops : list op) (m : node) :
  upd_all ops m = m ->
  upd (op_target q) (op_sets q) (upd_all ops (upd (op_target q) (op_sets q) m)) =
  upd (op_target q) (op_sets q) m.
Proof.
  intros Hfix. destruct (matches_p (op_target q) m) eqn:E.
  - assert (set_props (sets_for ops m) (props m) = props m) as HA.
    { rewrite upd_all_props in Hfix. by apply (f_equal props) in Hfix. }
    assert (matches_p (op_target q)
              (upd_all ops (upd (op_target q) (op_sets q) m)) = true) as Hm.
    { by rewrite upd_all_matches, upd_matches by auto with store. }
    unfold upd at 1. rewrite Hm, upd_all_props, sets_for_upd by auto with store.
    unfold upd. rewrite E. simpl. f_equal. by apply set_props_fix.
  - unfold upd at 2. rewrite E, Hfix. unfold upd. by rewrite E.
Qed.

Lemma upd_all_fresh_fixed (q : op) (ops : list op) :
  (forall q', q' ∈ ops -> matches_p (op_target q') (fresh (op_target q)) = false) ->
  upd (op_target q) (op_sets q)
    (upd_all ops (upd (op_target q) (op_sets q) (fresh (op_target q)))) =
  upd (op_target q) (op_sets q) (fresh (op_target q)).
Proof.
  intros H. rewrite upd_all_props, sets_for_upd, (sets_for_nil _ _ H) by auto with store.
  change (set_props [] ?p) with p. rewrite node_eta. apply upd_idem.
Qed.

Lemma run_all_snoc (ops : list op) (q : op) (g : graph) :
  run_all g (ops ++ [q]) = exec q (run_all g ops).
Proof. by rewrite foldl_app. Qed.

Lemma run_all_nodes_fixed (ops : list op) (g : graph) (i : nat) (n : node) :
  creators_first ops ->
  nodes (run_all g ops) !! i = Some n -> upd_all ops n = n.
Proof.
  revert i n. induction ops as [|q ops IH] using rev_ind; intros i n Hcf Hn; [done|].
  pose proof (creators_first_prefix _ _ Hcf) as Hcf'.
  rewrite run_all_snoc, exec_nodes in Hn.
  rewrite upd_all_app.
  change (upd_all [q] (upd_all ops n))
    with (upd (op_target q) (op_sets q) (upd_all ops n)).
  apply step_nodes_lookup in Hn as [(m & Hm & ->)|(_ & Hc & Hnil & ->)].
  - apply upd_all_upd_fixed. by eapply IH.
  - apply upd_all_fresh_fixed. intros q' Hq'.
    destruct (matches_p (op_target q') (fresh (op_target q))) eqn:E; [|done].
    apply fresh_matches_inj in E; auto with store.
    assert (op_creates q' = true) as Hc'.
    { by apply (Hcf ops q [] eq_refl Hc q' Hq'). }
    pose proof (run_all_positions_created ops g q' Hq' Hc') as Hne.
    by rewrite E in Hne.
Qed.

Lemma headed_creators_first (sid : value) (ops : list op) :
  headed sid ops -> creators_first ops.
Proof.
  intros Hh ops1 q ops2 -> Hc q' Hq' Ht.
  destruct ops1 as [|q0 ops1]; [by apply elem_of_nil in Hq'|].
  destruct Hh as [(nm & cb & ty & ->) Hrest].
  assert (follows sid q) as [_ Hq].
  { apply (proj1 (Forall_forall _ _) Hrest). apply elem_of_app. right. left. }
  apply elem_of_cons in Hq' as [->|Hq'].
  - by destruct q.
  - assert (follows sid q') as [_ Hq''].
    { apply (proj1 (Forall_forall _ _) Hrest). apply elem_of_app. by left. }
    by destruct q, q'.
Qed.

(** The statements of one import, run twice, leave the store as one run
    leaves it. *)
Lemma headed_run_twice (sid : value) (ops : list op) (g : graph) :
  headed sid ops -> run_all (run_all g ops) ops = run_all g ops.
Proof.
  intros Hh. rewrite run_all_saturated.
  - assert (map (upd_all ops) (nodes (run_all g ops)) = nodes (run_all g ops)) as ->.
    { apply list_eq. intros i. rewrite list_lookup_fmap.
      destruct (nodes (run_all g ops) !! i) as [n|] eqn:E; [|done]. simpl.
      f_equal. eapply run_all_nodes_fixed; [|done]. by eapply headed_creators_first. }
    by destruct (run_all g ops).
  - intros q Hq. destruct (headed_saturates sid ops g q Hh Hq) as [Hc Hr].
    split; [done|]. intros ty Hrel. rewrite (headed_elem _ _ _ Hh Hq).
    by apply Hr.
Qed.

Section Idempotence.

Variable json_dumps : value -> string.

(** C1. The statements an import sends, applied a second time to the store
    they were applied to, leave it as it is: the same nodes with the same
    properties, and the same relationships. *)
Theorem import_is_idempotent
  (data : value) (schema_name uuid4 : string) (g : graph) :
  apply_ops (import_oca_package json_dumps data schema_name uuid4).1
    (apply_ops (import_oca_package json_dumps data schema_name uuid4).1 g) =
  apply_ops (import_oca_package json_dumps data schema_name uuid4).1 g.
Proof.
  destruct (import_headed json_dumps data schema_name uuid4) as [sid Hh].
  rewrite !apply_ops_sent. eapply headed_run_twice. by apply headed_sent.
Qed.

End Idempotence.

(** * Further properties of the importer *)

(** ** The statements of an import *)

Lemma for_each_complete {A : Type} (body : A -> trace) (l : list A) (ops : list op) :
  for_each body l = (ops, None) ->
  ops = concat (map (fun x => (body x).1) l) /\ Forall (fun x => (body x).2 = None) l.
Proof.
  revert ops. induction l as [|x l IH]; intros ops H.
  { injection H as <-. by split. }
  simpl in H. apply then_done in H as (ops1 & ops2 & Hx & Hl & ->).
  destruct (IH _ Hl) as [-> Hall]. simpl. rewrite Hx. simpl. split; [done|].
  constructor; [by rewrite Hx | done].
Qed.

Lemma py_get_get_or (o : value) (k : string) (dflt v : value) :
  py_get o (VStr k) dflt = Ok v -> v = get_or o k dflt /\ is_mapping o = true.
Proof. destruct o; try done. simpl. by intros [= <-]. Qed.

Lemma emit_meta_complete (n : normalized) (meta : value) (ops : list op) :
  emit_meta n meta = (ops, None) -> ops = meta_upserts n meta /\ is_mapping meta = true.
Proof.
  unfold emit_meta, meta_upserts. intros H.
  apply lifted_done in H as (name & [-> Hm]%py_get_get_or & H).
  apply lifted_done in H as (desc & [-> _]%py_get_get_or & H).
  apply lifted_done in H as (lang & [-> _]%py_get_get_or & H).
  split; [|done]. destruct (truthy _); by injection H as <-.
Qed.

Section Statements.

Variable json_dumps : value -> string.

Lemma emit_ordering_complete (n : normalized) (ops : list op) :
  emit_ordering json_dumps n = (ops, None) -> ops = ordering_updates json_dumps n.
Proof.
  unfold emit_ordering, ordering_updates. destruct (truthy (ordering_data n)).
  - intros H. apply lifted_done in H as (ao & [-> _]%py_get_get_or & H).
    apply lifted_done in H as (eo & [-> _]%py_get_get_or & H).
    by injection H as <-.
  - by intros [= <-].
Qed.

(** X1. An import that runs to its end has sent, in this order: the Schema
    upsert; one Attribute upsert for each declared attribute, in the order
    of the capture base; one Meta upsert for each meta entry with a truthy
    name, in the order of the section; and the ordering update if the
    ordering data is not empty.  Nothing else is sent. *)
Theorem completed_import_statements
  (data : value) (schema_name uuid4 : string) (n : normalized) (ops : list op) :
  normalize data uuid4 = Ok n ->
  import_oca_package json_dumps data schema_name uuid4 = (ops, None) ->
  exists items metas,
    attributes n = VDict items /\
    py_iter (meta_overlays n) = Ok metas /\
    Forall (fun meta => is_mapping meta = true) metas /\
    ops = completed_statements json_dumps data schema_name n items metas.
Proof.
  intros Hn Himp. unfold import_oca_package in Himp. rewrite Hn in Himp.
  cbn [lifted] in Himp. unfold emit in Himp.
  apply then_done in Himp as (ops1 & ops2 & Hs & H & ->).
  apply then_done in H as (ops3 & ops4 & Ha & H & ->).
  apply then_done in H as (ops5 & ops6 & Hm & Ho & ->).
  apply lifted_done in Hs as (ty & [-> _]%py_get_get_or & Hs). injection Hs as <-.
  apply lifted_done in Ha as (items & Hitems & Ha).
  apply lifted_done in Hm as (metas & Hmetas & Hm).
  destruct (attributes n) as [ | | | | |items'] eqn:Eattr; try done.
  injection Hitems as ->.
  exists items, metas. split; [done|]. split; [done|].
  apply for_each_complete in Ha as [-> Ha].
  apply for_each_complete in Hm as [-> Hm].
  apply emit_ordering_complete in Ho as ->.
  assert (Forall (fun meta => (emit_meta n meta).1 = meta_upserts n meta /\
                              is_mapping meta = true) metas) as Hmetas'.
  { apply Forall_forall. intros meta Hin.
    pose proof (proj1 (Forall_forall _ _) Hm meta Hin) as Hdone.
    cbv beta in Hdone.
    destruct (emit_meta n meta) as [o st] eqn:E. cbn [snd] in Hdone. subst st.
    apply emit_meta_complete in E as [-> ?]. done. }
  split.
  { apply Forall_forall. intros meta Hin.
    by destruct (proj1 (Forall_forall _ _) Hmetas' meta Hin). }
  unfold completed_statements, schema_upsert. simpl. f_equal. f_equal; [|f_equal].
  - clear -Ha. induction Ha as [|[a ty] items Hx _ IH]; [done|].
    assert ((emit_attribute json_dumps n (a, ty)).1 =
            [attribute_upsert json_dumps n a ty]) as Hone.
    { cbv beta in Hx.
      destruct (emit_attribute json_dumps n (a, ty)) as [o st] eqn:E.
      cbn [snd] in Hx. subst st. by apply emit_attribute_done in E as ->. }
    cbn [map concat]. by rewrite Hone, IH.
  - clear -Hmetas'. induction Hmetas' as [|meta metas [Hx _] _ IH]; [done|].
    cbn [map concat]. by rewrite IH, Hx.
Qed.

End Statements.

Lemma completed_import_statements_witness :
  exists items metas,
    (import_oca_package (fun _ => "") (example_document "E1" [example_meta])
       "demo" "0000").1 =
    completed_statements (fun _ => "") (example_document "E1" [example_meta]) "demo"
      (Normalized (VStr "E1") (VStr "EB1") (VDict [(VStr "dob", VStr "DateTime")])
         (VDict []) (VDict []) (VDict []) (VDict []) (VDict [])
         (VList [example_meta]) (VDict []))
      items metas.
Proof.
  destruct (completed_import_statements (fun _ => "")
    (example_document "E1" [example_meta]) "demo" "0000" _ _ eq_refl eq_refl)
    as (items & metas & _ & _ & _ & H).
  exists items, metas. exact H.
Defined.

(** ** What an import sends, and when it sends nothing *)

Lemma normalize_mapping (data : value) (uuid4 : string) (n : normalized) :
  normalize data uuid4 = Ok n -> is_mapping data = true.
Proof.
  intros (b & cb & d & ov & o & _ & _ & Hd & _)%normalize_inv.
  by apply py_get_mapping in Hd.
Qed.

Lemma normalize_overlays_folded (overlays : value) (o : overlay_data) :
  normalize_overlays overlays = Ok o ->
  is_mapping (o_descriptions o) = true /\ is_mapping (o_vocabularies o) = true.
Proof.
  unfold normalize_overlays. intros H.
  destruct (py_get overlays (VStr "unit") _) as [x1|]; cbn [bind] in H; [|done].
  destruct (keyed_overlay _ x1) as [u|]; cbn [bind] in H; [|done].
  destruct (py_get overlays (VStr "information") _) as [x2|]; cbn [bind] in H; [|done].
  destruct (fold_overlay _ x2) as [ds|] eqn:Eds; cbn [bind] in H; [|done].
  destruct (py_get overlays (VStr "entry") _) as [x3|]; cbn [bind] in H; [|done].
  destruct (fold_overlay _ x3) as [vs|] eqn:Evs; cbn [bind] in H; [|done].
  destruct (py_get overlays (VStr "entry_code") _) as [x4|]; cbn [bind] in H; [|done].
  destruct (keyed_overlay _ x4) as [cs|]; cbn [bind] in H; [|done].
  destruct (py_get overlays (VStr "format") _) as [x5|]; cbn [bind] in H; [|done].
  destruct (keyed_overlay _ x5) as [fs|]; cbn [bind] in H; [|done].
  destruct (py_get overlays (VStr "meta") _) as [x6|]; cbn [bind] in H; [|done].
  injection H as <-. simpl.
  assert (forall f x v, fold_overlay f x = Ok v -> is_mapping v = true) as Hfold.
  { intros f x v. unfold fold_overlay.
    destruct (py_iter x) as [es|]; cbn [bind]; [|done].
    destruct (fold_entries f es []); cbn [bind]; [|done]. by intros [= <-]. }
  split; eapply Hfold; eauto.
Qed.

Lemma normalize_folded (data : value) (uuid4 : string) (n : normalized) :
  normalize data uuid4 = Ok n ->
  is_mapping (attribute_descriptions n) = true /\
  is_mapping (controlled_vocabularies n) = true.
Proof.
  intros (b & cb & d & ov & o & _ & _ & _ & _ & _ & _ & Ho & _ & ->)%normalize_inv.
  simpl. by apply normalize_overlays_folded in Ho.
Qed.

Lemma py_get_mapping_ok (o k dflt : value) :
  is_mapping o = true -> hashable k = true ->
  py_get o k dflt = Ok (match o with
                        | VDict d => match dict_lookup k d with
                                     | Some v => v
                                     | None => dflt
                                     end
                        | _ => dflt
                        end).
Proof. destruct o; try done. simpl. by intros _ ->. Qed.

Section Sending.

Variable json_dumps : value -> string.

Lemma emit_attribute_total (n : normalized) (a ty : value) :
  hashable a = true ->
  is_mapping (units n) = true -> is_mapping (attribute_descriptions n) = true ->
  is_mapping (attribute_formats n) = true ->
  is_mapping (controlled_vocabularies n) = true ->
  is_mapping (entry_codes n) = true ->
  emit_attribute json_dumps n (a, ty) = ([attribute_upsert json_dumps n a ty], None).
Proof.
  intros Ha Hu Hd Hf Hv Hc. unfold emit_attribute.
  rewrite !py_get_mapping_ok by done. done.
Qed.

Lemma string_keys_hashable (items : list (value * value)) (kv : value * value) :
  string_keys items = true -> kv ∈ items -> hashable kv.1 = true.
Proof.
  unfold string_keys. rewrite forallb_forall. intros H Hin%list_elem_of_In.
  specialize (H _ Hin). by destruct kv.1.
Qed.

Lemma for_each_attributes (n : normalized) (items : list (value * value)) :
  string_keys items = true ->
  is_mapping (units n) = true -> is_mapping (attribute_descriptions n) = true ->
  is_mapping (attribute_formats n) = true ->
  is_mapping (controlled_vocabularies n) = true ->
  is_mapping (entry_codes n) = true ->
  for_each (emit_attribute json_dumps n) items =
  (map (fun item => attribute_upsert json_dumps n item.1 item.2) items, None).
Proof.
  intros Hk Hu Hd Hf Hv Hc. induction items as [|[a ty] items IH]; [done|].
  simpl in Hk. apply andb_prop in Hk as [Ha Hk].
  cbn [for_each map]. rewrite emit_attribute_total, IH; try done.
  by destruct a.
Qed.

(** X2. No statement of an import, complete or not, upserts an attribute that
    the capture base does not declare: overlay data for other names never
    reaches the store. *)
Theorem only_declared_attributes_are_upserted
  (data : value) (schema_name uuid4 : string) (q : op) :
  q ∈ (import_oca_package json_dumps data schema_name uuid4).1 ->
  is_attribute_upsert q = true ->
  exists cb items a ty,
    capture_base_of data = Ok cb /\
    py_get cb (VStr "attributes") (VDict []) = Ok (VDict items) /\
    (a, ty) ∈ items /\
    op_target q = attribute_pattern a.
Proof.
  unfold import_oca_package. intros (n & Hn & Hq)%lifted_ops Hattr.
  pose proof Hn as (b & cb & d & ov & o & Hb & Hcb & _ & _ & Hat & _)%normalize_inv.
  apply emit_ops in Hq
    as [(ty & ->)|[(items & [a ty] & Hi & Hin & H)|[(metas & meta & _ & _ & H)|H]]].
  - done.
  - apply emit_attribute_sent in H as ->.
    destruct (attributes n) as [ | | | | |items'] eqn:E; try done.
    injection Hi as ->. exists cb, items, a, ty. split; [|done].
    unfold capture_base_of. unfold get_path in *.
    destruct (py_get data (VStr "oca_bundle") _) as [ob|]; cbn [bind] in *; [|done].
    destruct (py_get ob _ _) as [b'|]; cbn [bind] in *; [|done].
    injection Hb as ->. by rewrite Hcb.
  - by apply emit_meta_ops in H as (? & ? & ? & -> & _).
  - by apply emit_ordering_ops in H as (_ & ? & ? & ->).
Qed.

(** X3. An import sends no statement exactly when normalisation raises; when
    it does not raise, the first statement is the Schema upsert.  So a
    document is written in part only by an exception raised after the
    session is open. *)
Theorem nothing_sent_iff_normalization_raises
  (data : value) (schema_name uuid4 : string) :
  ((import_oca_package json_dumps data schema_name uuid4).1 = [] <->
   exists e, normalize data uuid4 = Raise e) /\
  (forall n, normalize data uuid4 = Ok n ->
     exists rest, (import_oca_package json_dumps data schema_name uuid4).1 =
                  schema_upsert data schema_name n :: rest).
Proof.
  assert (forall n, normalize data uuid4 = Ok n ->
     exists rest, (import_oca_package json_dumps data schema_name uuid4).1 =
                  schema_upsert data schema_name n :: rest) as Hhead.
  { intros n Hn. unfold import_oca_package. rewrite Hn. cbn [lifted]. unfold emit.
    pose proof (normalize_mapping _ _ _ Hn) as Hm.
    rewrite (py_get_mapping_ok data) by done. cbn [lifted run then_ fst].
    eexists. unfold schema_upsert, get_or. destruct data; try done. }
  split; [|done]. split.
  - intros Hnil. destruct (normalize data uuid4) as [n|e] eqn:Hn; [|eauto].
    destruct (Hhead n eq_refl) as [rest Hrest]. congruence.
  - intros [e He]. unfold import_oca_package. by rewrite He.
Qed.

(** X4. When the meta section cannot be iterated (it is null, a number or a
    boolean), the import raises only after it has sent the Schema upsert and
    the upsert of every declared attribute: the document is written in part. *)
Theorem meta_section_failure_is_partial
  (data : value) (schema_name uuid4 : string) (n : normalized)
  (items : list (value * value)) (e : exn) :
  normalize data uuid4 = Ok n ->
  attributes n = VDict items -> string_keys items = true ->
  is_mapping (units n) = true -> is_mapping (attribute_formats n) = true ->
  is_mapping (entry_codes n) = true ->
  py_iter (meta_overlays n) = Raise e ->
  import_oca_package json_dumps data schema_name uuid4 =
    (schema_upsert data schema_name n ::
     map (fun item => attribute_upsert json_dumps n item.1 item.2) items,
     Some TypeError).
Proof.
  intros Hn Hitems Hk Hu Hf Hc Hmeta.
  destruct (normalize_folded _ _ _ Hn) as [Hd Hv].
  pose proof (normalize_mapping _ _ _ Hn) as Hm.
  assert (e = TypeError) as -> by (destruct (meta_overlays n); simpl in Hmeta; congruence).
  unfold import_oca_package. rewrite Hn. cbn [lifted]. unfold emit.
  rewrite (py_get_mapping_ok data), Hitems, Hmeta by done.
  cbn [lifted py_items]. rewrite for_each_attributes by done.
  unfold schema_upsert, get_or. destruct data; try done. simpl.
  by rewrite app_nil_r.
Qed.

End Sending.

Lemma only_declared_attributes_are_upserted_witness :
  exists cb items a ty,
    capture_base_of (example_document "E1" []) = Ok cb /\
    py_get cb (VStr "attributes") (VDict []) = Ok (VDict items) /\
    (a, ty) ∈ items /\
    op_target (AttributeUpsert (VStr "dob") (VStr "DateTime") VNone VNone VNone
                 VNone VNone (VStr "E1")) = attribute_pattern a.
Proof.
  apply (only_declared_attributes_are_upserted (fun _ => "")
           (example_document "E1" []) "demo" "0000").
  - vm_compute. right. left.
  - reflexivity.
Defined.

Lemma nothing_sent_iff_normalization_raises_witness :
  (import_oca_package (fun _ => "") (VList []) "demo" "0000").1 = [].
Proof.
  apply (nothing_sent_iff_normalization_raises (fun _ => "") (VList []) "demo" "0000").
  exists AttributeError. reflexivity.
Defined.

Lemma meta_section_failure_is_partial_witness :
  import_oca_package (fun _ => "")
    (VDict [(VStr "d", VStr "E1");
            (VStr "oca_bundle",
             VDict [(VStr "bundle",
               VDict [(VStr "capture_base",
                         VDict [(VStr "attributes",
                                 VDict [(VStr "dob", VStr "DateTime")])]);
                      (VStr "overlays", VDict [(VStr "meta", VNone)])])])])
    "demo" "0000" =
  ([SchemaUpsert (VStr "E1") (VStr "demo") VNone (VStr "oca_package/1.0");
    AttributeUpsert (VStr "dob") (VStr "DateTime") VNone VNone VNone VNone VNone
      (VStr "E1")],
   Some TypeError).
Proof.
  exact (meta_section_failure_is_partial (fun _ => "")
    (VDict [(VStr "d", VStr "E1");
            (VStr "oca_bundle",
             VDict [(VStr "bundle",
               VDict [(VStr "capture_base",
                         VDict [(VStr "attributes",
                                 VDict [(VStr "dob", VStr "DateTime")])]);
                      (VStr "overlays", VDict [(VStr "meta", VNone)])])])])
    "demo" "0000"
    (Normalized (VStr "E1") VNone (VDict [(VStr "dob", VStr "DateTime")])
       (VDict []) (VDict []) (VDict []) (VDict []) (VDict []) VNone (VDict []))
    [(VStr "dob", VStr "DateTime")] TypeError
    eq_refl eq_refl eq_refl eq_refl eq_refl eq_refl eq_refl).
Defined.

(** ** Generated identifiers *)

Lemma normalize_uuid (data : value) (u1 u2 : string) (n1 : normalized) :
  normalize data u1 = Ok n1 ->
  exists d,
    py_get data (VStr "d") VNone = Ok d /\
    schema_id n1 = pick_schema_id d u1 /\
    normalize data u2 =
      Ok (Normalized (pick_schema_id d u2) (capture_base_id n1) (attributes n1)
            (units n1) (attribute_descriptions n1) (controlled_vocabularies n1)
            (entry_codes n1) (attribute_formats n1) (meta_overlays n1)
            (ordering_data n1)).
Proof.
  unfold normalize. intros H.
  destruct (py_get data (VStr "oca_bundle") _) as [ob|]; cbn [bind] in *; [|done].
  destruct (py_get ob _ _) as [b|]; cbn [bind] in *; [|done].
  destruct (py_get b (VStr "capture_base") _) as [cb|]; cbn [bind] in *; [|done].
  destruct (py_get data (VStr "d") _) as [d|]; cbn [bind] in *; [|done].
  destruct (py_get cb (VStr "d") _) as [cbid|]; cbn [bind] in *; [|done].
  destruct (py_get cb (VStr "attributes") _) as [attrs|]; cbn [bind] in *; [|done].
  destruct (py_get b (VStr "overlays") _) as [ov|]; cbn [bind] in *; [|done].
  destruct (normalize_overlays ov) as [o|]; cbn [bind] in *; [|done].
  destruct (ordering_of data cbid) as [od|]; cbn [bind] in *; [|done].
  injection H as <-. exists d. by repeat split.
Qed.

Lemma normalize_raise_uuid (data : value) (u1 u2 : string) (e : exn) :
  normalize data u1 = Raise e -> normalize data u2 = Raise e.
Proof.
  unfold normalize. intros H.
  destruct (py_get data (VStr "oca_bundle") _) as [ob|]; cbn [bind] in *; [|done].
  destruct (py_get ob _ _) as [b|]; cbn [bind] in *; [|done].
  destruct (py_get b (VStr "capture_base") _) as [cb|]; cbn [bind] in *; [|done].
  destruct (py_get data (VStr "d") _) as [d|]; cbn [bind] in *; [|done].
  destruct (py_get cb (VStr "d") _) as [cbid|]; cbn [bind] in *; [|done].
  destruct (py_get cb (VStr "attributes") _) as [attrs|]; cbn [bind] in *; [|done].
  destruct (py_get b (VStr "overlays") _) as [ov|]; cbn [bind] in *; [|done].
  destruct (normalize_overlays ov) as [o|]; cbn [bind] in *; [|done].
  destruct (ordering_of data cbid) as [od|]; cbn [bind] in *; done.
Qed.

Lemma normalize_truthy_id (data d : value) (u1 u2 : string) :
  py_get data (VStr "d") VNone = Ok d -> truthy d = true ->
  normalize data u1 = normalize data u2.
Proof.
  intros Hd Ht. destruct (normalize data u1) as [n1|e] eqn:E.
  - destruct (normalize_uuid _ _ u2 _ E) as (d' & Hd' & Hs & ->).
    assert (d' = d) as -> by congruence.
    unfold pick_schema_id in *. rewrite Ht in *. rewrite <- Hs. by destruct n1.
  - symmetry. by eapply normalize_raise_uuid.
Qed.

Section Identifiers.

Variable json_dumps : value -> string.

(** X5. For a document with a truthy top-level id, what the import sends
    does not depend on the identifier that would be generated, and importing
    the document again, in a run that would generate another identifier,
    leaves the store as the first import left it. *)
Theorem reimport_with_id_changes_nothing
  (data d : value) (schema_name u1 u2 : string) (g : graph) :
  py_get data (VStr "d") VNone = Ok d -> truthy d = true ->
  import_oca_package json_dumps data schema_name u1 =
  import_oca_package json_dumps data schema_name u2 /\
  apply_ops (import_oca_package json_dumps data schema_name u2).1
    (apply_ops (import_oca_package json_dumps data schema_name u1).1 g) =
  apply_ops (import_oca_package json_dumps data schema_name u1).1 g.
Proof.
  intros Hd Ht.
  assert (import_oca_package json_dumps data schema_name u1 =
          import_oca_package json_dumps data schema_name u2) as Heq.
  { unfold import_oca_package. by rewrite (normalize_truthy_id _ _ u1 u2 Hd Ht). }
  split; [done|]. rewrite <- Heq.
  destruct (import_headed json_dumps data schema_name u1) as [sid Hh].
  rewrite !apply_ops_sent. eapply headed_run_twice. by apply headed_sent.
Qed.

Lemma import_sends_schema_upsert (data : value) (schema_name uuid4 : string)
  (n : normalized) :
  normalize data uuid4 = Ok n -> schema_id n <> VNone ->
  schema_upsert data schema_name n ∈
    sent (import_oca_package json_dumps data schema_name uuid4).1.
Proof.
  intros Hn Hid. unfold import_oca_package. rewrite Hn. cbn [lifted]. unfold emit.
  pose proof (normalize_mapping _ _ _ Hn) as Hm.
  rewrite (py_get_mapping_ok data) by done. cbn [lifted run then_ fst].
  assert (forall ty rest, SchemaUpsert (schema_id n) (VStr schema_name)
            (capture_base_id n) ty ∈
          sent (SchemaUpsert (schema_id n) (VStr schema_name)
                  (capture_base_id n) ty :: rest)) as Hhead.
  { intros ty rest. simpl. unfold accepted. simpl.
    destruct (schema_id n); try done; left. }
  unfold schema_upsert, get_or. destruct data; try done. apply Hhead.
Qed.


End Identifiers.

Lemma reimport_with_id_changes_nothing_witness :
  apply_ops (import_oca_package (fun _ => "") (example_document "E1" [example_meta])
               "demo" "1111").1
    (apply_ops (import_oca_package (fun _ => "")
                  (example_document "E1" [example_meta]) "demo" "0000").1
       stale_graph) =
  apply_ops (import_oca_package (fun _ => "") (example_document "E1" [example_meta])
               "demo" "0000").1 stale_graph.
Proof.
  apply (reimport_with_id_changes_nothing (fun _ => "")
           (example_document "E1" [example_meta]) (VStr "E1") "demo" "0000" "1111"
           stale_graph); reflexivity.
Defined.


(** ** What a run keeps *)

Lemma run_all_lookup_old (ops : list op) (g : graph) (i : nat) (n : node) :
  nodes g !! i = Some n -> nodes (run_all g ops) !! i = Some (upd_all ops n).
Proof.
  revert g n. induction ops as [|q ops IH]; intros g n H; [done|].
  simpl. apply IH. rewrite exec_nodes. by apply step_nodes_lookup_old.
Qed.

Lemma upd_all_label (ops : list op) (n : node) : label (upd_all ops n) = label n.
Proof. by rewrite upd_all_props. Qed.

(** X7. Where every key binds at most one node, it still does after any
    statements of the importer, and the target of every [MERGE] the store
    took then binds exactly one node. *)
Theorem keys_stay_unique (ops : list op) (g : graph) :
  unique_keys g ->
  unique_keys (apply_ops ops g) /\
  forall q, q ∈ sent ops -> op_creates q = true ->
    exists i, positions (op_target q) (nodes (apply_ops ops g)) = [i].
Proof.
  intros Hu. rewrite apply_ops_sent.
  assert (unique_keys (run_all g (sent ops))) as Hu'.
  { intros p Hp. apply run_all_positions_le1; [done|]. by apply Hu. }
  split; [done|]. intros q Hq Hc. apply positions_singleton.
  - by apply run_all_positions_created.
  - apply Hu'. auto with store.
Qed.

(** X8. No statement of the importer deletes: a node of the store is after
    any run at its position, with its label and with the same keys, changed
    only by the [SET]s of the statements that bind it, in order; and every
    relationship is still there. *)
Theorem stored_nodes_survive (ops : list op) (g : graph) (i : nat) (n : node) :
  nodes g !! i = Some n ->
  nodes (apply_ops ops g) !! i =
    Some (Node (label n) (set_props (sets_for (sent ops) n) (props n))) /\
  (forall p, wf_pattern p ->
     matches_p p (Node (label n) (set_props (sets_for (sent ops) n) (props n))) =
     matches_p p n) /\
  (forall s ty t, has_rel g s ty t -> has_rel (apply_ops ops g) s ty t).
Proof.
  intros H. rewrite apply_ops_sent. rewrite <- upd_all_props. split; [|split].
  - by apply run_all_lookup_old.
  - intros p Hp. by apply upd_all_matches.
  - intros s ty t. apply run_all_rels_mono.
Qed.

Section Frame.

Variable json_dumps : value -> string.

(** X9. An import changes no node of another schema and no attribute the
    capture base does not declare: a Schema node with another id, a Meta node
    with another schema id, and an Attribute node with a name that is no key
    of the attributes are after the import as they were. *)
Theorem import_leaves_other_nodes
  (data : value) (schema_name uuid4 : string) (n : normalized) (g : graph)
  (i : nat) (n0 : node) :
  normalize data uuid4 = Ok n ->
  nodes g !! i = Some n0 ->
  (label n0 = "Schema" -> props n0 !! "id" <> Some (schema_id n)) ->
  (label n0 = "Meta" -> props n0 !! "schema_id" <> Some (schema_id n)) ->
  (label n0 = "Attribute" ->
   forall items a ty, attributes n = VDict items -> (a, ty) ∈ items ->
                      props n0 !! "name" <> Some a) ->
  nodes (apply_ops (import_oca_package json_dumps data schema_name uuid4).1 g) !! i
  = Some n0.
Proof.
  intros Hn Hi Hs Hm Ha. rewrite apply_ops_sent.
  rewrite (run_all_lookup_old _ _ _ _ Hi), upd_all_props.
  rewrite sets_for_nil; [by rewrite node_eta|].
  intros q Hq%sent_subseteq.
  destruct (matches_p (op_target q) n0) eqn:E; [|done]. exfalso.
  apply matches_p_spec in E as [Hl Hk].
  unfold import_oca_package in Hq. rewrite Hn in Hq. cbn [lifted] in Hq.
  apply emit_ops in Hq
    as [(ty & ->)|[(items & [a ty] & Hit & Hin & H)|[(metas & meta & _ & _ & H)|H]]].
  - simpl in Hl, Hk. apply Forall_cons in Hk as [Hk _]. by apply Hs.
  - apply emit_attribute_sent in H as ->. simpl in Hl, Hk.
    apply Forall_cons in Hk as [Hk _].
    destruct (attributes n) as [ | | | | |items'] eqn:Eat; try done.
    injection Hit as ->. by eapply Ha.
  - apply emit_meta_ops in H as (nm & desc & lang & -> & _). simpl in Hl, Hk.
    apply Forall_cons in Hk as [_ Hk]. apply Forall_cons in Hk as [Hk _].
    by apply Hm.
  - apply emit_ordering_ops in H as (_ & ao & eo & ->). simpl in Hl, Hk.
    apply Forall_cons in Hk as [Hk _]. by apply Hs.
Qed.

End Frame.

Lemma keys_stay_unique_witness :
  exists i,
    positions (attribute_pattern (VStr "dob"))
      (nodes (apply_ops (import_oca_package (fun _ => "") (example_document "E1" [])
                           "demo" "0000").1 stale_graph)) = [i].
Proof.
  apply (keys_stay_unique
           (import_oca_package (fun _ => "") (example_document "E1" []) "demo" "0000").1
           stale_graph) with
    (q := attribute_upsert (fun _ => "")
            (Normalized (VStr "E1") (VStr "EB1") (VDict [(VStr "dob", VStr "DateTime")])
               (VDict []) (VDict []) (VDict []) (VDict []) (VDict []) (VList [])
               (VDict []))
            (VStr "dob") (VStr "DateTime")).
  - intros p _. unfold positions. simpl. rewrite filter_cons, filter_nil.
    destruct (decide _); simpl; lia.
  - vm_compute. right. left.
  - reflexivity.
Defined.

Lemma stored_nodes_survive_witness :
  nodes (apply_ops (import_oca_package (fun _ => "") (example_document "E1" [])
                      "demo" "0000").1 stale_graph) !! 0%nat =
  Some (Node "Attribute"
          (set_props
             (sets_for
                (sent (import_oca_package (fun _ => "") (example_document "E1" [])
                         "demo" "0000").1)
                (Node "Attribute" (<["unit" := VStr "d"]> (<["name" := VStr "dob"]> ∅))))
             (<["unit" := VStr "d"]> (<["name" := VStr "dob"]> ∅)))).
Proof.
  exact (proj1 (stored_nodes_survive
           (import_oca_package (fun _ => "") (example_document "E1" []) "demo" "0000").1
           stale_graph 0
           (Node "Attribute" (<["unit" := VStr "d"]> (<["name" := VStr "dob"]> ∅)))
           eq_refl)).
Defined.

Lemma import_leaves_other_nodes_witness :
  nodes (apply_ops (import_oca_package (fun _ => "")
                      (VDict [(VStr "d", VStr "E1")]) "demo" "0000").1 stale_graph)
    !! 0%nat =
  Some (Node "Attribute" (<["unit" := VStr "d"]> (<["name" := VStr "dob"]> ∅))).
Proof.
  apply (import_leaves_other_nodes (fun _ => "") (VDict [(VStr "d", VStr "E1")])
           "demo" "0000"
           (Normalized (VStr "E1") VNone (VDict []) (VDict []) (VDict []) (VDict [])
              (VDict []) (VDict []) (VList []) (VDict []))).
  - reflexivity.
  - reflexivity.
  - discriminate.
  - discriminate.
  - intros _ items a ty [= <-] Hin. by apply elem_of_nil in Hin.
Defined.

(** ** A batch of imports, run twice *)

Lemma schema_upsert_target (q : op) :
  is_schema_upsert q = true ->
  op_target q = schema_pattern (op_schema_id q) /\ op_creates q = true.
Proof. by destruct q. Qed.

Lemma matcher_target (q : op) :
  op_creates q = false -> op_target q = schema_pattern (op_schema_id q).
Proof. by destruct q. Qed.

Lemma grounded_prefix (ops : list op) (q : op) : grounded (ops ++ [q]) -> grounded ops.
Proof.
  intros H ops1 q0 ops2 -> Hq0.
  apply (H ops1 q0 (ops2 ++ [q])); [|done]. by rewrite <- app_assoc.
Qed.

Lemma grounded_app (l1 l2 : list op) : grounded l1 -> grounded l2 -> grounded (l1 ++ l2).
Proof.
  intros H1 H2 ops1 q ops2 Heq Hq.
  revert H2 ops1 ops2 Heq.
  induction l2 as [|q2 l2 IH] using rev_ind; intros H2 ops1 ops2 Heq.
  { rewrite app_nil_r in Heq. by apply (H1 ops1 q ops2). }
  destruct ops2 as [|q3 ops2 _] using rev_ind.
  - rewrite app_assoc in Heq. apply app_inj_tail in Heq as [<- <-].
    destruct (H2 l2 q2 [] eq_refl Hq) as (q' & Hq' & Hs & Hid).
    exists q'. split; [|done]. apply elem_of_app. by right.
  - rewrite app_assoc, (app_comm_cons ops2), (app_assoc ops1) in Heq.
    apply app_inj_tail in Heq as [Heq _].
    apply IH with (ops2 := ops2); [by eapply grounded_prefix|done].
Qed.

Lemma grounded_concat (ls : list (list op)) :
  Forall grounded ls -> grounded (concat ls).
Proof.
  induction 1 as [|l ls Hl _ IH]; simpl.
  - intros ops1 q ops2 Heq. by destruct ops1.
  - by apply grounded_app.
Qed.

Lemma headed_grounded (sid : value) (ops : list op) : headed sid ops -> grounded ops.
Proof.
  intros Hh ops1 q ops2 -> Hq.
  destruct ops1 as [|q0 ops1].
  - destruct Hh as [(nm & cb & ty & ->) _]. done.
  - destruct Hh as [(nm & cb & ty & ->) Hrest].
    exists (SchemaUpsert sid nm cb ty). split; [left|]. split; [done|].
    assert (follows sid q) as [-> _]; [|done].
    apply (proj1 (Forall_forall _ _) Hrest). apply elem_of_app. right. left.
Qed.

(** A grounded run has merged the Schema node of every statement. *)
Lemma grounded_schema_created (ops : list op) (q : op) :
  grounded ops -> q ∈ ops ->
  exists q', q' ∈ ops /\ op_creates q' = true /\
             op_target q' = schema_pattern (op_schema_id q).
Proof.
  intros Hg Hin. destruct (is_schema_upsert q) eqn:E.
  - exists q. by destruct (schema_upsert_target q E) as [-> ->].
  - apply list_elem_of_split in Hin as (l1 & l2 & ->).
    destruct (Hg l1 q l2 eq_refl E) as (q' & Hq' & Hs & Hid).
    exists q'. destruct (schema_upsert_target q' Hs) as [-> ->]. rewrite Hid.
    split; [|done]. apply elem_of_app. by left.
Qed.

Lemma grounded_rel_closed (ops : list op) (g : graph) (q : op) (ty : string) :
  grounded ops -> q ∈ ops -> op_rel q = Some ty ->
  rel_closed (run_all g ops) ty (schema_pattern (op_schema_id q)) (op_target q).
Proof.
  intros Hg Hin Hrel.
  assert (is_schema_upsert q = false) as E by (by destruct q).
  apply list_elem_of_split in Hin as (l1 & l2 & ->).
  destruct (Hg l1 q l2 eq_refl E) as (q' & Hq' & Hs & Hid).
  rewrite foldl_app. apply run_all_rel_closed; [left|done|].
  rewrite <- Hid. destruct (schema_upsert_target q' Hs) as [<- Hc].
  by apply run_all_positions_created.
Qed.

Lemma grounded_nodes_fixed (ops : list op) (g : graph) (i : nat) (n : node) :
  grounded ops -> nodes (run_all g ops) !! i = Some n -> upd_all ops n = n.
Proof.
  revert i n. induction ops as [|q ops IH] using rev_ind; intros i n Hg Hn; [done|].
  pose proof (grounded_prefix _ _ Hg) as Hg'.
  rewrite run_all_snoc, exec_nodes in Hn.
  rewrite upd_all_app.
  change (upd_all [q] (upd_all ops n))
    with (upd (op_target q) (op_sets q) (upd_all ops n)).
  apply step_nodes_lookup in Hn as [(m & Hm & ->)|(_ & Hc & Hnil & ->)].
  - apply upd_all_upd_fixed. by eapply IH.
  - apply upd_all_fresh_fixed. intros q' Hq'.
    destruct (matches_p (op_target q') (fresh (op_target q))) eqn:E; [|done].
    apply fresh_matches_inj in E; auto with store.
    destruct (op_creates q') eqn:Hc'.
    + pose proof (run_all_positions_created ops g q' Hq' Hc') as Hne.
      by rewrite E in Hne.
    + destruct (grounded_schema_created ops q' Hg' Hq') as (q'' & Hin & Hcr & Ht).
      pose proof (run_all_positions_created ops g q'' Hin Hcr) as Hne.
      by rewrite Ht, <- (matcher_target q' Hc'), E in Hne.
Qed.

(** The statements of a batch of imports, run twice, leave the store as one
    run leaves it. *)
Lemma grounded_run_twice (ops : list op) (g : graph) :
  grounded ops -> run_all (run_all g ops) ops = run_all g ops.
Proof.
  intros Hg. rewrite run_all_saturated.
  - assert (map (upd_all ops) (nodes (run_all g ops)) = nodes (run_all g ops)) as ->.
    { apply list_eq. intros i. rewrite list_lookup_fmap.
      destruct (nodes (run_all g ops) !! i) as [n|] eqn:E; [|done]. simpl.
      f_equal. by eapply grounded_nodes_fixed. }
    by destruct (run_all g ops).
  - intros q Hq. split.
    + intros Hc. by apply run_all_positions_created.
    + intros ty Hrel. by apply grounded_rel_closed.
Qed.

(** ** File names *)

Lemma append_cons (c : Ascii.ascii) (a b : string) : String c a +:+ b = String c (a +:+ b).
Proof. reflexivity. Qed.

Lemma append_nil (b : string) : "" +:+ b = b.
Proof. reflexivity. Qed.

Lemma py_startswith_length (s t : string) :
  py_startswith s t = true -> (String.length t <= String.length s)%nat.
Proof.
  revert s. induction t as [|b t IH]; intros s H; simpl; [lia|].
  destruct s as [|a s]; [done|]. simpl in H.
  apply andb_prop in H as [_ H]. apply IH in H. simpl. lia.
Qed.

Lemma append_assoc (a b c : string) : (a +:+ b) +:+ c = a +:+ (b +:+ c).
Proof.
  induction a as [|x a IH]; [done|]. by rewrite !append_cons, IH.
Qed.

Lemma append_length (a b : string) :
  String.length (a +:+ b) = (String.length a + String.length b)%nat.
Proof.
  induction a as [|x a IH]; [done|]. rewrite append_cons. simpl. by rewrite IH.
Qed.

Lemma drop_chars_app (a b : string) : drop_chars (String.length a) (a +:+ b) = b.
Proof.
  induction a as [|x a IH]; [by destruct b|]. by rewrite append_cons.
Qed.

Lemma drop_chars_split (n : nat) (s : string) : exists a, s = a +:+ drop_chars n s.
Proof.
  revert s. induction n as [|n IH]; intros s.
  { exists EmptyString. by destruct s. }
  destruct s as [|c s]; [by exists EmptyString|].
  destruct (IH s) as [a Ha]. exists (String c a). rewrite append_cons. simpl.
  by rewrite <- Ha.
Qed.

Lemma py_endswith_spec (s t : string) :
  py_endswith s t = true <-> exists a, s = a +:+ t.
Proof.
  unfold py_endswith. split.
  - intros [_ H]%andb_prop. apply String.eqb_eq in H.
    destruct (drop_chars_split (String.length s - String.length t) s) as [a Ha].
    exists a. by rewrite H in Ha.
  - intros [a ->]. rewrite append_length. apply andb_true_intro. split.
    + apply Nat.leb_le. lia.
    + replace (String.length a + String.length t - String.length t)%nat
        with (String.length a) by lia.
      rewrite drop_chars_app. apply String.eqb_refl.
Qed.

Lemma occurs_slash_app (a b : string) :
  occurs "/" (a +:+ b) = occurs "/" a || occurs "/" b.
Proof.
  induction a as [|c a IH].
  - rewrite append_nil. by destruct b.
  - rewrite append_cons. cbn [occurs py_startswith]. rewrite IH.
    destruct (Ascii.eqb c _); simpl; done.
Qed.

Lemma posix_basename_plain (b : string) : occurs "/" b = false -> posix_basename b = b.
Proof.
  destruct b as [|c b]; [done|]. cbn [occurs posix_basename].
  intros [H1 H2]%orb_false_elim. by rewrite H2, H1.
Qed.

Lemma posix_basename_after_slash (a b : string) :
  occurs "/" b = false -> posix_basename (a +:+ "/" +:+ b) = b.
Proof.
  intros Hb. induction a as [|c a IH].
  - rewrite append_nil, append_cons, append_nil. simpl. by rewrite Hb.
  - rewrite append_cons. cbn [posix_basename]. rewrite occurs_slash_app.
    replace (occurs "/" ("/" +:+ b)) with true by done.
    by rewrite orb_true_r.
Qed.

(** The file name is what [basename] gives back of the joined path. *)
Lemma posix_basename_join (a b : string) :
  occurs "/" b = false -> posix_basename (posix_join a b) = b.
Proof.
  intros Hb. unfold posix_join.
  assert (py_startswith b "/" = false) as ->.
  { destruct b as [|c b]; [done|]. cbn [occurs] in Hb.
    by apply orb_false_elim in Hb as [-> _]. }
  destruct (String.eqb a "") eqn:Ea.
  { apply String.eqb_eq in Ea as ->. simpl. by apply posix_basename_plain. }
  destruct (py_endswith a "/") eqn:Ee; simpl.
  - apply py_endswith_spec in Ee as [a' ->]. rewrite append_assoc.
    by apply posix_basename_after_slash.
  - by apply posix_basename_after_slash.
Qed.

Lemma replace_from_none (old new s : string) :
  occurs old s = false -> replace_from old new 0 s = s.
Proof.
  induction s as [|c s IH]; [done|]. cbn [occurs replace_from].
  intros [-> H]%orb_false_elim. by rewrite IH.
Qed.

Lemma py_startswith_app_json (s : string) :
  s <> EmptyString ->
  py_startswith (s +:+ ".json") ".json" = py_startswith s ".json".
Proof.
  intros Hs.
  destruct s as [|c1 [|c2 [|c3 [|c4 [|c5 s]]]]]; [done|..];
    rewrite ?append_cons, ?append_nil; simpl;
    repeat (destruct (Ascii.eqb _ _); simpl; try done).
Qed.

Lemma replace_from_app_json (s : string) (skip : nat) :
  (skip <= String.length s)%nat ->
  replace_from ".json" "" skip (s +:+ ".json") = replace_from ".json" "" skip s.
Proof.
  revert skip. induction s as [|c s IH]; intros skip Hk.
  { simpl in Hk. by replace skip with 0%nat by lia. }
  pose proof (py_startswith_app_json (String c s)) as Hp.
  rewrite append_cons in *. cbn [replace_from]. destruct skip as [|k].
  - rewrite Hp by done.
    destruct (py_startswith (String c s) ".json") eqn:E.
    + apply py_startswith_length in E. simpl in E. rewrite IH; [done|simpl; lia].
    + rewrite IH; [done|lia].
  - apply IH. simpl in Hk. lia.
Qed.

(** X10. A file [base].json of the listing, in whatever folder, passes the
    filter of the scan, and its schema name is [base] with every ".json"
    removed from it: [base] itself when ".json" does not occur in it. *)
Theorem schema_name_of_listed_file (schema_folder base : string) :
  occurs "/" base = false ->
  py_endswith (base +:+ ".json") ".json" = true /\
  schema_name_of (posix_join schema_folder (base +:+ ".json")) =
    py_replace base ".json" "" /\
  (occurs ".json" base = false ->
   schema_name_of (posix_join schema_folder (base +:+ ".json")) = base).
Proof.
  intros Hb.
  assert (schema_name_of (posix_join schema_folder (base +:+ ".json")) =
          py_replace base ".json" "") as Heq.
  { unfold schema_name_of. rewrite posix_basename_join.
    - unfold py_replace. apply replace_from_app_json. lia.
    - rewrite occurs_slash_app, Hb. done. }
  split; [|split; [done|]].
  - apply py_endswith_spec. by exists base.
  - intros Hj. rewrite Heq. by apply replace_from_none.
Qed.

Lemma schema_name_of_listed_file_witness :
  schema_name_of (posix_join "./schemas" ("patient" +:+ ".json")) = "patient".
Proof.
  apply (schema_name_of_listed_file "./schemas" "patient"); reflexivity.
Defined.

(** ** The batch *)

Lemma grounded_nil : grounded [].
Proof. intros ops1 q ops2 Heq. by destruct ops1. Qed.

Lemma find_rejected_sent (ops : list op) :
  List.find (fun q => negb (accepted q)) ops = None -> sent ops = ops.
Proof.
  induction ops as [|q ops IH]; [done|]. simpl.
  destruct (accepted q); simpl; [|done]. intros H. by rewrite IH.
Qed.

Section Main.

Variable json_dumps : value -> string.

Lemma import_file_store (fs : files) (uuid4 : string -> string)
  (schema_folder file_name : string) (g : graph) :
  (import_file json_dumps fs (posix_join schema_folder file_name)
     (uuid4 file_name) g).2 =
  run_all g (file_statements json_dumps fs uuid4 schema_folder file_name).
Proof.
  unfold import_file, file_statements.
  destruct (load_json fs _) as [data|]; [|done]. simpl. apply apply_ops_sent.
Qed.

Lemma import_files_store (fs : files) (uuid4 : string -> string)
  (schema_folder : string) (json_files : list string) (g : graph) :
  (import_files json_dumps fs uuid4 schema_folder json_files g).2 =
  run_all g (concat (map (file_statements json_dumps fs uuid4 schema_folder)
                       json_files)).
Proof.
  revert g. induction json_files as [|f l IH]; intros g; [done|].
  cbn [import_files snd map concat]. by rewrite IH, import_file_store, foldl_app.
Qed.

Lemma import_files_app (fs : files) (uuid4 : string -> string)
  (schema_folder : string) (l1 l2 : list string) (g : graph) :
  import_files json_dumps fs uuid4 schema_folder (l1 ++ l2) g =
  ((import_files json_dumps fs uuid4 schema_folder l1 g).1 ++
   (import_files json_dumps fs uuid4 schema_folder l2
      (import_files json_dumps fs uuid4 schema_folder l1 g).2).1,
   (import_files json_dumps fs uuid4 schema_folder l2
      (import_files json_dumps fs uuid4 schema_folder l1 g).2).2).
Proof.
  revert g. induction l1 as [|f l1 IH]; intros g.
  { simpl. by destruct (import_files _ _ _ _ l2 g). }
  cbn [app import_files fst snd]. rewrite IH. cbn [fst snd].
  by rewrite <- !app_assoc.
Qed.

Lemma main_store (fs : files) (uuid4 : string -> string) (schema_folder : string)
  (g : graph) :
  store (main json_dumps fs uuid4 schema_folder g) =
  run_all g (main_statements json_dumps fs uuid4 schema_folder).
Proof.
  unfold main, main_statements.
  destruct (path_exists fs schema_folder); [|done].
  destruct (path_isdir fs schema_folder); [|done]. simpl.
  destruct (listdir fs schema_folder) as [names|]; [|done].
  destruct (json_files_of names) as [|f l] eqn:E; [done|].
  exact (import_files_store fs uuid4 schema_folder (f :: l) g).
Qed.

Lemma file_statements_grounded (fs : files) (uuid4 : string -> string)
  (schema_folder file_name : string) :
  grounded (file_statements json_dumps fs uuid4 schema_folder file_name).
Proof.
  unfold file_statements. destruct (load_json fs _) as [data|]; [|apply grounded_nil].
  destruct (import_headed json_dumps data
              (schema_name_of (posix_join schema_folder file_name))
              (uuid4 file_name)) as [sid H].
  by eapply headed_grounded, headed_sent.
Qed.

Lemma main_statements_grounded (fs : files) (uuid4 : string -> string)
  (schema_folder : string) :
  grounded (main_statements json_dumps fs uuid4 schema_folder).
Proof.
  unfold main_statements.
  destruct (_ && _); [|apply grounded_nil].
  destruct (listdir fs schema_folder) as [names|]; [|apply grounded_nil].
  apply grounded_concat, Forall_forall.
  intros ops (f & -> & _)%list_elem_of_fmap. apply file_statements_grounded.
Qed.

Lemma import_uuid_irrelevant (data : value) (schema_name u1 u2 : string) :
  (forall d, py_get data (VStr "d") VNone = Ok d -> truthy d = true) ->
  import_oca_package json_dumps data schema_name u1 =
  import_oca_package json_dumps data schema_name u2.
Proof.
  intros H. unfold import_oca_package.
  assert (normalize data u1 = normalize data u2) as ->; [|done].
  destruct (normalize data u1) as [n|e] eqn:E.
  - destruct (normalize_uuid _ _ u2 _ E) as (d & Hd & _).
    rewrite <- E. apply (normalize_truthy_id data d); [done|by apply H].
  - symmetry. by eapply normalize_raise_uuid.
Qed.

Lemma elem_of_json_files_of (names : list string) (f : string) :
  f ∈ json_files_of names <-> f ∈ names /\ py_endswith f ".json" = true.
Proof.
  unfold json_files_of. rewrite !list_elem_of_In.
  exact (filter_In (fun f => py_endswith f ".json") f names).
Qed.

Lemma import_files_error (fs : files) (uuid4 : string -> string)
  (schema_folder : string) (json_files : list string) (g : graph)
  (f : string) (e : failure) :
  f ∈ json_files ->
  (forall g', (import_file json_dumps fs (posix_join schema_folder f) (uuid4 f) g').1.2
              = Some e) ->
  ErrorImporting f e ∈ (import_files json_dumps fs uuid4 schema_folder json_files g).1.
Proof.
  intros Hin He. apply list_elem_of_split in Hin as (l1 & l2 & ->).
  rewrite import_files_app. cbn [fst]. apply elem_of_app. right.
  cbn [import_files fst]. rewrite He. apply elem_of_app. right. left.
Qed.

(** X11. Batch isolation.  A file whose document makes the normalisation
    raise changes nothing in the store: the loop over the files leaves the
    store that it leaves without that file, and prints, between the lines of
    the files before and after it, the line of the import and the error. *)
Theorem malformed_file_is_skipped
  (fs : files) (uuid4 : string -> string) (schema_folder : string)
  (l1 l2 : list string) (f : string) (data : value) (e : exn) (g : graph) :
  load_json fs (posix_join schema_folder f) = Some data ->
  normalize data (uuid4 f) = Raise e ->
  (import_files json_dumps fs uuid4 schema_folder (l1 ++ f :: l2) g).2 =
  (import_files json_dumps fs uuid4 schema_folder (l1 ++ l2) g).2 /\
  (import_files json_dumps fs uuid4 schema_folder (l1 ++ f :: l2) g).1 =
  (import_files json_dumps fs uuid4 schema_folder l1 g).1 ++
  [Processing (schema_name_of (posix_join schema_folder f));
   ErrorImporting f (Raised e)] ++
  (import_files json_dumps fs uuid4 schema_folder l2
     (import_files json_dumps fs uuid4 schema_folder l1 g).2).1.
Proof.
  intros Hload Hn.
  assert (forall g', import_file json_dumps fs (posix_join schema_folder f)
                       (uuid4 f) g' =
                     ([Processing (schema_name_of (posix_join schema_folder f))],
                      Some (Raised e), g')) as Hf.
  { intros g'. unfold import_file, import_oca_package. by rewrite Hload, Hn. }
  rewrite !import_files_app. cbn [import_files fst snd]. by rewrite !Hf.
Qed.

Lemma main_printed (fs : files) (uuid4 : string -> string) (schema_folder : string)
  (g : graph) (names : list string) :
  path_exists fs schema_folder = true ->
  path_isdir fs schema_folder = true ->
  listdir fs schema_folder = Some names ->
  json_files_of names <> [] ->
  printed (main json_dumps fs uuid4 schema_folder g) =
    [Scanning schema_folder; Found (length (json_files_of names))] ++
    (import_files json_dumps fs uuid4 schema_folder (json_files_of names) g).1 ++
    [AllImported] /\
  uncaught (main json_dumps fs uuid4 schema_folder g) = false.
Proof.
  intros He Hd Hl Hne. unfold main. rewrite He, Hd, Hl.
  by destruct (json_files_of names) as [|f0 l].
Qed.


(** X13. A second run of [main] on the same folder leaves the store as the
    first run left it, whatever identifiers the two runs generate, when the
    top-level id of every document of the listing is truthy. *)
Theorem main_is_idempotent
  (fs : files) (u1 u2 : string -> string) (schema_folder : string) (g : graph) :
  (forall names f data d,
     listdir fs schema_folder = Some names -> f ∈ names ->
     load_json fs (posix_join schema_folder f) = Some data ->
     py_get data (VStr "d") VNone = Ok d -> truthy d = true) ->
  store (main json_dumps fs u2 schema_folder
           (store (main json_dumps fs u1 schema_folder g))) =
  store (main json_dumps fs u1 schema_folder g).
Proof.
  intros Hid. rewrite !main_store.
  assert (main_statements json_dumps fs u2 schema_folder =
          main_statements json_dumps fs u1 schema_folder) as ->.
  { unfold main_statements. destruct (_ && _); [|done].
    destruct (listdir fs schema_folder) as [names|] eqn:El; [|done].
    f_equal. apply map_ext_in. intros f Hf%list_elem_of_In.
    apply elem_of_json_files_of in Hf as [Hf _].
    unfold file_statements.
    destruct (load_json fs (posix_join schema_folder f)) as [data|] eqn:Eload;
      [|done].
    f_equal. f_equal. apply import_uuid_irrelevant. intros d Hd.
    by apply (Hid names f data d). }
  apply grounded_run_twice, main_statements_grounded.
Qed.

End Main.

Lemma malformed_file_is_skipped_witness :
  (import_files (fun _ => "") example_files (fun f => f) "schemas"
     (["a.json"] ++ "b.json" :: ["c.json"; "d.json"]) empty_graph).2 =
  (import_files (fun _ => "") example_files (fun f => f) "schemas"
     (["a.json"] ++ ["c.json"; "d.json"]) empty_graph).2.
Proof.
  exact (proj1 (malformed_file_is_skipped (fun _ => "") example_files (fun f => f)
                  "schemas" ["a.json"] ["c.json"; "d.json"] "b.json"
                  malformed_document AttributeError empty_graph eq_refl eq_refl)).
Defined.


Lemma main_is_idempotent_witness :
  store (main (fun _ => "") example_files (fun f => "second")%string "schemas"
           (store (main (fun _ => "") example_files (fun f => "first")%string
                     "schemas" empty_graph))) =
  store (main (fun _ => "") example_files (fun f => "first")%string "schemas"
           empty_graph).
Proof.
  apply (main_is_idempotent (fun _ => "") example_files).
  intros names f data d [= <-] Hin Hload Hd.
  repeat (apply elem_of_cons in Hin as [->|Hin]);
    try (by apply elem_of_nil in Hin);
    vm_compute in Hload; try done; injection Hload as <-;
    vm_compute in Hd; injection Hd as <-; reflexivity.
Defined.

(** ** The Schema node *)

Lemma schema_id_not_null (data : value) (uuid4 : string) (n : normalized) :
  normalize data uuid4 = Ok n -> schema_id n <> VNone.
Proof.
  intros Hn. destruct (normalize_uuid _ _ uuid4 _ Hn) as (d & _ & -> & _).
  unfold pick_schema_id. destruct (truthy d) eqn:E; [|done]. by destruct d.
Qed.

Lemma sets_for_keys (ops : list op) (n : node) (k : string) :
  (forall q, q ∈ ops -> matches_p (op_target q) n = true -> k ∉ (op_sets q).*1) ->
  k ∉ (sets_for ops n).*1.
Proof.
  induction ops as [|q ops IH]; intros H; simpl; [apply not_elem_of_nil|].
  rewrite fmap_app. apply not_elem_of_app. split.
  - destruct (matches_p (op_target q) n) eqn:E; [|apply not_elem_of_nil].
    apply H; [left|done].
  - apply IH. intros q' Hq'. apply H. by right.
Qed.

Section SchemaNode.

Variable json_dumps : value -> string.

Lemma import_statements_head (data : value) (schema_name uuid4 : string)
  (n : normalized) :
  normalize data uuid4 = Ok n ->
  exists rest,
    (import_oca_package json_dumps data schema_name uuid4).1 =
      schema_upsert data schema_name n :: rest /\
    Forall (follows (schema_id n)) rest.
Proof.
  intros Hn.
  pose proof (emit_headed json_dumps data schema_name n) as Hh.
  unfold import_oca_package. rewrite Hn. cbn [lifted].
  unfold emit in *.
  pose proof (normalize_mapping _ _ _ Hn) as Hm.
  rewrite (py_get_mapping_ok data) in * by done. cbn [lifted run then_ fst] in *.
  eexists. split.
  - unfold schema_upsert, get_or. destruct data; try done.
  - simpl in Hh. by destruct Hh as [_ Hh].
Qed.


(** X15. When the ordering data is not empty, that is when the extension
    "adc" has the capture base id as a key, an import that runs to its end
    sends the ordering update last, and afterwards every Schema node of the
    schema has the attribute ordering of the document and the serialised
    entry code ordering, be they the defaults: an ordering stored before is
    replaced. *)
Theorem ordering_is_written_when_keyed
  (data : value) (schema_name uuid4 : string) (n : normalized) (ops : list op) :
  normalize data uuid4 = Ok n ->
  import_oca_package json_dumps data schema_name uuid4 = (ops, None) ->
  Forall (fun q => accepted q = true) ops ->
  truthy (ordering_data n) = true ->
  exists ao eo,
    ordering_data n = VDict [(VStr "attribute_ordering", ao);
                             (VStr "entry_code_ordering", eo)] /\
    last ops = Some (OrderingUpdate (schema_id n) ao (VStr (json_dumps eo))) /\
    forall g i n',
      nodes (apply_ops ops g) !! i = Some n' ->
      matches_p (schema_pattern (schema_id n)) n' = true ->
      props n' !! "attribute_ordering" = stored ao /\
      props n' !! "entry_code_ordering" = Some (VStr (json_dumps eo)).
Proof.
  intros Hn Himp Hacc Ht.
  pose proof Hn as (b & cb & d & ov & o & _ & _ & _ & _ & _ & _ & _ & Hod & _)%normalize_inv.
  apply ordering_of_shape in Hod as [Hod|(ao & eo & Hod)].
  { by rewrite Hod in Ht. }
  exists ao, eo. split; [done|].
  unfold import_oca_package in Himp. rewrite Hn in Himp.
  cbn [lifted] in Himp. unfold emit in Himp.
  apply then_done in Himp as (ops1 & ops2 & _ & H & ->).
  apply then_done in H as (ops3 & ops4 & _ & H & ->).
  apply then_done in H as (ops5 & ops6 & _ & Ho & ->).
  apply emit_ordering_complete in Ho as ->.
  unfold ordering_updates in *. rewrite Ht in *. rewrite Hod in *.
  change (get_or _ "attribute_ordering" _) with ao in *.
  change (get_or _ "entry_code_ordering" _) with eo in *.
  set (q := OrderingUpdate (schema_id n) ao (VStr (json_dumps eo))) in *.
  rewrite !app_assoc in *. split; [by rewrite last_snoc|].
  intros g i n' Hi Hm.
  rewrite apply_ops_sent, sent_all, run_all_snoc in Hi by done.
  split.
  - apply (exec_sets q _ i n' "attribute_ordering" ao Hi Hm). set_solver.
  - apply (exec_sets q _ i n' "entry_code_ordering" (VStr (json_dumps eo)) Hi Hm).
    set_solver.
Qed.


End SchemaNode.


Lemma ordering_is_written_when_keyed_witness :
  exists ao eo,
    VDict [(VStr "attribute_ordering", VList []); (VStr "entry_code_ordering", VDict [])]
    = VDict [(VStr "attribute_ordering", ao); (VStr "entry_code_ordering", eo)] /\
    last (import_oca_package (fun _ => "{}") keyed_document "demo" "0000").1 =
      Some (OrderingUpdate (VStr "E1") ao (VStr "{}")) /\
    forall g i n',
      nodes (apply_ops (import_oca_package (fun _ => "{}") keyed_document
                          "demo" "0000").1 g) !! i = Some n' ->
      matches_p (schema_pattern (VStr "E1")) n' = true ->
      props n' !! "attribute_ordering" = stored ao /\
      props n' !! "entry_code_ordering" = Some (VStr "{}").
Proof.
  apply (ordering_is_written_when_keyed (fun _ => "{}") keyed_document "demo" "0000"
           (Normalized (VStr "E1") (VStr "EB1")
              (VDict [(VStr "dob", VStr "DateTime")]) (VDict []) (VDict [])
              (VDict []) (VDict []) (VDict []) (VList [])
              (VDict [(VStr "attribute_ordering", VList []);
                      (VStr "entry_code_ordering", VDict [])]))
           (import_oca_package (fun _ => "{}") keyed_document "demo" "0000").1).
  - reflexivity.
  - reflexivity.
  - vm_compute. repeat constructor.
  - reflexivity.
Defined.


(** ** The relationships of a run *)

Lemma positions_step_mono (p : pattern) (q : op) (ns : list node) (i : nat) :
  wf_pattern p -> i ∈ positions p ns -> i ∈ positions p (step_nodes q ns).
Proof.
  intros Hp (n & Hn & Hm)%elem_of_positions. apply elem_of_positions.
  exists (upd (op_target q) (op_sets q) n). split.
  - by apply step_nodes_lookup_old.
  - rewrite upd_matches; auto with store.
Qed.

(** A relationship of the store after a run was there before, or joins the
    nodes a statement of the run binds. *)
Lemma run_all_rels (ops : list op) (g : graph) (s t : nat) (ty : string) :
  has_rel (run_all g ops) s ty t ->
  has_rel g s ty t \/
  exists q, q ∈ ops /\ op_rel q = Some ty /\
    s ∈ positions (schema_pattern (op_schema_id q)) (nodes (run_all g ops)) /\
    t ∈ positions (op_target q) (nodes (run_all g ops)).
Proof.
  induction ops as [|q ops IH] using rev_ind; [by left|].
  rewrite run_all_snoc. unfold has_rel at 1.
  assert ((s, ty, t) ∈ rels (exec q (run_all g ops)) ->
          (s, ty, t) ∈ rels (run_all g ops) \/
          (op_rel q = Some ty /\
           s ∈ positions (schema_pattern (op_schema_id q))
                 (nodes (exec q (run_all g ops))) /\
           t ∈ positions (op_target q) (nodes (exec q (run_all g ops))))) as Hstep.
  { rewrite exec_nodes. unfold exec. destruct (op_rel q) as [ty'|]; [|by left].
    intros [H|(s' & t' & Hs & Ht & [= -> -> ->])]%merge_rels_rels; [by left|].
    by right. }
  intros [H|(Hrel & Hs & Ht)]%Hstep.
  - destruct (IH H) as [?|(q' & Hq' & Hrel & Hs & Ht)]; [by left|]. right.
    exists q'. rewrite exec_nodes. split; [apply elem_of_app; by left|].
    split; [done|]. split; apply positions_step_mono; auto with store.
  - right. exists q. split; [apply elem_of_app; right; left|done].
Qed.

Section Relationships.

Variable json_dumps : value -> string.

(** X17. An import adds no relationship but from a Schema node of its
    schema id: of type HAS_ATTRIBUTE to the node of an attribute the capture
    base declares, or of type HAS_META to a Meta node of the schema. *)
Theorem import_relationships
  (data : value) (schema_name uuid4 : string) (n : normalized) (g : graph)
  (s t : nat) (ty : string) :
  normalize data uuid4 = Ok n ->
  has_rel (apply_ops (import_oca_package json_dumps data schema_name uuid4).1 g)
    s ty t ->
  ~ has_rel g s ty t ->
  s ∈ positions (schema_pattern (schema_id n))
        (nodes (apply_ops (import_oca_package json_dumps data schema_name uuid4).1 g))
  /\
  ((ty = "HAS_ATTRIBUTE" /\
    exists items a aty,
      attributes n = VDict items /\ (a, aty) ∈ items /\
      t ∈ positions (attribute_pattern a)
            (nodes (apply_ops
                      (import_oca_package json_dumps data schema_name uuid4).1 g)))
   \/
   (ty = "HAS_META" /\
    exists name lang,
      t ∈ positions (meta_pattern name (schema_id n) lang)
            (nodes (apply_ops
                      (import_oca_package json_dumps data schema_name uuid4).1 g)))).
Proof.
  intros Hn Hrel Hnew. rewrite apply_ops_sent in *.
  apply run_all_rels in Hrel as [?|(q & Hq%sent_subseteq & Hty & Hs & Ht)]; [done|].
  unfold import_oca_package in Hq. rewrite Hn in Hq. cbn [lifted] in Hq.
  apply emit_ops in Hq
    as [(sty & ->)|[(items & [a aty] & Hit & Hin & H)|[(metas & meta & _ & _ & H)|H]]].
  - done.
  - apply emit_attribute_sent in H as ->. simpl in *. injection Hty as <-.
    split; [done|]. left. split; [done|].
    destruct (attributes n) as [ | | | | |items'] eqn:Eat; try done.
    injection Hit as ->. by exists items, a, aty.
  - apply emit_meta_ops in H as (nm & desc & lang & -> & _). simpl in *.
    injection Hty as <-. split; [done|]. right. split; [done|]. by exists nm, lang.
  - by apply emit_ordering_ops in H as (_ & ao & eo & ->).
Qed.

End Relationships.

Lemma import_relationships_witness :
  1%nat ∈ positions (schema_pattern (VStr "E1"))
    (nodes (apply_ops (import_oca_package (fun _ => "") (example_document "E1" [])
                         "demo" "0000").1 stale_graph)).
Proof.
  exact (proj1 (import_relationships (fun _ => "") (example_document "E1" [])
                  "demo" "0000"
                  (Normalized (VStr "E1") (VStr "EB1")
                     (VDict [(VStr "dob", VStr "DateTime")]) (VDict []) (VDict [])
                     (VDict []) (VDict []) (VDict []) (VList []) (VDict []))
                  stale_graph 1 0 "HAS_ATTRIBUTE" eq_refl
                  ltac:(vm_compute; left)
                  ltac:(intros H; by apply elem_of_nil in H))).
Defined.
